(** * PyGeodesy: geodetic points and spherical trigonometry

    A shallow embedding of [pygeodesy/bases.py] (class [LatLonHeightBase])
    and [pygeodesy/sphericalTrigonometry.py] (class [LatLon], functions
    [intersection], [meanOf], [_destination2], [_haversine3]).

    Numbers.  Python floats are embedded as real numbers.  In the first
    part arithmetic is exact, and the functions of Python's [math] module
    are the ones of the real analysis library.  What Python makes partial
    stays partial: a division by zero raises [ZeroDivisionError], [sqrt],
    [acos] and [asin] outside their domain raise [ValueError].  Where a
    rounding error decides what a function does - the winding of a
    polygon, a 'math domain error' of [destination] and [intersection] -
    the function is embedded a second time, in module [rounded], over an
    arithmetic whose operations are left open: what is proved there holds
    of the exact operations and of the rounded ones of binary64 alike.
    Infinities and NaN are outside this model.

    Objects.  A point is a record; a method that assigns to [self] returns
    the new record.  Exceptions are the [Raise] results of an error monad. *)

From Stdlib Require Import Reals Machin Lra Lia List String Bool Arith.
Import ListNotations.
Open Scope R_scope.

(** ** Exceptions and results *)

(** The [ValueError]s of the two modules, by the text they carry. *)
Inductive value_error : Type :=
| TooFewPoints (n : nat)   (* 'too few points: %s' % (n,) *)
| ZeroArea                 (* 'zero area: %r' *)
| Parallel                 (* 'intersection parallel: ...' *)
| Infinite                 (* 'intersection infinite: ...' *)
| Ambiguous                (* 'intersection ambiguous: ...' *)
| MathDomain.              (* 'math domain error', from math.sqrt/acos/asin *)

Inductive exn : Type :=
| ValueError (e : value_error)
| ZeroDivisionError
| IndexError
| AttributeError (name : string).

Inductive result (A : Type) : Type :=
| Ok (a : A)
| Raise (e : exn).

Arguments Ok {A} a.
Arguments Raise {A} e.

Definition bind {A B : Type} (m : result A) (k : A -> result B) : result B :=
  match m with
  | Ok a => k a
  | Raise e => Raise e
  end.

Notation "x <- m ;; k" := (bind m (fun x => k))
  (at level 61, m at next level, right associativity).
Notation "' p <- m ;; k" := (bind m (fun x => let p := x in k))
  (at level 61, p pattern, m at next level, right associativity).

Fixpoint mapM {A B : Type} (f : A -> result B) (l : list A) : result (list B) :=
  match l with
  | [] => Ok []
  | a :: l' => b <- f a ;; bs <- mapM f l' ;; Ok (b :: bs)
  end.

(** ** Python's comparisons and [math] functions on floats *)

Definition eqb (x y : R) : bool := if Req_dec_T x y then true else false.
Definition neqb (x y : R) : bool := negb (eqb x y).
Definition ltb (x y : R) : bool := if Rlt_dec x y then true else false.
Definition gtb (x y : R) : bool := ltb y x.

(** [x / y] on floats. *)
Definition div (x y : R) : result R :=
  if eqb y 0 then Raise ZeroDivisionError else Ok (x / y).

(** [math.sqrt], [math.acos], [math.asin]. *)
Definition py_sqrt (x : R) : result R :=
  if ltb x 0 then Raise (ValueError MathDomain) else Ok (sqrt x).

Definition py_acos (x : R) : result R :=
  if ltb x (-1) || ltb 1 x then Raise (ValueError MathDomain) else Ok (acos x).

Definition py_asin (x : R) : result R :=
  if ltb x (-1) || ltb 1 x then Raise (ValueError MathDomain) else Ok (asin x).

(** [math.atan2(y, x)], never raises. *)
Definition atan2 (y x : R) : R :=
  if ltb 0 x then atan (y / x)
  else if ltb x 0 then (if ltb y 0 then atan (y / x) - PI else atan (y / x) + PI)
  else if ltb 0 y then PI / 2
  else if ltb y 0 then - (PI / 2)
  else 0.

(** [math.hypot(x, y)]. *)
Definition hypot (x y : R) : R := sqrt (x * x + y * y).


(** [try: body except ValueError: handler]. *)
Definition try_except_ValueError {A : Type} (body handler : result A) : result A :=
  match body with
  | Raise (ValueError _) => handler
  | _ => body
  end.

(** ** The point class *)

(** Modelled from the spec: [vector3d.Vector3d], a 3-D vector; only its
    constructor [Vector3d(x, y, z)] is used here. *)
Record Vector3d : Type := mkVector3d { vx : R; vy : R; vz : R }.

(** An instance of [sphericalTrigonometry.LatLon]: the attributes of
    [LatLonHeightBase] and the vector cache [_v3d].  An empty cache is [None]
    (the class attribute [_ab = ()] and the [None] written by [_update] are
    both false for [if not self._ab]).

    Every point below has this type.  The guard [Base.others], which raises
    [TypeError] unless the class of one operand derives from the class of
    the other, therefore passes wherever a method calls it on its point
    arguments, and the calls are not repeated in the definitions. *)
Record LatLon : Type := mkLatLon {
  _lat : R;
  _lon : R;
  _height : R;
  _ab : option (R * R);
  _v3d : option Vector3d
}.

Definition with_ab (ab : option (R * R)) (p : LatLon) : LatLon :=
  mkLatLon (_lat p) (_lon p) (_height p) ab (_v3d p).
Definition with_v3d (v : option Vector3d) (p : LatLon) : LatLon :=
  mkLatLon (_lat p) (_lon p) (_height p) (_ab p) v.
Definition with_lat (x : R) (p : LatLon) : LatLon :=
  mkLatLon x (_lon p) (_height p) (_ab p) (_v3d p).
Definition with_lon (x : R) (p : LatLon) : LatLon :=
  mkLatLon (_lat p) x (_height p) (_ab p) (_v3d p).
Definition with_height (x : R) (p : LatLon) : LatLon :=
  mkLatLon (_lat p) (_lon p) x (_ab p) (_v3d p).

(** ** Collaborators that are not part of the sources

    [utils.py], [vector3d.py] and [sphericalBase.py] are imported by the two
    modules but are not among the sources.  What the two modules use of them
    is collected in the interface below; the code is embedded over an
    arbitrary implementation, and each theorem states what it needs of one. *)

Module utils.
Class Utils : Type := {
  EPS : R;                      (* machine epsilon *)
  EPS1 : R;                     (* 1 - EPS *)
  PI : R;                       (* math.pi, a float *)
  radians : R -> R;             (* math.radians *)
  hsin : R -> R;                (* haversine *)
  favg : R -> R -> R -> R;      (* favg(v1, v2, f=f) *)
  wrap90 : R -> R;
  wrap180 : R -> R;
  wrapPI : R -> R;
  degrees90 : R -> R;
  degrees180 : R -> R;
  (* vector3d.sumOf and Vector3d.to2ll *)
  sumOf : list Vector3d -> Vector3d;
  to2ll : Vector3d -> R * R;
  (* what the attribute [Vector3d] of a point resolves to in the classes
     above [LatLon] that are not among the sources, when one defines it *)
  inherited_Vector3d : option (LatLon -> Vector3d)
}.
Definition PI2 `{Utils} : R := PI * 2.
End utils.

(** Modelled from the spec: [utils.fsum], the precision-preserving sum of a
    sequence of floats; over the reals it is the sum. *)
Definition fsum (l : list R) : R := fold_right Rplus 0 l.

(** The names that an instance of [LatLon] gets from itself and from the
    classes of the two modules: the instance attributes, then the
    attributes of [LatLon], [LatLonHeightBase] and [Base]. *)
Definition instance_attributes : list string :=
  ["_lat"; "_lon"; "_height"; "_ab"; "_v3d"]%string.

Definition LatLon_attributes : list string :=
  ["_v3d"; "_update"; "bearingTo"; "crossingParallels";
   "crossTrackDistanceTo"; "destination"; "distanceTo"; "greatCircle";
   "intermediateTo"; "intersection"; "isEnclosedBy"; "midpointTo";
   "toVector3d"]%string.

Definition LatLonHeightBase_attributes : list string :=
  ["_ab"; "_height"; "_lat"; "_lon"; "__init__"; "__eq__"; "__ne__";
   "__str__"; "_alter"; "_update"; "copy"; "equals"; "height";
   "isclockwise"; "lat"; "lon"; "points"; "to2ab"; "to3llh"; "to3xyz";
   "toStr"]%string.

Definition Base_attributes : list string :=
  ["__repr__"; "__str__"; "_update"; "classname"; "others"; "topsub";
   "toStr"; "toStr2"]%string.

Definition defined_in_sources (name : string) : bool :=
  existsb (String.eqb name)
    (instance_attributes ++ LatLon_attributes
       ++ LatLonHeightBase_attributes ++ Base_attributes).

Module LatLonHeightBase.
Section Methods.
Context {U : utils.Utils}.

(** [__init__] on numeric degrees ([parseDMS] returns a number as it is;
    a zero height keeps the class default 0). *)
Definition __init__ (lat lon height : R) : LatLon :=
  mkLatLon lat lon height None None.

(** [LatLonHeightBase._update]. *)
Definition _update (updated : bool) (self : LatLon) : LatLon :=
  if updated then with_ab None self else self.

(** The property setters call [self._update], the method of the class of
    the instance: it is a parameter of the setters. *)
Section Setters.
Variable self_update : bool -> LatLon -> LatLon.

Definition set_height (height : R) (self : LatLon) : LatLon :=
  let self := self_update (neqb height (_height self)) self in
  with_height height self.

Definition set_lat (lat : R) (self : LatLon) : LatLon :=
  let self := self_update (neqb lat (_lat self)) self in
  with_lat lat self.

Definition set_lon (lon : R) (self : LatLon) : LatLon :=
  let self := self_update (neqb lon (_lon self)) self in
  with_lon lon self.
End Setters.

(** [to2ab]: the pair returned and the point afterwards. *)
Definition to2ab (self : LatLon) : (R * R) * LatLon :=
  match _ab self with
  | Some ab => (ab, self)
  | None =>
      let ab := (utils.radians (_lat self), utils.radians (_lon self)) in
      (ab, with_ab (Some ab) self)
  end.


Definition to3xyz (self : LatLon) : (R * R * R) * LatLon :=
  let '((a, b), self) := to2ab self in
  let ca := cos a in
  ((ca * cos b, ca * sin b, sin a), self).

(** [equals] with [eps=None]. *)
Definition equals (self other : LatLon) : bool :=
  eqb (_lat self) (_lat other) && eqb (_lon self) (_lon other).

(** [_alter]. *)
Definition _alter (self other : LatLon) (f : R) : R :=
  utils.favg (_height self) (_height other) f.

(** [points]: [len2] gives the length and the list; [points[0]] and
    [points[-1]] exist when [n > 1]; the final loop over the points only
    calls [others]. *)
Definition first_equals_last (points : list LatLon) : bool :=
  match points with
  | [] => false
  | p0 :: _ => equals p0 (last points p0)
  end.

Definition points (points : list LatLon) (closed : bool)
  : result (nat * list LatLon) :=
  let n := List.length points in
  let '(n, points) :=
    if closed && (1 <? n)%nat && first_equals_last points
    then ((n - 1)%nat, firstn (n - 1) points)
    else (n, points) in
  if (n <? (if closed then 3 else 1))%nat
  then Raise (ValueError (TooFewPoints n))
  else Ok (n, points).

(** [isclockwise]: [_2xy], the loop over the segments, the sign test.
    The products are the exact ones here; [rounded.isclockwise] below has
    them as the floating-point arithmetic returns them. *)
Definition _2xy (p : LatLon) : R * R :=
  (utils.wrap180 (_lon p), utils.wrap90 (_lat p)).

Fixpoint segments (x1 y1 : R) (points : list LatLon) : list R :=
  match points with
  | [] => []
  | p :: rest =>
      let '(x2, y2) := _2xy p in
      (x2 - x1) * (y2 + y1) :: segments x2 y2 rest
  end.

Definition isclockwise (pts : list LatLon) : result bool :=
  '(_, pts) <- points pts true ;;
  match rev pts with
  | [] => Raise IndexError
  | plast :: _ =>
      let '(x1, y1) := _2xy plast in
      let pa := segments x1 y1 pts in
      match pa with
      | [] => Raise (ValueError ZeroArea)
      | _ :: _ =>
          let pa := fsum pa in
          if gtb pa 0 then Ok true
          else if ltb pa 0 then Ok false
          else Raise (ValueError ZeroArea)
      end
  end.

(** [copy]: [topsub] calls the class of [self] on the degrees and height. *)
Definition copy (self : LatLon) : LatLon :=
  __init__ (_lat self) (_lon self) (_height self).

(** [equals] with its keyword [eps]: the tolerance is used when [eps] is
    given, true (not zero) and positive. *)
Definition equals_eps (self other : LatLon) (eps : option R) : bool :=
  match eps with
  | Some eps =>
      if negb (eqb eps 0) && gtb eps 0 then
        ltb (Rmax (Rabs (_lat self - _lat other))
                  (Rabs (_lon self - _lon other))) eps
      else equals self other
  | None => equals self other
  end.

Definition __eq__ (self other : LatLon) : bool := equals_eps self other None.
Definition __ne__ (self other : LatLon) : bool :=
  negb (equals_eps self other None).
End Methods.
End LatLonHeightBase.

Module sphericalTrigonometry.
Section Functions.
Context {U : utils.Utils}.

(** *** Class [LatLon] *)

(** [LatLon._update]; [LatLonSphericalBase], between [LatLon] and
    [LatLonHeightBase], is taken to inherit [_update] unchanged. *)
Definition _update (updated : bool) (self : LatLon) : LatLon :=
  if updated then
    let self := with_v3d None self in
    LatLonHeightBase._update updated self
  else self.

(** The setters of [LatLonHeightBase] on an instance of [LatLon]. *)
Definition set_height : R -> LatLon -> LatLon :=
  LatLonHeightBase.set_height _update.
Definition set_lat : R -> LatLon -> LatLon :=
  LatLonHeightBase.set_lat _update.
Definition set_lon : R -> LatLon -> LatLon :=
  LatLonHeightBase.set_lon _update.

(** [toVector3d]: the vector returned and the point afterwards. *)
Definition toVector3d (self : LatLon) : Vector3d * LatLon :=
  match _v3d self with
  | None =>
      let '((x, y, z), self) := LatLonHeightBase.to3xyz self in
      let v := mkVector3d x y z in
      (v, with_v3d (Some v) self)
  | Some v => (v, self)
  end.

(** The pair that [p.to2ab()] returns.  The methods below read their
    points through it; that the call may also fill the cache of the point
    does not change what they return. *)
Definition ab (p : LatLon) : R * R := fst (LatLonHeightBase.to2ab p).

(** *** [_haversine3] and [_destination2]

    Over exact arithmetic; [rounded._haversine3] and
    [rounded._destination2] below are the same over a floating-point
    arithmetic, where the argument of [asin] can leave [-1, 1]. *)

(** The haversine [h] of [_haversine3]. *)
Definition haversine (a2 a1 b21 : R) : R :=
  let ca2 := cos a2 in
  let ca1 := cos a1 in
  utils.hsin (a2 - a1) + ca1 * ca2 * utils.hsin b21.

Definition _haversine3 (a2 a1 b21 : R) : result (R * R * R) :=
  let ca2 := cos a2 in
  let ca1 := cos a1 in
  let h := utils.hsin (a2 - a1) + ca1 * ca2 * utils.hsin b21 in
  r <- try_except_ValueError
         (s <- py_sqrt h ;; s1 <- py_sqrt (1 - h) ;; Ok (atan2 s s1 * 2))
         (Ok (if ltb h (1 / 2) then 0 else utils.PI)) ;;
  Ok (r, ca2, ca1).

Definition _destination2 (a b r t h : R) : result LatLon :=
  let ca := cos a in
  let cr := cos r in
  let ct := cos t in
  let sa := sin a in
  let sr := sin r in
  let st := sin t in
  a' <- py_asin (ct * sr * ca + cr * sa) ;;
  let b' := b + atan2 (st * sr * ca) (cr - sa * sin a') in
  Ok (LatLonHeightBase.__init__ (utils.degrees90 a') (utils.degrees180 b') h).

(** *** Methods of [LatLon] *)

Definition crossingParallels (self other : LatLon) (lat : R)
  : result (option (R * R)) :=
  let '(a1, b1) := ab self in
  let '(a2, b2) := ab other in
  let a := utils.radians lat in
  let db := b2 - b1 in
  let ca := cos a in
  let ca1 := cos a1 in
  let ca2 := cos a2 in
  let cdb := cos db in
  let sa := sin a in
  let sa1 := sin a1 in
  let sa2 := sin a2 in
  let sdb := sin db in
  let x := sa1 * ca2 * ca * sdb in
  let y := sa1 * ca2 * ca * cdb - ca1 * sa2 * ca in
  let z := ca1 * ca2 * sa * sdb in
  let h := hypot x y in
  if gtb (Rabs z) h then Ok None
  else
    let m := atan2 (- y) x + b1 in
    q <- div z h ;;
    d <- py_acos q ;;
    Ok (Some (utils.degrees180 (m - d), utils.degrees180 (m + d))).

Definition destination (self : LatLon) (distance bearing radius : R)
  : result LatLon :=
  let '(a, b) := ab self in
  r <- div distance radius ;;
  let t := utils.radians bearing in
  _destination2 a b r t (_height self).

Definition distanceTo (self other : LatLon) (radius : R) : result R :=
  let '(a1, b1) := ab self in
  let '(a2, b2) := ab other in
  '(r, _, _) <- _haversine3 a2 a1 (b2 - b1) ;;
  Ok (r * radius).


(** *** Functions [intersection] and [meanOf]

    [intersection] over exact arithmetic; [rounded.intersection] below is
    the same over a floating-point arithmetic, where the arguments of
    [acos] can leave [-1, 1]. *)

Definition intersection (start1 : LatLon) (bearing1 : R)
                        (start2 : LatLon) (bearing2 : R) : result LatLon :=
  let '(a1, b1) := ab start1 in
  let '(a2, b2) := ab start2 in
  '(r12, ca2, ca1) <- _haversine3 a2 a1 (b2 - b1) ;;
  if ltb (Rabs r12) utils.EPS then Raise (ValueError Parallel)
  else
    let sa1 := sin a1 in
    let sa2 := sin a2 in
    let sr12 := sin r12 in
    let x1 := sr12 * ca1 in
    let x2 := sr12 * ca2 in
    if ltb (Rmin (Rabs x1) (Rabs x2)) utils.EPS then Raise (ValueError Parallel)
    else
      let cr12 := cos r12 in
      q1 <- div (sa2 - sa1 * cr12) x1 ;;
      q2 <- div (sa1 - sa2 * cr12) x2 ;;
      t1 <- py_acos q1 ;;
      t2 <- py_acos q2 ;;
      let '(t12, t21) :=
        if gtb (sin (b2 - b1)) 0 then (t1, utils.PI2 - t2)
        else (utils.PI2 - t1, t2) in
      let t13 := utils.radians bearing1 in
      let t23 := utils.radians bearing2 in
      let x1 := utils.wrapPI (t13 - t12) in
      let x2 := utils.wrapPI (t21 - t23) in
      let sx1 := sin x1 in
      let sx2 := sin x2 in
      if eqb sx1 0 && eqb sx2 0 then Raise (ValueError Infinite)
      else
        let sx3 := sx1 * sx2 in
        if ltb sx3 0 then Raise (ValueError Ambiguous)
        else
          let cx1 := cos x1 in
          let cx2 := cos x2 in
          x3 <- py_acos (cr12 * sx3 - cx2 * cx1) ;;
          let r13 := atan2 (sr12 * sx3) (cx2 + cx1 * cos x3) in
          _destination2 a1 b1 r13 t13
            (LatLonHeightBase._alter start1 start2 (1 / 2)).

(** The two wrapped angles [x1] (angle 2-1-3) and [x2] (angle 1-2-3) that
    [intersection] computes once the start points have passed its two
    guards: the offsets of the given bearings from the bearings of the
    great circle through both start points. *)
Definition bearing_offsets (start1 : LatLon) (bearing1 : R)
                           (start2 : LatLon) (bearing2 : R) : result (R * R) :=
  let '(a1, b1) := ab start1 in
  let '(a2, b2) := ab start2 in
  '(r12, ca2, ca1) <- _haversine3 a2 a1 (b2 - b1) ;;
  let sa1 := sin a1 in
  let sa2 := sin a2 in
  let sr12 := sin r12 in
  let x1 := sr12 * ca1 in
  let x2 := sr12 * ca2 in
  let cr12 := cos r12 in
  q1 <- div (sa2 - sa1 * cr12) x1 ;;
  q2 <- div (sa1 - sa2 * cr12) x2 ;;
  t1 <- py_acos q1 ;;
  t2 <- py_acos q2 ;;
  let '(t12, t21) :=
    if gtb (sin (b2 - b1)) 0 then (t1, utils.PI2 - t2)
    else (utils.PI2 - t1, t2) in
  let t13 := utils.radians bearing1 in
  let t23 := utils.radians bearing2 in
  Ok (utils.wrapPI (t13 - t12), utils.wrapPI (t21 - t23)).

(** [p.Vector3d()]: the attribute is looked up in the instance, then in
    [LatLon], [LatLonSphericalBase], [LatLonHeightBase] and [Base].  None
    of the names below is [Vector3d], so the lookup succeeds only through
    [utils.inherited_Vector3d]. *)
Definition call_Vector3d (p : LatLon) : result Vector3d :=
  match utils.inherited_Vector3d with
  | Some method => Ok (method p)
  | None => Raise (AttributeError "Vector3d")
  end.

Definition meanOf (points : list LatLon) (height : option R) : result LatLon :=
  '(n, points) <- LatLonHeightBase.points points false ;;
  vs <- mapM call_Vector3d points ;;
  let m := utils.sumOf vs in
  let '(a, b) := utils.to2ll m in
  h <- match height with
       | None => div (fsum (map _height points)) (INR n)
       | Some height => Ok height
       end ;;
  Ok (LatLonHeightBase.__init__ a b h).

(** *** The other methods of [LatLon] *)

Definition greatCircle (self : LatLon) (bearing : R) : Vector3d :=
  let '(a, b) := ab self in
  let t := utils.radians bearing in
  let ca := cos a in
  let cb := cos b in
  let ct := cos t in
  let sa := sin a in
  let sb := sin b in
  let st := sin t in
  mkVector3d (sb * ct - cb * sa * st)
             (- cb * ct - sb * sa * st)
             (ca * st).

Definition midpointTo (self other : LatLon) : LatLon :=
  let '(a1, b1) := ab self in
  let '(a2, b2) := ab other in
  let db := b2 - b1 in
  let ca1 := cos a1 in
  let ca2 := cos a2 in
  let cdb := cos db in
  let sa1 := sin a1 in
  let sa2 := sin a2 in
  let sdb := sin db in
  let x := ca2 * cdb + ca1 in
  let y := ca2 * sdb in
  let a := atan2 (sa1 + sa2) (hypot x y) in
  let b := atan2 y x + b1 in
  LatLonHeightBase.__init__ (utils.degrees90 a) (utils.degrees180 b)
    (LatLonHeightBase._alter self other (1 / 2)).

(** The method [intersection] hands over to the function. *)
Definition LatLon_intersection (self : LatLon) (bearing : R)
                               (start2 : LatLon) (bearing2 : R)
  : result LatLon :=
  intersection self bearing start2 bearing2.

(** [bearingTo] and [crossTrackDistanceTo] end in [utils.degrees360],
    which is not among the sources: it is a parameter. *)
Section Bearings.
Variable degrees360 : R -> R.

Definition bearingTo (self other : LatLon) : R :=
  let '(a1, b1) := ab self in
  let '(a2, b2) := ab other in
  let db := b2 - b1 in
  let ca1 := cos a1 in
  let ca2 := cos a2 in
  let cdb := cos db in
  let sa1 := sin a1 in
  let sa2 := sin a2 in
  let sdb := sin db in
  let x := ca1 * sa2 - sa1 * ca2 * cdb in
  let y := sdb * ca2 in
  degrees360 (atan2 y x).

Definition crossTrackDistanceTo (self start end_ : LatLon) (radius : R)
  : result R :=
  d <- distanceTo start self radius ;;
  r <- div d radius ;;
  let b := utils.radians (bearingTo start self) in
  let e := utils.radians (bearingTo start end_) in
  v <- py_asin (sin r * sin (b - e)) ;;
  Ok (v * radius).
End Bearings.

(** [isEnclosedBy] uses [Vector3d.cross] and [Vector3d.angleTo] (with its
    keyword [vSign]) of [vector3d.py], which is not among the sources: they
    are parameters.  The vector of a point is what [p.toVector3d()]
    returns. *)
Section Enclosure.
Variable cross : Vector3d -> Vector3d -> Vector3d.
Variable angleTo : Vector3d -> Vector3d -> option Vector3d -> R.

(** What [isEnclosedBy] does: return a boolean, or raise the error of
    [points], an [IndexError], or [ValueError] 'non-convex'. *)
Inductive enclosure : Type :=
| Returns (inside : bool)
| Raises (e : exn)
| RaisesNonConvex.

Definition vector (p : LatLon) : Vector3d := fst (toVector3d p).

(** The loop that fills [gc]. *)
Fixpoint great_circles (v1 : Vector3d) (points : list LatLon)
  : list Vector3d :=
  match points with
  | [] => []
  | p :: rest =>
      let v2 := vector p in
      cross v1 v2 :: great_circles v2 rest
  end.

(** The loop over [gc[1:]]: false at the first edge on the other side. *)
Fixpoint same_sides (t0 : bool) (v : Vector3d) (gc : list Vector3d) : bool :=
  match gc with
  | [] => true
  | g :: rest =>
      let ti := gtb (angleTo g v None) (utils.PI / 2) in
      if negb (Bool.eqb ti t0) then false else same_sides t0 v rest
  end.

(** The loop over pairs of edges: false at the first negative angle. *)
Fixpoint convex (v gc1 : Vector3d) (gc : list Vector3d) : bool :=
  match gc with
  | [] => true
  | gc2 :: rest =>
      if ltb (angleTo gc1 gc2 (Some v)) 0 then false else convex v gc2 rest
  end.

Definition isEnclosedBy (self : LatLon) (pts : list LatLon) : enclosure :=
  match LatLonHeightBase.points pts true with
  | Raise e => Raises e
  | Ok (n, pts) =>
      match rev pts with
      | [] => Raises IndexError
      | plast :: _ =>
          let gc := great_circles (vector plast) pts in
          let v := vector self in
          match gc with
          | [] => Raises IndexError
          | g0 :: rest =>
              let t0 := gtb (angleTo g0 v None) (utils.PI / 2) in
              if negb (same_sides t0 v rest) then Returns false
              else if convex v (last gc g0) gc then Returns true
              else RaisesNonConvex
          end
      end
  end.
End Enclosure.
End Functions.
End sphericalTrigonometry.

(** ** Assignments and reads of one point, in sequence *)

Inductive op : Type :=
| SetLat (lat : R)
| SetLon (lon : R)
| SetHeight (height : R)
| Read_to2ab
| Read_to3xyz
| Read_toVector3d.

Section Sequences.
Context {U : utils.Utils}.

Definition exec (o : op) (p : LatLon) : LatLon :=
  match o with
  | SetLat lat => sphericalTrigonometry.set_lat lat p
  | SetLon lon => sphericalTrigonometry.set_lon lon p
  | SetHeight height => sphericalTrigonometry.set_height height p
  | Read_to2ab => snd (LatLonHeightBase.to2ab p)
  | Read_to3xyz => snd (LatLonHeightBase.to3xyz p)
  | Read_toVector3d => snd (sphericalTrigonometry.toVector3d p)
  end.

Definition run (ops : list op) (p : LatLon) : LatLon :=
  fold_left (fun p o => exec o p) ops p.

(** The radians pair and the unit vector of given degrees. *)
Definition radians_pair (lat lon : R) : R * R :=
  (utils.radians lat, utils.radians lon).

Definition unit_vector (lat lon : R) : Vector3d :=
  let a := utils.radians lat in
  let b := utils.radians lon in
  mkVector3d (cos a * cos b) (cos a * sin b) (sin a).

(** A cache that is present holds what the current degrees give. *)
Definition consistent (p : LatLon) : Prop :=
  (forall ab, _ab p = Some ab -> ab = radians_pair (_lat p) (_lon p)) /\
  (forall v, _v3d p = Some v -> v = unit_vector (_lat p) (_lon p)).

(** ** The signed pseudo-area of a polygon, edge by edge *)

(** The edges of the closed polygon, each as (previous point, point),
    the first one from the last point to the first. *)
Definition edges (points : list LatLon) : list (LatLon * LatLon) :=
  match rev points with
  | [] => []
  | plast :: _ => combine (plast :: removelast points) points
  end.

Definition edge_area (e : LatLon * LatLon) : R :=
  let '(x1, y1) := LatLonHeightBase._2xy (fst e) in
  let '(x2, y2) := LatLonHeightBase._2xy (snd e) in
  (x2 - x1) * (y2 + y1).

Definition pseudo_area (points : list LatLon) : R :=
  fold_right Rplus 0 (map edge_area (edges points)).

(** The polygon without its closing duplicate. *)
Definition unclosed (points : list LatLon) : list LatLon :=
  if (1 <? List.length points)%nat && LatLonHeightBase.first_equals_last points
  then removelast points
  else points.
End Sequences.

(** A point at the origin after one read of its vector: both caches filled. *)
Definition cached_origin {U : utils.Utils} : LatLon :=
  snd (sphericalTrigonometry.toVector3d (LatLonHeightBase.__init__ 0 0 0)).

(** ** An implementation of the collaborators over the reals *)

(** Modelled from the spec: the constants and functions of [utils.py] and
    [vector3d.py], which are not among the sources.  [float_pi] is the
    binary64 value of [math.pi] and [float_eps] the machine epsilon of
    binary64; the wrapping functions map into (half - period, half]. *)
Definition float_pi : R := 884279719003555 / 281474976710656.
Definition float_eps : R := / 2 ^ 52.

Definition wrap (half period x : R) : R :=
  x - period * IZR (1 - up (- ((x - half) / period))).

Definition to_degrees (x : R) : R := x * (180 / float_pi).
Definition to_radians (x : R) : R := x * (float_pi / 180).

(** Modelled from the spec: [utils.degrees360], radians as compass
    degrees in [0, 360). *)
Definition to_degrees360 (x : R) : R :=
  to_degrees x - 360 * IZR (up (to_degrees x / 360) - 1).

(** Modelled from the spec: [Vector3d.cross] and [Vector3d.angleTo], the
    cross product and the angle between two vectors, signed by a
    reference vector when one is given. *)
Definition vector_cross (u w : Vector3d) : Vector3d :=
  mkVector3d (vy u * vz w - vz u * vy w)
             (vz u * vx w - vx u * vz w)
             (vx u * vy w - vy u * vx w).

Definition vector_angleTo (u w : Vector3d) (vSign : option Vector3d) : R :=
  let c := vector_cross u w in
  let s := sqrt (vx c * vx c + vy c * vy c + vz c * vz c) in
  let s := match vSign with
           | Some n =>
               if ltb (vx c * vx n + vy c * vy n + vz c * vz n) 0
               then - s else s
           | None => s
           end in
  atan2 s (vx u * vx w + vy u * vy w + vz u * vz w).

Definition vector_sum (vs : list Vector3d) : Vector3d :=
  mkVector3d (fsum (map vx vs)) (fsum (map vy vs)) (fsum (map vz vs)).

Definition vector_to2ll (v : Vector3d) : R * R :=
  (to_degrees (atan2 (vz v) (hypot (vx v) (vy v))),
   to_degrees (atan2 (vy v) (vx v))).

Definition ideal : utils.Utils := {|
  utils.EPS := float_eps;
  utils.EPS1 := 1 - float_eps;
  utils.PI := float_pi;
  utils.radians := to_radians;
  utils.hsin := fun x => (sin (x / 2)) ^ 2;
  utils.favg := fun v1 v2 f => v1 + f * (v2 - v1);
  utils.wrap90 := wrap 90 180;
  utils.wrap180 := wrap 180 360;
  utils.wrapPI := wrap float_pi (float_pi * 2);
  utils.degrees90 := fun x => wrap 90 180 (to_degrees x);
  utils.degrees180 := fun x => wrap 180 360 (to_degrees x);
  utils.sumOf := vector_sum;
  utils.to2ll := vector_to2ll;
  utils.inherited_Vector3d := None
|}.

(** The same with a haversine that is off by [err], as a rounded one is. *)
Definition inexact (err : R) : utils.Utils := {|
  utils.EPS := float_eps;
  utils.EPS1 := 1 - float_eps;
  utils.PI := float_pi;
  utils.radians := to_radians;
  utils.hsin := fun x => (sin (x / 2)) ^ 2 + err;
  utils.favg := fun v1 v2 f => v1 + f * (v2 - v1);
  utils.wrap90 := wrap 90 180;
  utils.wrap180 := wrap 180 360;
  utils.wrapPI := wrap float_pi (float_pi * 2);
  utils.degrees90 := fun x => wrap 90 180 (to_degrees x);
  utils.degrees180 := fun x => wrap 180 360 (to_degrees x);
  utils.sumOf := vector_sum;
  utils.to2ll := vector_to2ll;
  utils.inherited_Vector3d := None
|}.

(** The same with conversions between degrees and radians that do not
    round, pi taking the place of [math.pi]. *)
Definition exact_angles : utils.Utils := {|
  utils.EPS := float_eps;
  utils.EPS1 := 1 - float_eps;
  utils.PI := PI;
  utils.radians := fun x => x * (PI / 180);
  utils.hsin := fun x => (sin (x / 2)) ^ 2;
  utils.favg := fun v1 v2 f => v1 + f * (v2 - v1);
  utils.wrap90 := wrap 90 180;
  utils.wrap180 := wrap 180 360;
  utils.wrapPI := wrap PI (PI * 2);
  utils.degrees90 := fun x => wrap 90 180 (x * (180 / PI));
  utils.degrees180 := fun x => wrap 180 360 (x * (180 / PI));
  utils.sumOf := vector_sum;
  utils.to2ll := fun v =>
    (atan2 (vz v) (hypot (vx v) (vy v)) * (180 / PI),
     atan2 (vy v) (vx v) * (180 / PI));
  utils.inherited_Vector3d := None
|}.

(** ** Quantities named in the properties of the other methods *)

Section Quantities.
Context {U : utils.Utils}.

(** The cosine of the central angle between two points, by the spherical
    law of cosines. *)
Definition central_cos (p q : LatLon) : R :=
  let '(a1, b1) := sphericalTrigonometry.ab p in
  let '(a2, b2) := sphericalTrigonometry.ab q in
  sin a1 * sin a2 + cos a1 * cos a2 * cos (b2 - b1).

(** The latitude and longitude in radians that [destination] computes,
    before it converts them to degrees. *)
Definition destination_radians (p : LatLon) (distance bearing radius : R)
  : R * R :=
  let '(a, b) := sphericalTrigonometry.ab p in
  let r := distance / radius in
  let t := utils.radians bearing in
  let a' := asin (cos t * sin r * cos a + cos r * sin a) in
  (a', b + atan2 (sin t * sin r * cos a) (cos r - sin a * sin a')).

(** The [x], [y], [z] of [crossingParallels]. *)
Definition crossing_xyz (self other : LatLon) (lat : R) : R * R * R :=
  let '(a1, b1) := sphericalTrigonometry.ab self in
  let '(a2, b2) := sphericalTrigonometry.ab other in
  let a := utils.radians lat in
  let db := b2 - b1 in
  (sin a1 * cos a2 * cos a * sin db,
   sin a1 * cos a2 * cos a * cos db - cos a1 * sin a2 * cos a,
   cos a1 * cos a2 * sin a * sin db).

Definition dot (u v : Vector3d) : R :=
  vx u * vx v + vy u * vy v + vz u * vz v.

(** The flat coordinates of a list of points, and the sum of
    (x2 - x1) * (y2 + y1) along a path of flat coordinates that starts at
    [prev]. *)
Definition flat (points : list LatLon) : list (R * R) :=
  map LatLonHeightBase._2xy points.

Definition step_area (c1 c2 : R * R) : R :=
  (fst c2 - fst c1) * (snd c2 + snd c1).

Fixpoint path_area (prev : R * R) (l : list (R * R)) : R :=
  match l with
  | [] => 0
  | c :: rest => step_area prev c + path_area c rest
  end.

Definition open_area (l : list (R * R)) : R :=
  match l with
  | [] => 0
  | c :: rest => path_area c rest
  end.

(** The same sum around a closed path: from the last corner to the
    first, then along the list. *)
Definition loop_area (l : list (R * R)) : R :=
  match l with
  | [] => 0
  | c :: _ => path_area (last l c) l
  end.

(** The pairs (previous element, element) around a closed list, the
    first pair from the last element to the first; the normal vectors of
    the edges of a polygon, for a cross product [cross]. *)
Definition cyclic_pairs {A : Type} (l : list A) : list (A * A) :=
  match rev l with
  | [] => []
  | x :: _ => combine (x :: removelast l) l
  end.

Definition edge_normals (cross : Vector3d -> Vector3d -> Vector3d)
                        (polygon : list LatLon) : list Vector3d :=
  map (fun e => cross (sphericalTrigonometry.vector (fst e))
                      (sphericalTrigonometry.vector (snd e)))
      (edges polygon).

(** The outcome of [isclockwise] for the polygon walked the other way. *)
Definition flipped (r : result bool) : result bool :=
  match r with
  | Ok b => Ok (negb b)
  | Raise e => Raise e
  end.
End Quantities.

(** ** Rounded arithmetic

    A Python float is a binary64 number, and [+], [-], [*], [/] and the
    functions of [math] return the float nearest to, or near, the exact
    result.  The definitions above take these operations as the exact
    ones on the reals.  Where a rounding error can decide an outcome of a
    function - the branch taken, the exception raised - the function is
    given again below, over an arithmetic whose operations are left
    open: a float is the real number it stands for, and every operation
    of the source that rounds is a field of [float.Float].  Negation,
    [abs], [min] and the comparisons are exact on floats; [math.fsum]
    returns the float nearest to the exact sum, which has the sign of the
    exact sum, and only its sign is read. *)

Module float.
Class Float : Type := {
  add : R -> R -> R;        (* x + y *)
  sub : R -> R -> R;        (* x - y *)
  mul : R -> R -> R;        (* x * y *)
  truediv : R -> R -> R;    (* x / y, for y that is not zero *)
  sin : R -> R;
  cos : R -> R;
  acos : R -> R;            (* on [-1, 1] *)
  asin : R -> R;            (* on [-1, 1] *)
  atan2 : R -> R -> R;
  sqrt : R -> R             (* on [0, oo) *)
}.
End float.

(** The arithmetic without rounding errors. *)
Definition real_arithmetic : float.Float := {|
  float.add := Rplus;
  float.sub := Rminus;
  float.mul := Rmult;
  float.truediv := Rdiv;
  float.sin := sin;
  float.cos := cos;
  float.acos := acos;
  float.asin := asin;
  float.atan2 := atan2;
  float.sqrt := sqrt
|}.

(** An arithmetic whose sums and quotients are off by the relative errors
    [ea] and [ed], as rounded ones are by up to 2^-53, the other
    operations being exact. *)
Definition erring (ea ed : R) : float.Float := {|
  float.add := fun x y => (x + y) * (1 + ea);
  float.sub := Rminus;
  float.mul := Rmult;
  float.truediv := fun x y => x / y * (1 + ed);
  float.sin := sin;
  float.cos := cos;
  float.acos := acos;
  float.asin := asin;
  float.atan2 := atan2;
  float.sqrt := sqrt
|}.

Module rounded.
Section Rounded.
Context {F : float.Float} {U : utils.Utils}.

(** [x / y], [math.sqrt], [math.acos], [math.asin]: the tests on the
    argument are exact. *)
Definition div (x y : R) : result R :=
  if eqb y 0 then Raise ZeroDivisionError else Ok (float.truediv x y).

Definition py_sqrt (x : R) : result R :=
  if ltb x 0 then Raise (ValueError MathDomain) else Ok (float.sqrt x).

Definition py_acos (x : R) : result R :=
  if ltb x (-1) || ltb 1 x then Raise (ValueError MathDomain)
  else Ok (float.acos x).

Definition py_asin (x : R) : result R :=
  if ltb x (-1) || ltb 1 x then Raise (ValueError MathDomain)
  else Ok (float.asin x).

(** *** Of [bases.py]: [isclockwise] *)

Fixpoint segments (x1 y1 : R) (points : list LatLon) : list R :=
  match points with
  | [] => []
  | p :: rest =>
      let '(x2, y2) := LatLonHeightBase._2xy p in
      float.mul (float.sub x2 x1) (float.add y2 y1) :: segments x2 y2 rest
  end.

Definition isclockwise (pts : list LatLon) : result bool :=
  '(_, pts) <- LatLonHeightBase.points pts true ;;
  match rev pts with
  | [] => Raise IndexError
  | plast :: _ =>
      let '(x1, y1) := LatLonHeightBase._2xy plast in
      let pa := segments x1 y1 pts in
      match pa with
      | [] => Raise (ValueError ZeroArea)
      | _ :: _ =>
          let pa := fsum pa in
          if gtb pa 0 then Ok true
          else if ltb pa 0 then Ok false
          else Raise (ValueError ZeroArea)
      end
  end.

(** The pseudo-area that [isclockwise] accumulates: the sum of the
    rounded products, one for each edge (previous point, point). *)
Definition edge_area (e : LatLon * LatLon) : R :=
  let '(x1, y1) := LatLonHeightBase._2xy (fst e) in
  let '(x2, y2) := LatLonHeightBase._2xy (snd e) in
  float.mul (float.sub x2 x1) (float.add y2 y1).

Definition pseudo_area (points : list LatLon) : R :=
  fold_right Rplus 0 (map edge_area (edges points)).

(** *** Of [sphericalTrigonometry.py]: [_haversine3], [_destination2],
    [destination] and [intersection] *)

Definition _haversine3 (a2 a1 b21 : R) : result (R * R * R) :=
  let ca2 := float.cos a2 in
  let ca1 := float.cos a1 in
  let h := float.add (utils.hsin (float.sub a2 a1))
                     (float.mul (float.mul ca1 ca2) (utils.hsin b21)) in
  r <- try_except_ValueError
         (s <- py_sqrt h ;; s1 <- py_sqrt (float.sub 1 h) ;;
          Ok (float.mul (float.atan2 s s1) 2))
         (Ok (if ltb h (1 / 2) then 0 else utils.PI)) ;;
  Ok (r, ca2, ca1).

Definition _destination2 (a b r t h : R) : result LatLon :=
  let ca := float.cos a in
  let cr := float.cos r in
  let ct := float.cos t in
  let sa := float.sin a in
  let sr := float.sin r in
  let st := float.sin t in
  a' <- py_asin (float.add (float.mul (float.mul ct sr) ca)
                           (float.mul cr sa)) ;;
  let b' := float.add b (float.atan2 (float.mul (float.mul st sr) ca)
                           (float.sub cr (float.mul sa (float.sin a')))) in
  Ok (LatLonHeightBase.__init__ (utils.degrees90 a') (utils.degrees180 b') h).

Definition destination (self : LatLon) (distance bearing radius : R)
  : result LatLon :=
  let '(a, b) := sphericalTrigonometry.ab self in
  r <- div distance radius ;;
  let t := utils.radians bearing in
  _destination2 a b r t (_height self).

Definition intersection (start1 : LatLon) (bearing1 : R)
                        (start2 : LatLon) (bearing2 : R) : result LatLon :=
  let '(a1, b1) := sphericalTrigonometry.ab start1 in
  let '(a2, b2) := sphericalTrigonometry.ab start2 in
  '(r12, ca2, ca1) <- _haversine3 a2 a1 (float.sub b2 b1) ;;
  if ltb (Rabs r12) utils.EPS then Raise (ValueError Parallel)
  else
    let sa1 := float.sin a1 in
    let sa2 := float.sin a2 in
    let sr12 := float.sin r12 in
    let x1 := float.mul sr12 ca1 in
    let x2 := float.mul sr12 ca2 in
    if ltb (Rmin (Rabs x1) (Rabs x2)) utils.EPS then Raise (ValueError Parallel)
    else
      let cr12 := float.cos r12 in
      q1 <- div (float.sub sa2 (float.mul sa1 cr12)) x1 ;;
      q2 <- div (float.sub sa1 (float.mul sa2 cr12)) x2 ;;
      t1 <- py_acos q1 ;;
      t2 <- py_acos q2 ;;
      let '(t12, t21) :=
        if gtb (float.sin (float.sub b2 b1)) 0
        then (t1, float.sub utils.PI2 t2)
        else (float.sub utils.PI2 t1, t2) in
      let t13 := utils.radians bearing1 in
      let t23 := utils.radians bearing2 in
      let x1 := utils.wrapPI (float.sub t13 t12) in
      let x2 := utils.wrapPI (float.sub t21 t23) in
      let sx1 := float.sin x1 in
      let sx2 := float.sin x2 in
      if eqb sx1 0 && eqb sx2 0 then Raise (ValueError Infinite)
      else
        let sx3 := float.mul sx1 sx2 in
        if ltb sx3 0 then Raise (ValueError Ambiguous)
        else
          let cx1 := float.cos x1 in
          let cx2 := float.cos x2 in
          x3 <- py_acos (float.sub (float.mul cr12 sx3)
                                   (float.mul cx2 cx1)) ;;
          let r13 := float.atan2 (float.mul sr12 sx3)
                       (float.add cx2 (float.mul cx1 (float.cos x3))) in
          _destination2 a1 b1 r13 t13
            (LatLonHeightBase._alter start1 start2 (1 / 2)).

(** The argument of [asin] in [_destination2], and the two arguments of
    [acos] that [intersection] computes first, for the angle [r12]
    between the start points. *)
Definition asin_argument (a r t : R) : R :=
  float.add (float.mul (float.mul (float.cos t) (float.sin r)) (float.cos a))
            (float.mul (float.cos r) (float.sin a)).

Definition acos_argument (a1 a2 r12 : R) : R :=
  float.truediv
    (float.sub (float.sin a2) (float.mul (float.sin a1) (float.cos r12)))
    (float.mul (float.sin r12) (float.cos a1)).
End Rounded.
End rounded.

(** * Properties *)

(** ** Comparisons *)

Lemma eqb_true (x y : R) : eqb x y = true <-> x = y.
Proof. unfold eqb; destruct (Req_dec_T x y); split; congruence. Qed.

Lemma eqb_false (x y : R) : eqb x y = false <-> x <> y.
Proof. unfold eqb; destruct (Req_dec_T x y); split; congruence. Qed.

Lemma eqb_refl (x : R) : eqb x x = true.
Proof. now apply eqb_true. Qed.

Lemma neqb_true (x y : R) : neqb x y = true <-> x <> y.
Proof. unfold neqb; rewrite negb_true_iff; apply eqb_false. Qed.

Lemma neqb_false (x y : R) : neqb x y = false <-> x = y.
Proof. unfold neqb; rewrite negb_false_iff; apply eqb_true. Qed.

Lemma ltb_true (x y : R) : ltb x y = true <-> x < y.
Proof. unfold ltb; destruct (Rlt_dec x y); split; congruence. Qed.

Lemma ltb_false (x y : R) : ltb x y = false <-> y <= x.
Proof.
  unfold ltb; destruct (Rlt_dec x y); split; try congruence; lra.
Qed.

(** ** Caches of a point *)

Section Caches.
Context {U : utils.Utils}.
Import sphericalTrigonometry.

Lemma to2ab_consistent (p : LatLon) :
  consistent p ->
  fst (LatLonHeightBase.to2ab p) = radians_pair (_lat p) (_lon p) /\
  consistent (snd (LatLonHeightBase.to2ab p)).
Proof.
  intros H. pose proof H as [Hab Hv]. unfold LatLonHeightBase.to2ab.
  destruct (_ab p) as [ab0|] eqn:E; simpl.
  - split; [now apply Hab | exact H].
  - split; [reflexivity|]. split; simpl.
    + now intros ab0 [= <-].
    + exact Hv.
Qed.

Lemma to3xyz_consistent (p : LatLon) :
  consistent p ->
  (let '(x, y, z) := fst (LatLonHeightBase.to3xyz p) in mkVector3d x y z)
    = unit_vector (_lat p) (_lon p) /\
  consistent (snd (LatLonHeightBase.to3xyz p)) /\
  _lat (snd (LatLonHeightBase.to3xyz p)) = _lat p /\
  _lon (snd (LatLonHeightBase.to3xyz p)) = _lon p /\
  _v3d (snd (LatLonHeightBase.to3xyz p)) = _v3d p.
Proof.
  intros H. destruct (to2ab_consistent p H) as [Hv Hc].
  unfold LatLonHeightBase.to3xyz.
  assert (Hl : _lat (snd (LatLonHeightBase.to2ab p)) = _lat p /\
               _lon (snd (LatLonHeightBase.to2ab p)) = _lon p /\
               _v3d (snd (LatLonHeightBase.to2ab p)) = _v3d p).
  { unfold LatLonHeightBase.to2ab. now destruct (_ab p). }
  destruct (LatLonHeightBase.to2ab p) as [[a b] p']. simpl in *.
  unfold radians_pair in Hv. injection Hv as -> ->.
  destruct Hl as (Hlat & Hlon & Hv3).
  split; [reflexivity|]. split; [exact Hc|]. now repeat split.
Qed.

Lemma toVector3d_consistent (p : LatLon) :
  consistent p ->
  fst (toVector3d p) = unit_vector (_lat p) (_lon p) /\
  consistent (snd (toVector3d p)).
Proof.
  intros H. unfold toVector3d.
  destruct (_v3d p) as [v|] eqn:E; simpl.
  - split; [now apply H | exact H].
  - destruct (to3xyz_consistent p H) as (Hv & [Hab' Hv'] & Hlat & Hlon & _).
    destruct (LatLonHeightBase.to3xyz p) as [[[x y] z] p']. simpl in *.
    split; [exact Hv|]. split; simpl.
    + exact Hab'.
    + intros v [= <-]. now rewrite Hlat, Hlon.
Qed.

Lemma _update_true (p : LatLon) :
  _update true p = mkLatLon (_lat p) (_lon p) (_height p) None None.
Proof. reflexivity. Qed.

Lemma set_lat_consistent (lat : R) (p : LatLon) :
  consistent p -> consistent (set_lat lat p).
Proof.
  intros [Hab Hv].
  unfold set_lat, LatLonHeightBase.set_lat.
  destruct (neqb lat (_lat p)) eqn:E.
  - rewrite _update_true. split; simpl; discriminate.
  - apply neqb_false in E. subst lat. simpl. now split.
Qed.

Lemma set_lon_consistent (lon : R) (p : LatLon) :
  consistent p -> consistent (set_lon lon p).
Proof.
  intros [Hab Hv].
  unfold set_lon, LatLonHeightBase.set_lon.
  destruct (neqb lon (_lon p)) eqn:E.
  - rewrite _update_true. split; simpl; discriminate.
  - apply neqb_false in E. subst lon. simpl. now split.
Qed.

Lemma set_height_consistent (height : R) (p : LatLon) :
  consistent p -> consistent (set_height height p).
Proof.
  intros [Hab Hv].
  unfold set_height, LatLonHeightBase.set_height.
  destruct (neqb height (_height p)) eqn:E.
  - rewrite _update_true. split; simpl; discriminate.
  - simpl. now split.
Qed.

Lemma exec_consistent (o : op) (p : LatLon) :
  consistent p -> consistent (exec o p).
Proof.
  intros H. destruct o; simpl.
  - now apply set_lat_consistent.
  - now apply set_lon_consistent.
  - now apply set_height_consistent.
  - now apply to2ab_consistent.
  - now apply to3xyz_consistent.
  - now apply toVector3d_consistent.
Qed.

Lemma run_consistent (ops : list op) (p : LatLon) :
  consistent p -> consistent (run ops p).
Proof.
  revert p. induction ops as [|o ops IH]; intros p H; simpl.
  - exact H.
  - apply IH. now apply exec_consistent.
Qed.

Lemma init_consistent (lat lon height : R) :
  consistent (LatLonHeightBase.__init__ lat lon height).
Proof. split; simpl; discriminate. Qed.

(** C4.  After any sequence of latitude, longitude and height
    assignments and of reads, from a newly constructed point, a cached
    radians pair or unit vector that is present is the one of the current
    latitude and longitude, and so is what the next read returns; assigning
    a latitude or a longitude different from the current one leaves both
    caches empty. *)
Theorem caches_follow_coordinates :
  forall (lat lon height : R) (ops : list op),
    let p := run ops (LatLonHeightBase.__init__ lat lon height) in
    consistent p /\
    fst (LatLonHeightBase.to2ab p) = radians_pair (_lat p) (_lon p) /\
    fst (toVector3d p) = unit_vector (_lat p) (_lon p) /\
    (forall v, v <> _lat p ->
       _ab (set_lat v p) = None /\ _v3d (set_lat v p) = None) /\
    (forall v, v <> _lon p ->
       _ab (set_lon v p) = None /\ _v3d (set_lon v p) = None).
Proof.
  intros lat lon height ops p.
  assert (H : consistent p)
    by (apply run_consistent, init_consistent).
  split; [exact H|].
  split; [now apply to2ab_consistent|].
  split; [now apply toVector3d_consistent|].
  split; intros v Hv.
  - unfold set_lat, LatLonHeightBase.set_lat.
    apply neqb_true in Hv. rewrite Hv. now rewrite _update_true.
  - unfold set_lon, LatLonHeightBase.set_lon.
    apply neqb_true in Hv. rewrite Hv. now rewrite _update_true.
Qed.

(** C2, as the code has it.  Assigning the height it already has leaves
    both caches as they are; assigning a different height empties both;
    either way the next read of the radians pair and of the unit vector
    returns what it returned before. *)
Theorem set_height_caches :
  forall (p : LatLon) (height : R),
    (height = _height p ->
       _ab (set_height height p) = _ab p /\
       _v3d (set_height height p) = _v3d p) /\
    (height <> _height p ->
       _ab (set_height height p) = None /\
       _v3d (set_height height p) = None) /\
    (consistent p ->
       fst (LatLonHeightBase.to2ab (set_height height p))
         = fst (LatLonHeightBase.to2ab p) /\
       fst (toVector3d (set_height height p)) = fst (toVector3d p)).
Proof.
  intros p height. repeat split.
  - apply neqb_false in H.
    unfold set_height, LatLonHeightBase.set_height. now rewrite H.
  - apply neqb_false in H.
    unfold set_height, LatLonHeightBase.set_height. now rewrite H.
  - apply neqb_true in H.
    unfold set_height, LatLonHeightBase.set_height. now rewrite H.
  - apply neqb_true in H.
    unfold set_height, LatLonHeightBase.set_height. now rewrite H.
  - pose proof (set_height_consistent height p H) as H'.
    apply to2ab_consistent in H. apply to2ab_consistent in H'.
    destruct H as [-> _], H' as [-> _].
    unfold set_height, LatLonHeightBase.set_height.
    now destruct (neqb height (_height p)).
  - pose proof (set_height_consistent height p H) as H'.
    apply toVector3d_consistent in H. apply toVector3d_consistent in H'.
    destruct H as [-> _], H' as [-> _].
    unfold set_height, LatLonHeightBase.set_height.
    now destruct (neqb height (_height p)).
Qed.
End Caches.

Lemma caches_follow_coordinates_witness :
  let p := run (U:=ideal) [Read_toVector3d; SetLat 1]
               (LatLonHeightBase.__init__ 0 0 0) in
  consistent (U:=ideal) p /\
  _ab (sphericalTrigonometry.set_lat 2 p) = None /\
  _v3d (sphericalTrigonometry.set_lat 2 p) = None.
Proof.
  intros p.
  pose proof (caches_follow_coordinates (U:=ideal) 0 0 0
                [Read_toVector3d; SetLat 1]) as (Hc & _ & _ & Hlat & _).
  split; [exact Hc|].
  apply Hlat. simpl. lra.
Defined.

Lemma set_height_caches_witness :
  (_ab (sphericalTrigonometry.set_height 0 (cached_origin (U:=ideal)))
     = _ab (cached_origin (U:=ideal))) /\
  (_ab (sphericalTrigonometry.set_height 1 (cached_origin (U:=ideal)))
     = None) /\
  fst (sphericalTrigonometry.toVector3d (U:=ideal)
         (sphericalTrigonometry.set_height 1 (cached_origin (U:=ideal))))
    = fst (sphericalTrigonometry.toVector3d (U:=ideal) (cached_origin (U:=ideal))).
Proof.
  pose proof (set_height_caches (U:=ideal) (cached_origin (U:=ideal)) 0)
    as (Hsame & _ & _).
  pose proof (set_height_caches (U:=ideal) (cached_origin (U:=ideal)) 1)
    as (_ & Hdiff & Hread).
  split; [apply Hsame; reflexivity|].
  split; [apply Hdiff; simpl; lra|].
  apply Hread.
  apply (toVector3d_consistent (U:=ideal)), init_consistent.
Defined.

(** C2, as stated, fails: a point at the origin whose radians pair and
    unit vector have been read holds both caches; assigning the height 1
    empties them. *)
Lemma set_height_empties_caches :
  _ab (cached_origin (U:=ideal)) <> None /\
  _v3d (cached_origin (U:=ideal)) <> None /\
  ~ (_ab (sphericalTrigonometry.set_height 1 (cached_origin (U:=ideal)))
       = _ab (cached_origin (U:=ideal)) /\
     _v3d (sphericalTrigonometry.set_height 1 (cached_origin (U:=ideal)))
       = _v3d (cached_origin (U:=ideal))).
Proof.
  assert (E : sphericalTrigonometry.set_height 1 (cached_origin (U:=ideal))
              = mkLatLon 0 0 1 None None).
  { unfold sphericalTrigonometry.set_height, LatLonHeightBase.set_height.
    replace (neqb 1 (_height (cached_origin (U:=ideal)))) with true.
    - reflexivity.
    - symmetry. apply neqb_true. simpl. lra. }
  rewrite E. simpl.
  split; [discriminate|]. split; [discriminate|].
  intros [H _]. discriminate H.
Qed.

(** ** Validation of a list of points *)

Section Polygons.
Context {U : utils.Utils}.
Import LatLonHeightBase.

Lemma firstn_pred_removelast (l : list LatLon) :
  firstn (List.length l - 1) l = removelast l.
Proof.
  rewrite removelast_firstn_len. now rewrite Nat.sub_1_r.
Qed.

Lemma length_removelast (l : list LatLon) :
  List.length (removelast l) = (List.length l - 1)%nat.
Proof.
  rewrite <- firstn_pred_removelast, length_firstn. lia.
Qed.


Lemma points_unfold (pts : list LatLon) (closed : bool) :
  let pts' := if closed then unclosed pts else pts in
  points pts closed =
    if (List.length pts' <? (if closed then 3 else 1))%nat
    then Raise (ValueError (TooFewPoints (List.length pts')))
    else Ok (List.length pts', pts').
Proof.
  unfold points, unclosed. destruct closed; simpl; [|reflexivity].
  destruct ((1 <? List.length pts)%nat && first_equals_last pts); simpl.
  - now rewrite firstn_pred_removelast, length_removelast.
  - reflexivity.
Qed.


(** ** Winding of a polygon *)

Lemma segments_edges (prev : LatLon) (pts : list LatLon) :
  segments (fst (_2xy prev)) (snd (_2xy prev)) pts
    = map edge_area (combine (prev :: removelast pts) pts).
Proof.
  revert prev. induction pts as [|p rest IH]; intros prev.
  - reflexivity.
  - specialize (IH p). destruct rest as [|q rest'].
    + reflexivity.
    + change (removelast (p :: q :: rest'))
        with (p :: removelast (q :: rest')).
      change (combine (prev :: p :: removelast (q :: rest')) (p :: q :: rest'))
        with ((prev, p) :: combine (p :: removelast (q :: rest')) (q :: rest')).
      cbn [map]. rewrite <- IH. reflexivity.
Qed.

Lemma isclockwise_unfold (pts : list LatLon) :
  (3 <= List.length (unclosed pts))%nat ->
  isclockwise pts =
    if gtb (pseudo_area (unclosed pts)) 0 then Ok true
    else if ltb (pseudo_area (unclosed pts)) 0 then Ok false
    else Raise (ValueError ZeroArea).
Proof.
  intros Hn. unfold isclockwise.
  pose proof (points_unfold pts true) as E. cbv zeta in E. rewrite E.
  apply Nat.ltb_ge in Hn. rewrite Hn. cbn [bind].
  unfold pseudo_area, edges.
  destruct (rev (unclosed pts)) as [|plast rest] eqn:R.
  - apply (f_equal (@List.length _)) in R. rewrite length_rev in R.
    apply Nat.ltb_ge in Hn. simpl in R. lia.
  - pose proof (segments_edges plast (unclosed pts)) as S.
    destruct (_2xy plast) as [x1 y1]. cbn [fst snd] in S. rewrite S.
    destruct (unclosed pts) as [|p ps] eqn:P.
    + apply Nat.ltb_ge in Hn. simpl in Hn. lia.
    + reflexivity.
Qed.

End Polygons.

(** ** The wrapping functions of the implementation over the reals *)

Lemma wrap_range (half period x : R) :
  0 < period ->
  half - period < wrap half period x <= half.
Proof.
  intros Hp. unfold wrap.
  set (r := (x - half) / period).
  destruct (archimed (- r)) as [H1 H2].
  rewrite minus_IZR.
  assert (Hr : r * period = x - half) by (unfold r; field; lra).
  split; nra.
Qed.

Lemma wrap_id (half period x : R) :
  0 < period -> half - period < x <= half ->
  wrap half period x = x.
Proof.
  intros Hp [Hlo Hhi]. unfold wrap.
  set (r := (x - half) / period).
  assert (Hr : r * period = x - half) by (unfold r; field; lra).
  assert (Hu : 1%Z = up (- r)).
  { apply tech_up; nra. }
  rewrite <- Hu. simpl. lra.
Qed.

(** The points of the tests of [isclockwise]. *)
Lemma eqb_neq (x y : R) : x <> y -> eqb x y = false.
Proof. apply eqb_false. Qed.



(** ** Distances *)

Section Distances.
Context {U : utils.Utils}.
Import sphericalTrigonometry.

Lemma py_sqrt_nonneg (x : R) : 0 <= x -> py_sqrt x = Ok (sqrt x).
Proof.
  intros H. unfold py_sqrt.
  now replace (ltb x 0) with false by (symmetry; now apply ltb_false).
Qed.

Lemma py_sqrt_neg (x : R) : x < 0 -> py_sqrt x = Raise (ValueError MathDomain).
Proof.
  intros H. unfold py_sqrt.
  now replace (ltb x 0) with true by (symmetry; now apply ltb_true).
Qed.

(** [_haversine3] always returns: the angle of [h] inside [0, 1], the
    fallback outside. *)
Lemma _haversine3_inside (a2 a1 b21 : R) :
  0 <= haversine a2 a1 b21 <= 1 ->
  _haversine3 a2 a1 b21 =
    Ok (atan2 (sqrt (haversine a2 a1 b21))
              (sqrt (1 - haversine a2 a1 b21)) * 2,
        cos a2, cos a1).
Proof.
  intros [H0 H1]. unfold _haversine3. fold (haversine a2 a1 b21).
  rewrite py_sqrt_nonneg by lra. cbn [bind].
  rewrite py_sqrt_nonneg by lra. reflexivity.
Qed.

Lemma _haversine3_outside (a2 a1 b21 : R) :
  haversine a2 a1 b21 < 0 \/ 1 < haversine a2 a1 b21 ->
  _haversine3 a2 a1 b21 =
    Ok (if ltb (haversine a2 a1 b21) (1 / 2) then 0 else utils.PI,
        cos a2, cos a1).
Proof.
  intros H. unfold _haversine3. fold (haversine a2 a1 b21).
  destruct H as [H | H].
  - now rewrite py_sqrt_neg.
  - rewrite py_sqrt_nonneg by lra. cbn [bind].
    now rewrite py_sqrt_neg by lra.
Qed.

Lemma _haversine3_returns (a2 a1 b21 : R) :
  exists r, _haversine3 a2 a1 b21 = Ok (r, cos a2, cos a1).
Proof.
  destruct (Rlt_dec (haversine a2 a1 b21) 0) as [H0 | H0].
  - eexists. apply _haversine3_outside. now left.
  - destruct (Rlt_dec 1 (haversine a2 a1 b21)) as [H1 | H1].
    + eexists. apply _haversine3_outside. now right.
    + eexists. apply _haversine3_inside. lra.
Qed.

(** C9.  When the haversine [h] that [distanceTo] computes is below 0 or
    above 1, so that a square root is outside its domain, the angle is 0
    for [h < 0.5] and [PI] otherwise and the distance returned is that
    angle times the radius: no exception reaches the caller. *)
Theorem distanceTo_fallback :
  forall (p q : LatLon) (radius : R),
    let h := haversine (fst (ab q)) (fst (ab p)) (snd (ab q) - snd (ab p)) in
    h < 0 \/ 1 < h ->
    exists r,
      (h < 1 / 2 -> r = 0) /\
      (1 / 2 <= h -> r = utils.PI) /\
      _haversine3 (fst (ab q)) (fst (ab p)) (snd (ab q) - snd (ab p))
        = Ok (r, cos (fst (ab q)), cos (fst (ab p))) /\
      distanceTo p q radius = Ok (r * radius).
Proof.
  intros p q radius h Hh.
  exists (if ltb h (1 / 2) then 0 else utils.PI).
  pose proof (_haversine3_outside _ _ _ Hh) as E. fold h in E.
  repeat split.
  - intros H. apply ltb_true in H. now rewrite H.
  - intros H. apply ltb_false in H. now rewrite H.
  - exact E.
  - unfold distanceTo.
    destruct (ab p) as [a1 b1], (ab q) as [a2 b2]. cbn [fst snd] in *.
    now rewrite E.
Qed.

(** C8.  [distanceTo] gives the same distance from [p] to [q] as from
    [q] to [p], for a haversine helper that is even. *)
Theorem distanceTo_symmetric :
  (forall x, utils.hsin (- x) = utils.hsin x) ->
  forall (p q : LatLon) (radius : R),
    distanceTo p q radius = distanceTo q p radius.
Proof.
  intros Heven p q radius. unfold distanceTo.
  destruct (ab p) as [a1 b1], (ab q) as [a2 b2].
  assert (Hh : haversine a2 a1 (b2 - b1) = haversine a1 a2 (b1 - b2)).
  { unfold haversine.
    replace (a2 - a1) with (- (a1 - a2)) by ring.
    replace (b2 - b1) with (- (b1 - b2)) by ring.
    rewrite !Heven. ring. }
  destruct (Rlt_dec (haversine a2 a1 (b2 - b1)) 0) as [H0 | H0];
    [| destruct (Rlt_dec 1 (haversine a2 a1 (b2 - b1))) as [H1 | H1]].
  - rewrite (_haversine3_outside a2 a1) by now left.
    rewrite (_haversine3_outside a1 a2) by (rewrite <- Hh; now left).
    now rewrite Hh.
  - rewrite (_haversine3_outside a2 a1) by now right.
    rewrite (_haversine3_outside a1 a2) by (rewrite <- Hh; now right).
    now rewrite Hh.
  - rewrite (_haversine3_inside a2 a1) by lra.
    rewrite (_haversine3_inside a1 a2) by (rewrite <- Hh; lra).
    now rewrite Hh.
Qed.

(** [distanceTo] always returns. *)
Lemma distanceTo_returns (p q : LatLon) (radius : R) :
  exists d, distanceTo p q radius = Ok d.
Proof.
  unfold distanceTo. destruct (ab p) as [a1 b1], (ab q) as [a2 b2].
  destruct (_haversine3_returns a2 a1 (b2 - b1)) as [r ->].
  now eexists.
Qed.

(** ** Points along a great circle *)


(** ** Crossing parallels *)

(** C10.  [crossingParallels] for two points of equal latitude and
    longitude: [x], [y] and [z] are zero, the guard [abs(z) > h] does not
    fire, and the division [z / h] raises [ZeroDivisionError]. *)
Theorem crossingParallels_same_point :
  forall (p q : LatLon) (lat : R),
    consistent p -> consistent q ->
    _lat p = _lat q -> _lon p = _lon q ->
    crossingParallels p q lat = Raise ZeroDivisionError.
Proof.
  intros p q lat Hp Hq Hlat Hlon.
  apply to2ab_consistent in Hp. apply to2ab_consistent in Hq.
  destruct Hp as [Hp _], Hq as [Hq _].
  unfold crossingParallels, ab. rewrite Hp, Hq, Hlat, Hlon.
  unfold radians_pair.
  set (a := utils.radians (_lat q)). set (b := utils.radians (_lon q)).
  replace (b - b) with 0 by ring. rewrite sin_0, cos_0.
  replace (sin a * cos a * cos (utils.radians lat) * 0) with 0 by ring.
  replace (sin a * cos a * cos (utils.radians lat) * 1
           - cos a * sin a * cos (utils.radians lat)) with 0 by ring.
  replace (cos a * cos a * sin (utils.radians lat) * 0) with 0 by ring.
  unfold hypot. replace (0 * 0 + 0 * 0) with 0 by ring.
  rewrite sqrt_0, Rabs_R0.
  assert (G : gtb 0 0 = false) by (apply ltb_false; lra).
  rewrite G. unfold div. now rewrite eqb_refl.
Qed.

(** ** Geographic mean *)

Lemma points_open_nonempty (p : LatLon) (rest : list LatLon) :
  LatLonHeightBase.points (p :: rest) false
    = Ok (S (List.length rest), p :: rest).
Proof. reflexivity. Qed.

(** No class of the two modules gives a point an attribute [Vector3d];
    [toVector3d] is there. *)
Lemma Vector3d_not_in_sources :
  defined_in_sources "Vector3d" = false /\
  defined_in_sources "toVector3d" = true.
Proof. split; reflexivity. Qed.

(** C1.  When none of the classes above [LatLon] supplies an attribute
    [Vector3d], [meanOf] of a list that is not empty raises
    [AttributeError] at [p.Vector3d()] for the first point, whatever the
    height given. *)
Theorem meanOf_no_Vector3d :
  utils.inherited_Vector3d = None ->
  forall (pts : list LatLon) (height : option R),
    pts <> [] ->
    meanOf pts height = Raise (AttributeError "Vector3d").
Proof.
  intros Hnone pts height Hne. destruct pts as [|p rest]; [congruence|].
  unfold meanOf. rewrite points_open_nonempty. cbn [bind mapM].
  unfold call_Vector3d. now rewrite Hnone.
Qed.

Lemma mapM_Ok {A B : Type} (f : A -> B) (l : list A) :
  mapM (fun a => Ok (f a)) l = Ok (map f l).
Proof.
  induction l as [|a l IH]; [reflexivity|]. cbn. now rewrite IH.
Qed.

(** With a method [Vector3d] to call, [meanOf] of points that are not
    empty returns the point of the summed vectors, at the height given or
    else at the mean of the heights. *)
Lemma meanOf_with_Vector3d (method : LatLon -> Vector3d) :
  utils.inherited_Vector3d = Some method ->
  forall (pts : list LatLon) (height : option R),
    pts <> [] ->
    meanOf pts height =
      Ok (LatLonHeightBase.__init__
            (fst (utils.to2ll (utils.sumOf (map method pts))))
            (snd (utils.to2ll (utils.sumOf (map method pts))))
            (match height with
             | Some height => height
             | None => fsum (map _height pts) / INR (List.length pts)
             end)).
Proof.
  intros Hm pts height Hne. destruct pts as [|p rest]; [congruence|].
  unfold meanOf. rewrite points_open_nonempty. cbn [bind].
  unfold call_Vector3d. rewrite Hm. rewrite mapM_Ok. cbn [bind].
  destruct (utils.to2ll (utils.sumOf (map method (p :: rest)))) as [a b].
  cbn [fst snd]. destruct height as [height|]; [reflexivity|].
  unfold div.
  assert (N : eqb (INR (S (List.length rest))) 0 = false).
  { apply eqb_false. apply not_0_INR. discriminate. }
  now rewrite N.
Qed.
End Distances.

(** ** The theorems on the implementation over the reals *)

Lemma float_eps_bounds : 0 < float_eps <= 1 / 2.
Proof.
  unfold float_eps. split.
  - apply Rinv_0_lt_compat, pow_lt. lra.
  - replace (1 / 2) with (/ 2 ^ 1) by (simpl; lra).
    apply Rinv_le_contravar; [simpl; lra|].
    apply Rle_pow; [lra | lia].
Qed.

Lemma ideal_hsin_even (x : R) :
  utils.hsin (Utils:=ideal) (- x) = utils.hsin (Utils:=ideal) x.
Proof.
  simpl. replace (- x / 2) with (- (x / 2)) by lra.
  rewrite sin_neg. ring.
Qed.


Lemma distanceTo_symmetric_witness :
  sphericalTrigonometry.distanceTo (U:=ideal)
    (LatLonHeightBase.__init__ 52.205 0.119 0)
    (LatLonHeightBase.__init__ 48.857 2.351 0) 6371008.77141
  = sphericalTrigonometry.distanceTo (U:=ideal)
      (LatLonHeightBase.__init__ 48.857 2.351 0)
      (LatLonHeightBase.__init__ 52.205 0.119 0) 6371008.77141.
Proof.
  apply (distanceTo_symmetric (U:=ideal)). exact ideal_hsin_even.
Defined.

Lemma cos_to_radians_0 : cos (to_radians 0) = 1.
Proof. unfold to_radians. rewrite Rmult_0_l. apply cos_0. Qed.

Lemma distanceTo_fallback_witness :
  sphericalTrigonometry.distanceTo (U:=inexact 1)
    (LatLonHeightBase.__init__ 0 0 0) (LatLonHeightBase.__init__ 0 0 0) 6371000
    = Ok (float_pi * 6371000) /\
  sphericalTrigonometry.distanceTo (U:=inexact (-1))
    (LatLonHeightBase.__init__ 0 0 0) (LatLonHeightBase.__init__ 0 0 0) 6371000
    = Ok (0 * 6371000).
Proof.
  split.
  - destruct (distanceTo_fallback (U:=inexact 1)
                (LatLonHeightBase.__init__ 0 0 0)
                (LatLonHeightBase.__init__ 0 0 0) 6371000)
      as (r & _ & Hpi & _ & Hd).
    + right. simpl. unfold sphericalTrigonometry.haversine. simpl.
      rewrite cos_to_radians_0.
      replace (to_radians 0 - to_radians 0) with 0 by ring.
      replace (0 / 2) with 0 by lra. rewrite sin_0. lra.
    + rewrite Hd. f_equal. f_equal. apply Hpi.
      simpl. unfold sphericalTrigonometry.haversine. simpl.
      rewrite cos_to_radians_0.
      replace (to_radians 0 - to_radians 0) with 0 by ring.
      replace (0 / 2) with 0 by lra. rewrite sin_0. lra.
  - destruct (distanceTo_fallback (U:=inexact (-1))
                (LatLonHeightBase.__init__ 0 0 0)
                (LatLonHeightBase.__init__ 0 0 0) 6371000)
      as (r & H0 & _ & _ & Hd).
    + left. simpl. unfold sphericalTrigonometry.haversine. simpl.
      rewrite cos_to_radians_0.
      replace (to_radians 0 - to_radians 0) with 0 by ring.
      replace (0 / 2) with 0 by lra. rewrite sin_0. lra.
    + rewrite Hd. f_equal. f_equal. apply H0.
      simpl. unfold sphericalTrigonometry.haversine. simpl.
      rewrite cos_to_radians_0.
      replace (to_radians 0 - to_radians 0) with 0 by ring.
      replace (0 / 2) with 0 by lra. rewrite sin_0. lra.
Defined.

Lemma crossingParallels_same_point_witness :
  sphericalTrigonometry.crossingParallels (U:=ideal)
    (LatLonHeightBase.__init__ 52.205 0.119 0)
    (LatLonHeightBase.__init__ 52.205 0.119 0) 10
    = Raise ZeroDivisionError.
Proof.
  apply (crossingParallels_same_point (U:=ideal)).
  - apply init_consistent.
  - apply init_consistent.
  - reflexivity.
  - reflexivity.
Defined.

Lemma meanOf_no_Vector3d_witness :
  sphericalTrigonometry.meanOf (U:=ideal)
    [LatLonHeightBase.__init__ 0 0 0] None
    = Raise (AttributeError "Vector3d").
Proof.
  apply (meanOf_no_Vector3d (U:=ideal)).
  - reflexivity.
  - discriminate.
Defined.

(** ** Spherical triangles *)

Lemma sin_cos_1 (x : R) : sin x * sin x + cos x * cos x = 1.
Proof. pose proof (sin2_cos2 x) as H. unfold Rsqr in H. lra. Qed.

Lemma hav_half (x : R) : (sin (x / 2)) ^ 2 = (1 - cos x) / 2.
Proof.
  replace x with (2 * (x / 2)) at 2 by field.
  rewrite cos_2a_sin. field.
Qed.

Lemma triangle_identity (s1 c1 s2 c2 sd cd : R) :
  s1 * s1 + c1 * c1 = 1 -> s2 * s2 + c2 * c2 = 1 -> sd * sd + cd * cd = 1 ->
  (c1 * s2 - s1 * c2 * cd) ^ 2 + (c2 * sd) ^ 2
    + (s1 * s2 + c1 * c2 * cd) ^ 2 = 1.
Proof.
  intros H1 H2 H3.
  replace ((c1 * s2 - s1 * c2 * cd) ^ 2 + (c2 * sd) ^ 2
           + (s1 * s2 + c1 * c2 * cd) ^ 2)
    with (s2 * s2 * (s1 * s1 + c1 * c1)
          + c2 * c2 * (cd * cd * (s1 * s1 + c1 * c1) + sd * sd)) by ring.
  rewrite H1, Rmult_1_r, Rmult_1_r.
  replace (cd * cd + sd * sd) with 1 by lra. lra.
Qed.

Lemma ratio_bound (n d : R) : d <> 0 -> n * n <= d * d -> -1 <= n / d <= 1.
Proof.
  intros Hd Hn.
  assert (Hd2 : 0 < d * d) by nra.
  assert (Hq : (n / d) * (n / d) <= 1).
  { replace (n / d * (n / d)) with ((n * n) / (d * d)) by (field; exact Hd).
    apply (Rmult_le_reg_r (d * d)); [exact Hd2|].
    replace (n * n / (d * d) * (d * d)) with (n * n) by (field; exact Hd).
    lra. }
  split; nra.
Qed.

(** The argument of the [acos] that gives the bearing from one start
    point to the other lies in [-1, 1]. *)
Lemma acos_arg_bound (s1 c1 s2 c2 sd cd sr cr : R) :
  s1 * s1 + c1 * c1 = 1 -> s2 * s2 + c2 * c2 = 1 -> sd * sd + cd * cd = 1 ->
  cr = s1 * s2 + c1 * c2 * cd -> sr * sr + cr * cr = 1 ->
  sr * c1 <> 0 ->
  -1 <= (s2 - s1 * cr) / (sr * c1) <= 1.
Proof.
  intros H1 H2 H3 Hc Hr Hd. apply ratio_bound; [exact Hd|].
  pose proof (triangle_identity s1 c1 s2 c2 sd cd H1 H2 H3) as T.
  rewrite <- Hc in T.
  assert (E : s2 - s1 * cr = c1 * (c1 * s2 - s1 * c2 * cd)).
  { rewrite Hc.
    replace s2 with (s2 * (s1 * s1 + c1 * c1)) at 1 by (rewrite H1; ring).
    ring. }
  rewrite E.
  assert (S : sr * sr = (c1 * s2 - s1 * c2 * cd) ^ 2 + (c2 * sd) ^ 2) by nra.
  replace (sr * c1 * (sr * c1)) with ((sr * sr) * (c1 * c1)) by ring.
  rewrite S.
  pose proof (Rle_0_sqr (c2 * sd * c1)) as Hsq. unfold Rsqr in Hsq.
  nra.
Qed.

Lemma third_angle_bound (cr s1 c1 s2 c2 : R) :
  s1 * s1 + c1 * c1 = 1 -> s2 * s2 + c2 * c2 = 1 -> -1 <= cr <= 1 ->
  -1 <= cr * (s1 * s2) - c2 * c1 <= 1.
Proof.
  intros H1 H2 Hc.
  pose proof (Rle_0_sqr (s1 - s2)) as Q1.
  pose proof (Rle_0_sqr (c1 - c2)) as Q2.
  pose proof (Rle_0_sqr (s1 + s2)) as Q3.
  pose proof (Rle_0_sqr (c1 + c2)) as Q4.
  unfold Rsqr in Q1, Q2, Q3, Q4.
  assert (A : s1 * s2 + c1 * c2 <= 1) by nra.
  assert (B : s1 * s2 - c1 * c2 <= 1) by nra.
  assert (C : - (s1 * s2) + c1 * c2 <= 1) by nra.
  assert (D : - (s1 * s2) - c1 * c2 <= 1) by nra.
  split; nra.
Qed.

Lemma destination_arg_bound (ct st sr cr sa ca : R) :
  ct * ct + st * st = 1 -> sr * sr + cr * cr = 1 -> sa * sa + ca * ca = 1 ->
  -1 <= ct * sr * ca + cr * sa <= 1.
Proof.
  intros Ht Hr Ha.
  assert (Q : (ct * sr * ca + cr * sa) ^ 2 + (ct * sr * sa - cr * ca) ^ 2
              + st * st * (sr * sr) = 1).
  { replace ((ct * sr * ca + cr * sa) ^ 2 + (ct * sr * sa - cr * ca) ^ 2
             + st * st * (sr * sr))
      with ((sa * sa + ca * ca) * (ct * ct * (sr * sr) + cr * cr)
            + st * st * (sr * sr)) by ring.
    rewrite Ha, Rmult_1_l.
    replace (ct * ct * (sr * sr) + cr * cr + st * st * (sr * sr))
      with ((ct * ct + st * st) * (sr * sr) + cr * cr) by ring.
    rewrite Ht. lra. }
  pose proof (Rle_0_sqr (st * sr)) as Hsq. unfold Rsqr in Hsq.
  pose proof (Rle_0_sqr (ct * sr * sa - cr * ca)) as Hsq'.
  unfold Rsqr in Hsq'.
  split; nra.
Qed.

(** The angle whose haversine is [h]. *)
Lemma cos_double_atan2 (h : R) :
  0 <= h <= 1 ->
  cos (atan2 (sqrt h) (sqrt (1 - h)) * 2) = 1 - 2 * h.
Proof.
  intros [H0 H1]. unfold atan2.
  destruct (Rlt_dec h 1) as [Hlt | Hge].
  - assert (Hs : 0 < sqrt (1 - h)) by (apply sqrt_lt_R0; lra).
    replace (ltb 0 (sqrt (1 - h))) with true
      by (symmetry; now apply ltb_true).
    set (t := sqrt h / sqrt (1 - h)).
    rewrite Rmult_comm, cos_2a_cos, cos_atan.
    assert (Ht : 1 + t² = / (1 - h)).
    { unfold t, Rsqr.
      replace (sqrt h / sqrt (1 - h) * (sqrt h / sqrt (1 - h)))
        with ((sqrt h * sqrt h) / (sqrt (1 - h) * sqrt (1 - h)))
        by (field; lra).
      rewrite !sqrt_sqrt by lra. field. lra. }
    assert (Hp : 0 < 1 + t²) by (rewrite Ht; apply Rinv_0_lt_compat; lra).
    replace (2 * (1 / sqrt (1 + t²)) * (1 / sqrt (1 + t²)))
      with (2 / (sqrt (1 + t²) * sqrt (1 + t²)))
      by (field; apply Rgt_not_eq, sqrt_lt_R0; exact Hp).
    rewrite sqrt_sqrt by lra. rewrite Ht. field. lra.
  - assert (h = 1) by lra. subst h.
    replace (1 - 1) with 0 by ring. rewrite sqrt_0, sqrt_1.
    replace (ltb 0 0) with false by (symmetry; apply ltb_false; lra).
    replace (ltb 0 1) with true by (symmetry; apply ltb_true; lra).
    replace (PI / 2 * 2) with PI by field. rewrite cos_PI. ring.
Qed.

Lemma sin_sign (x : R) :
  - PI < x < PI ->
  (x = 0 <-> sin x = 0) /\ (0 < x <-> 0 < sin x) /\ (x < 0 <-> sin x < 0).
Proof.
  intros [Hlo Hhi].
  destruct (Rtotal_order x 0) as [Hneg | [Hz | Hpos]].
  - assert (S : sin x < 0) by (apply sin_lt_0_var; lra).
    repeat split; intros; lra.
  - subst x. rewrite sin_0. repeat split; intros; lra.
  - assert (S : 0 < sin x) by (apply sin_gt_0; lra).
    repeat split; intros; lra.
Qed.

Lemma Rmin_lt_iff (a b c : R) : Rmin a b < c <-> a < c \/ b < c.
Proof. unfold Rmin. destruct (Rle_dec a b); lra. Qed.

Lemma py_acos_inside (x : R) : -1 <= x <= 1 -> py_acos x = Ok (acos x).
Proof.
  intros [H0 H1]. unfold py_acos.
  replace (ltb x (-1)) with false by (symmetry; apply ltb_false; lra).
  now replace (ltb 1 x) with false by (symmetry; apply ltb_false; lra).
Qed.

Lemma py_asin_inside (x : R) : -1 <= x <= 1 -> py_asin x = Ok (asin x).
Proof.
  intros [H0 H1]. unfold py_asin.
  replace (ltb x (-1)) with false by (symmetry; apply ltb_false; lra).
  now replace (ltb 1 x) with false by (symmetry; apply ltb_false; lra).
Qed.

Lemma div_nonzero (x y : R) : y <> 0 -> div x y = Ok (x / y).
Proof.
  intros H. unfold div. now replace (eqb y 0) with false
    by (symmetry; now apply eqb_false).
Qed.

(** ** Intersection of two paths *)

Section Intersection.
Context {U : utils.Utils}.
Import sphericalTrigonometry.

(** The haversine helper is the exact one, the machine epsilon is
    positive, and a wrapped angle lies strictly between -pi and pi (it is a
    float in (-math.pi, math.pi], and math.pi is below pi). *)
Hypothesis hsin_exact : forall x, utils.hsin x = (sin (x / 2)) ^ 2.
Hypothesis EPS_positive : 0 < utils.EPS.
Hypothesis wrapPI_inside : forall x, - PI < utils.wrapPI x < PI.

Lemma haversine_exact (a2 a1 b21 : R) :
  haversine a2 a1 b21
    = (1 - (sin a1 * sin a2 + cos a1 * cos a2 * cos b21)) / 2.
Proof.
  unfold haversine. rewrite !hsin_exact, !hav_half, cos_minus. field.
Qed.

Lemma central_cos_bound (a2 a1 b21 : R) :
  -1 <= sin a1 * sin a2 + cos a1 * cos a2 * cos b21 <= 1.
Proof.
  pose proof (triangle_identity _ _ _ _ _ _
                (sin_cos_1 a1) (sin_cos_1 a2) (sin_cos_1 b21)) as T.
  pose proof (Rle_0_sqr (cos a1 * sin a2 - sin a1 * cos a2 * cos b21)) as Q1.
  pose proof (Rle_0_sqr (cos a2 * sin b21)) as Q2.
  unfold Rsqr in Q1, Q2.
  split; nra.
Qed.

Lemma haversine_range (a2 a1 b21 : R) : 0 <= haversine a2 a1 b21 <= 1.
Proof.
  rewrite haversine_exact. pose proof (central_cos_bound a2 a1 b21). lra.
Qed.

(** [_haversine3] returns the central angle: its cosine is given by the
    spherical law of cosines. *)
Lemma _haversine3_exact (a2 a1 b21 : R) :
  exists r,
    _haversine3 a2 a1 b21 = Ok (r, cos a2, cos a1) /\
    cos r = sin a1 * sin a2 + cos a1 * cos a2 * cos b21.
Proof.
  pose proof (haversine_range a2 a1 b21) as Hh.
  eexists. split; [now apply _haversine3_inside|].
  rewrite cos_double_atan2 by exact Hh.
  rewrite haversine_exact. field.
Qed.

Lemma ab_with_height (h : R) (p : LatLon) : ab (with_height h p) = ab p.
Proof.
  unfold ab, LatLonHeightBase.to2ab. simpl. now destruct (_ab p).
Qed.

Lemma _destination2_returns (a b r t h : R) :
  exists p, _destination2 a b r t h = Ok p.
Proof.
  unfold _destination2. rewrite py_asin_inside.
  - cbn [bind]. now eexists.
  - apply (destination_arg_bound (cos t) (sin t) (sin r) (cos r)
             (sin a) (cos a)).
    + pose proof (sin_cos_1 t). lra.
    + apply sin_cos_1.
    + apply sin_cos_1.
Qed.
Lemma intersection_past_guards
  (start1 : LatLon) (bearing1 : R) (start2 : LatLon) (bearing2 : R) (r12 : R) :
  let a1 := fst (ab start1) in
  let b1 := snd (ab start1) in
  let a2 := fst (ab start2) in
  let b2 := snd (ab start2) in
  _haversine3 a2 a1 (b2 - b1) = Ok (r12, cos a2, cos a1) ->
  cos r12 = sin a1 * sin a2 + cos a1 * cos a2 * cos (b2 - b1) ->
  utils.EPS <= Rabs r12 ->
  utils.EPS <= Rabs (sin r12 * cos a1) ->
  utils.EPS <= Rabs (sin r12 * cos a2) ->
  exists x1 x2,
    bearing_offsets start1 bearing1 start2 bearing2 = Ok (x1, x2) /\
    (exists y1 y2, x1 = utils.wrapPI y1 /\ x2 = utils.wrapPI y2) /\
    intersection start1 bearing1 start2 bearing2 =
      if eqb (sin x1) 0 && eqb (sin x2) 0 then Raise (ValueError Infinite)
      else if ltb (sin x1 * sin x2) 0 then Raise (ValueError Ambiguous)
      else
        x3 <- py_acos (cos r12 * (sin x1 * sin x2) - cos x2 * cos x1) ;;
        _destination2 a1 b1
          (atan2 (sin r12 * (sin x1 * sin x2)) (cos x2 + cos x1 * cos x3))
          (utils.radians bearing1)
          (LatLonHeightBase._alter start1 start2 (1 / 2)).
Proof.
  intros a1 b1 a2 b2 Hr Hc G0 G1 G2.
  unfold bearing_offsets, intersection.
  subst a1 b1 a2 b2.
  destruct (ab start1) as [a1 b1], (ab start2) as [a2 b2].
  cbn [fst snd] in *. rewrite Hr. cbn [bind].
  replace (ltb (Rabs r12) utils.EPS) with false
    by (symmetry; now apply ltb_false).
  replace (ltb (Rmin (Rabs (sin r12 * cos a1)) (Rabs (sin r12 * cos a2)))
               utils.EPS) with false.
  2:{ symmetry. apply ltb_false. unfold Rmin.
      now destruct (Rle_dec _ _). }
  assert (N1 : sin r12 * cos a1 <> 0).
  { intros E. rewrite E, Rabs_R0 in G1. lra. }
  assert (N2 : sin r12 * cos a2 <> 0).
  { intros E. rewrite E, Rabs_R0 in G2. lra. }
  rewrite !div_nonzero by assumption. cbn [bind].
  rewrite py_acos_inside.
  2:{ apply (acos_arg_bound (sin a1) (cos a1) (sin a2) (cos a2)
               (sin (b2 - b1)) (cos (b2 - b1)));
        auto using sin_cos_1. }
  cbn [bind].
  rewrite py_acos_inside.
  2:{ apply (acos_arg_bound (sin a2) (cos a2) (sin a1) (cos a1)
               (sin (b2 - b1)) (cos (b2 - b1)));
        auto using sin_cos_1.
      rewrite Hc. ring. }
  cbn [bind].
  destruct (gtb (sin (b2 - b1)) 0); eexists; eexists;
    (split; [reflexivity|]); (split; [|reflexivity]);
    eexists; eexists; split; reflexivity.
Qed.
(** Over exact arithmetic, with the exact haversine, a positive machine
    epsilon and wrapped angles strictly between -pi and pi, [intersection]
    does what its documentation says: it raises [ValueError] 'parallel'
    exactly when the angular separation [r12] of the start points is
    within machine epsilon of 0 or one of [sin(r12) * cos(lat)] is; past
    that, it raises 'infinite' when both wrapped bearing offsets are zero,
    'ambiguous' when they have strictly opposite signs, and otherwise
    returns one point: the destination from the first start point along
    its bearing.  The arguments of [acos] and [asin] are inside [-1, 1]
    there. *)
Lemma intersection_outcomes_exact :
  forall (start1 : LatLon) (bearing1 : R) (start2 : LatLon) (bearing2 : R),
    let a1 := fst (ab start1) in
    let b1 := snd (ab start1) in
    let a2 := fst (ab start2) in
    let b2 := snd (ab start2) in
    exists r12,
      _haversine3 a2 a1 (b2 - b1) = Ok (r12, cos a2, cos a1) /\
      let parallel :=
        Rabs r12 < utils.EPS \/
        Rabs (sin r12 * cos a1) < utils.EPS \/
        Rabs (sin r12 * cos a2) < utils.EPS in
      (intersection start1 bearing1 start2 bearing2
         = Raise (ValueError Parallel) <-> parallel) /\
      (~ parallel ->
       exists x1 x2,
         bearing_offsets start1 bearing1 start2 bearing2 = Ok (x1, x2) /\
         (x1 = 0 /\ x2 = 0 ->
            intersection start1 bearing1 start2 bearing2
              = Raise (ValueError Infinite)) /\
         (x1 < 0 < x2 \/ x2 < 0 < x1 ->
            intersection start1 bearing1 start2 bearing2
              = Raise (ValueError Ambiguous)) /\
         (~ (x1 = 0 /\ x2 = 0) -> ~ (x1 < 0 < x2 \/ x2 < 0 < x1) ->
            exists r13 p,
              intersection start1 bearing1 start2 bearing2 = Ok p /\
              destination
                (with_height (LatLonHeightBase._alter start1 start2 (1 / 2))
                             start1)
                r13 bearing1 1 = Ok p)).
Proof.
  intros start1 bearing1 start2 bearing2 a1 b1 a2 b2.
  destruct (_haversine3_exact a2 a1 (b2 - b1)) as (r12 & Hr & Hc).
  exists r12. split; [exact Hr|]. intros parallel.
  destruct (Rlt_dec (Rabs r12) utils.EPS) as [P0 | P0].
  { (* coincident start points *)
    assert (E : intersection start1 bearing1 start2 bearing2
                = Raise (ValueError Parallel)).
    { unfold intersection. subst a1 b1 a2 b2.
      destruct (ab start1) as [a1 b1], (ab start2) as [a2 b2].
      cbn [fst snd] in *. rewrite Hr. cbn [bind].
      now replace (ltb (Rabs r12) utils.EPS) with true
        by (symmetry; now apply ltb_true). }
    split.
    - split; [intros _; now left | intros _; exact E].
    - intros NP. exfalso. apply NP. now left. }
  destruct (Rlt_dec (Rmin (Rabs (sin r12 * cos a1)) (Rabs (sin r12 * cos a2)))
                    utils.EPS) as [P1 | P1].
  { (* a start point at a pole, or antipodal start points *)
    assert (E : intersection start1 bearing1 start2 bearing2
                = Raise (ValueError Parallel)).
    { unfold intersection. subst a1 b1 a2 b2.
      destruct (ab start1) as [a1 b1], (ab start2) as [a2 b2].
      cbn [fst snd] in *. rewrite Hr. cbn [bind].
      replace (ltb (Rabs r12) utils.EPS) with false
        by (symmetry; apply ltb_false; lra).
      now replace (ltb (Rmin (Rabs (sin r12 * cos a1))
                             (Rabs (sin r12 * cos a2))) utils.EPS) with true
        by (symmetry; now apply ltb_true). }
    apply Rmin_lt_iff in P1.
    split.
    - split; [intros _; right; exact P1 | intros _; exact E].
    - intros NP. exfalso. apply NP. now right. }
  assert (P1' : ~ (Rabs (sin r12 * cos a1) < utils.EPS \/
                   Rabs (sin r12 * cos a2) < utils.EPS))
    by (intros H; apply P1, Rmin_lt_iff, H).
  assert (G1 : utils.EPS <= Rabs (sin r12 * cos a1)) by lra.
  assert (G2 : utils.EPS <= Rabs (sin r12 * cos a2)) by lra.
  assert (G0 : utils.EPS <= Rabs r12) by lra.
  destruct (intersection_past_guards start1 bearing1 start2 bearing2 r12
              Hr Hc G0 G1 G2) as (x1 & x2 & Hoff & Hwrap & Hrun).
  fold a1 b1 in Hrun.
  assert (R1 : - PI < x1 < PI /\ - PI < x2 < PI).
  { destruct Hwrap as (y1 & y2 & -> & ->). split; apply wrapPI_inside. }
  destruct R1 as [R1 R2].
  destruct (sin_sign x1 R1) as (Z1 & Pos1 & Neg1).
  destruct (sin_sign x2 R2) as (Z2 & Pos2 & Neg2).
  assert (X3 : py_acos (cos r12 * (sin x1 * sin x2) - cos x2 * cos x1)
               = Ok (acos (cos r12 * (sin x1 * sin x2) - cos x2 * cos x1))).
  { apply py_acos_inside, third_angle_bound; auto using sin_cos_1.
    rewrite Hc. apply central_cos_bound. }
  rewrite X3 in Hrun. cbn [bind] in Hrun.
  split.
  - split; [|intros [H | H]; [lra | tauto]].
    rewrite Hrun.
    destruct (eqb (sin x1) 0 && eqb (sin x2) 0); [discriminate|].
    destruct (ltb (sin x1 * sin x2) 0); [discriminate|].
    match goal with
    | |- _destination2 ?a ?b ?r ?t ?h = _ -> _ =>
        destruct (_destination2_returns a b r t h) as [p ->]
    end.
    discriminate.
  - intros _. exists x1, x2. split; [exact Hoff|]. split; [|split].
    + intros [-> ->]. rewrite Hrun, sin_0, eqb_refl. reflexivity.
    + intros Hopp. rewrite Hrun.
      assert (S3 : sin x1 * sin x2 < 0).
      { destruct Hopp as [[H1 H2] | [H1 H2]].
        - apply Neg1 in H1. apply Pos2 in H2. nra.
        - apply Neg2 in H1. apply Pos1 in H2. nra. }
      replace (eqb (sin x1) 0 && eqb (sin x2) 0) with false.
      * now replace (ltb (sin x1 * sin x2) 0) with true
          by (symmetry; now apply ltb_true).
      * symmetry. apply andb_false_iff. left. apply eqb_false. nra.
    + intros NZ NO.
      assert (B : eqb (sin x1) 0 && eqb (sin x2) 0 = false).
      { apply not_true_is_false. rewrite andb_true_iff, !eqb_true.
        intros [H1 H2]. apply NZ. split; [now apply Z1 | now apply Z2]. }
      assert (S3 : 0 <= sin x1 * sin x2).
      { assert (K : x1 = 0 \/ x2 = 0 \/ (0 < x1 /\ 0 < x2)
                    \/ (x1 < 0 /\ x2 < 0)).
        { destruct (Rtotal_order x1 0) as [H1 | [H1 | H1]];
            destruct (Rtotal_order x2 0) as [H2 | [H2 | H2]];
            try tauto; exfalso; apply NO; lra. }
        destruct K as [K | [K | [[H1 H2] | [H1 H2]]]].
        - apply Z1 in K. rewrite K. lra.
        - apply Z2 in K. rewrite K. lra.
        - apply Pos1 in H1. apply Pos2 in H2. nra.
        - apply Neg1 in H1. apply Neg2 in H2. nra. }
      rewrite Hrun, B.
      replace (ltb (sin x1 * sin x2) 0) with false
        by (symmetry; now apply ltb_false).
      set (r13 := atan2 _ _).
      destruct (_destination2_returns a1 b1 r13 (utils.radians bearing1)
                  (LatLonHeightBase._alter start1 start2 (1 / 2))) as [p Hp].
      exists r13, p. split; [exact Hp|].
      unfold destination. rewrite ab_with_height.
      fold a1 b1. destruct (ab start1) as [a1' b1'] eqn:Eab.
      subst a1 b1. cbn [fst snd] in *.
      rewrite div_nonzero by lra. cbn [bind].
      replace (r13 / 1) with r13 by field. exact Hp.
Qed.
End Intersection.

(** The binary64 value of [math.pi] is below pi (Machin's series for
    2 atan(1/3) + atan(1/7), sixteen terms). *)
Lemma float_pi_lt_PI : float_pi < PI.
Proof.
  pose proof (PI_2_3_7_ineq 7) as [H _].
  unfold float_pi.
  cbn [sum_f_R0 Nat.mul Nat.add] in H.
  unfold tg_alt, PI_2_3_7_tg, Ratan_seq in H.
  cbn [Nat.mul Nat.add pow] in H.
  rewrite ?S_INR in H. cbn [INR] in H.
  lra.
Qed.

Lemma float_pi_pos : 0 < float_pi.
Proof. unfold float_pi. lra. Qed.

Lemma ideal_wrapPI_inside (x : R) :
  - PI < utils.wrapPI (Utils:=ideal) x < PI.
Proof.
  simpl. pose proof float_pi_lt_PI. pose proof float_pi_pos.
  pose proof (wrap_range float_pi (float_pi * 2) x). lra.
Qed.

Lemma ideal_hsin_exact (x : R) :
  utils.hsin (Utils:=ideal) x = (sin (x / 2)) ^ 2.
Proof. reflexivity. Qed.

Lemma atan2_0_1 : atan2 0 1 = 0.
Proof.
  unfold atan2.
  replace (ltb 0 1) with true by (symmetry; apply ltb_true; lra).
  replace (0 / 1) with 0 by field. apply atan_0.
Qed.

(** Start points on the equator a quarter circle apart: the three
    outcomes past the guards. *)
Lemma to_radians_to_degrees (y : R) : to_radians (to_degrees y) = y.
Proof.
  unfold to_radians, to_degrees. pose proof float_pi_pos. field. lra.
Qed.

Lemma to_radians_0 : to_radians 0 = 0.
Proof. unfold to_radians. ring. Qed.

Lemma quarter_haversine3 :
  sphericalTrigonometry._haversine3 (U:=ideal) 0 0 (PI / 2 - 0)
    = Ok (PI / 2, cos 0, cos 0).
Proof.
  assert (Hh : sphericalTrigonometry.haversine (U:=ideal) 0 0 (PI / 2 - 0)
               = 1 / 2).
  { unfold sphericalTrigonometry.haversine. simpl.
    replace (0 - 0) with 0 by ring. replace (0 / 2) with 0 by field.
    replace ((PI / 2 - 0) / 2) with (PI / 4) by field.
    rewrite sin_0, cos_0, sin_PI4.
    replace (1 / sqrt 2 * (1 / sqrt 2 * 1))
      with (1 / (sqrt 2 * sqrt 2))
      by (field; apply Rgt_not_eq, sqrt_lt_R0; lra).
    rewrite sqrt_sqrt by lra. lra. }
  rewrite (_haversine3_inside (U:=ideal))
    by (rewrite Hh; lra).
  rewrite Hh. replace (1 - 1 / 2) with (1 / 2) by field.
  assert (Hs : 0 < sqrt (1 / 2)) by (apply sqrt_lt_R0; lra).
  unfold atan2.
  replace (ltb 0 (sqrt (1 / 2))) with true by (symmetry; now apply ltb_true).
  replace (sqrt (1 / 2) / sqrt (1 / 2)) with 1 by (field; lra).
  rewrite atan_1. now replace (PI / 4 * 2) with (PI / 2) by field.
Qed.

Lemma quarter_offsets (bearing1 bearing2 : R) :
  sphericalTrigonometry.bearing_offsets (U:=ideal)
    (LatLonHeightBase.__init__ 0 0 0) bearing1
    (LatLonHeightBase.__init__ 0 (to_degrees (PI / 2)) 0) bearing2
  = Ok (wrap float_pi (float_pi * 2) (to_radians bearing1 - PI / 2),
        wrap float_pi (float_pi * 2)
          (float_pi * 2 - PI / 2 - to_radians bearing2)).
Proof.
  unfold sphericalTrigonometry.bearing_offsets, sphericalTrigonometry.ab.
  cbn [LatLonHeightBase.to2ab LatLonHeightBase.__init__ _ab _lat _lon fst].
  cbn [utils.radians ideal].
  rewrite to_radians_to_degrees, to_radians_0, quarter_haversine3.
  cbn [bind].
  replace (PI / 2 - 0) with (PI / 2) by ring.
  rewrite sin_0, cos_0, sin_PI2, cos_PI2.
  rewrite !div_nonzero by lra. cbn [bind].
  replace ((0 - 0 * 0) / (1 * 1)) with 0 by field.
  rewrite py_acos_inside by lra. cbn [bind]. rewrite acos_0.
  replace (gtb 1 0) with true by (symmetry; apply ltb_true; lra).
  reflexivity.
Qed.

(** On points, over exact arithmetic: two coincident start points are
    'parallel'; from the
    start points (0, 0) and (0, 90 E), paths along the equator are
    'infinite', paths that diverge are 'ambiguous', and two paths to the
    same side of the equator meet in one point. *)
Lemma intersection_outcomes_exact_examples :
  sphericalTrigonometry.intersection (U:=ideal)
    (LatLonHeightBase.__init__ 51.8853 0.2545 0) 108.547
    (LatLonHeightBase.__init__ 51.8853 0.2545 0) 32.435
    = Raise (ValueError Parallel) /\
  sphericalTrigonometry.intersection (U:=ideal)
    (LatLonHeightBase.__init__ 0 0 0) (to_degrees (PI / 2))
    (LatLonHeightBase.__init__ 0 (to_degrees (PI / 2)) 0)
    (to_degrees (float_pi * 2 - PI / 2))
    = Raise (ValueError Infinite) /\
  sphericalTrigonometry.intersection (U:=ideal)
    (LatLonHeightBase.__init__ 0 0 0) (to_degrees (PI / 2 + 1))
    (LatLonHeightBase.__init__ 0 (to_degrees (PI / 2)) 0)
    (to_degrees (float_pi * 2 - PI / 2 + 1))
    = Raise (ValueError Ambiguous) /\
  exists p,
    sphericalTrigonometry.intersection (U:=ideal)
      (LatLonHeightBase.__init__ 0 0 0) (to_degrees (PI / 2 - 1))
      (LatLonHeightBase.__init__ 0 (to_degrees (PI / 2)) 0)
      (to_degrees (float_pi * 2 - PI / 2 + 1))
      = Ok p.
Proof.
  pose proof float_pi_pos as Ppos. pose proof float_eps_bounds as Heps.
  assert (Pbig : 3 < float_pi) by (unfold float_pi; lra).
  assert (W : forall x, -3 <= x <= 3 -> wrap float_pi (float_pi * 2) x = x)
    by (intros; apply wrap_id; lra).
  assert (Q : forall bearing1 bearing2,
    exists x1 x2,
      x1 = wrap float_pi (float_pi * 2) (to_radians bearing1 - PI / 2) /\
      x2 = wrap float_pi (float_pi * 2)
             (float_pi * 2 - PI / 2 - to_radians bearing2) /\
      (x1 = 0 /\ x2 = 0 ->
         sphericalTrigonometry.intersection (U:=ideal)
           (LatLonHeightBase.__init__ 0 0 0) bearing1
           (LatLonHeightBase.__init__ 0 (to_degrees (PI / 2)) 0) bearing2
           = Raise (ValueError Infinite)) /\
      (x1 < 0 < x2 \/ x2 < 0 < x1 ->
         sphericalTrigonometry.intersection (U:=ideal)
           (LatLonHeightBase.__init__ 0 0 0) bearing1
           (LatLonHeightBase.__init__ 0 (to_degrees (PI / 2)) 0) bearing2
           = Raise (ValueError Ambiguous)) /\
      (~ (x1 = 0 /\ x2 = 0) -> ~ (x1 < 0 < x2 \/ x2 < 0 < x1) ->
         exists p,
           sphericalTrigonometry.intersection (U:=ideal)
             (LatLonHeightBase.__init__ 0 0 0) bearing1
             (LatLonHeightBase.__init__ 0 (to_degrees (PI / 2)) 0) bearing2
             = Ok p)).
  { intros bearing1 bearing2.
    destruct (intersection_outcomes_exact (U:=ideal) ideal_hsin_exact
                (proj1 float_eps_bounds) ideal_wrapPI_inside
                (LatLonHeightBase.__init__ 0 0 0) bearing1
                (LatLonHeightBase.__init__ 0 (to_degrees (PI / 2)) 0) bearing2)
      as (r12 & Hr & _ & Hrest).
    cbn [sphericalTrigonometry.ab LatLonHeightBase.to2ab
         LatLonHeightBase.__init__ _ab _lat _lon fst snd
         utils.radians ideal] in Hr, Hrest.
    rewrite to_radians_to_degrees, to_radians_0 in Hr.
    rewrite to_radians_0 in Hrest.
    rewrite quarter_haversine3 in Hr. injection Hr as <-.
    rewrite sin_PI2, cos_0, Rmult_1_l, Rabs_R1 in Hrest.
    destruct Hrest as (x1 & x2 & Hoff & Hinf & Hamb & Hok).
    { cbn [utils.EPS ideal]. pose proof PI2_1.
      rewrite Rabs_pos_eq by lra. lra. }
    rewrite quarter_offsets in Hoff. injection Hoff as <- <-.
    eexists. eexists. split; [reflexivity|]. split; [reflexivity|].
    split; [exact Hinf|]. split; [exact Hamb|].
    intros NZ NO. destruct (Hok NZ NO) as (r13 & p & Hp & _).
    now exists p. }
  split; [|split; [|split]].
  - destruct (intersection_outcomes_exact (U:=ideal) ideal_hsin_exact
                (proj1 float_eps_bounds) ideal_wrapPI_inside
                (LatLonHeightBase.__init__ 51.8853 0.2545 0) 108.547
                (LatLonHeightBase.__init__ 51.8853 0.2545 0) 32.435)
      as (r12 & Hr & Hpar & _).
    apply Hpar. left.
    cbn [sphericalTrigonometry.ab LatLonHeightBase.to2ab
         LatLonHeightBase.__init__ _ab _lat _lon fst snd] in Hr.
    set (a := utils.radians 51.8853) in *.
    set (b := utils.radians 0.2545) in *.
    assert (Hh : sphericalTrigonometry.haversine (U:=ideal) a a (b - b) = 0).
    { unfold sphericalTrigonometry.haversine. simpl.
      replace (a - a) with 0 by ring. replace (b - b) with 0 by ring.
      replace (0 / 2) with 0 by field. rewrite sin_0. ring. }
    rewrite (_haversine3_inside (U:=ideal)) in Hr by (rewrite Hh; lra).
    rewrite Hh in Hr.
    replace (1 - 0) with 1 in Hr by ring.
    rewrite sqrt_0, sqrt_1, atan2_0_1 in Hr.
    injection Hr as <-.
    rewrite Rmult_0_l, Rabs_R0. apply float_eps_bounds.
  - destruct (Q (to_degrees (PI / 2)) (to_degrees (float_pi * 2 - PI / 2)))
      as (x1 & x2 & E1 & E2 & Hinf & _).
    rewrite to_radians_to_degrees in E1, E2.
    replace (PI / 2 - PI / 2) with 0 in E1 by ring.
    replace (float_pi * 2 - PI / 2 - (float_pi * 2 - PI / 2)) with 0 in E2
      by ring.
    rewrite W in E1, E2 by lra.
    apply Hinf. now split.
  - destruct (Q (to_degrees (PI / 2 + 1))
                (to_degrees (float_pi * 2 - PI / 2 + 1)))
      as (x1 & x2 & E1 & E2 & _ & Hamb & _).
    rewrite to_radians_to_degrees in E1, E2.
    replace (PI / 2 + 1 - PI / 2) with 1 in E1 by ring.
    replace (float_pi * 2 - PI / 2 - (float_pi * 2 - PI / 2 + 1)) with (-1)
      in E2 by ring.
    rewrite W in E1, E2 by lra.
    apply Hamb. right. lra.
  - destruct (Q (to_degrees (PI / 2 - 1))
                (to_degrees (float_pi * 2 - PI / 2 + 1)))
      as (x1 & x2 & E1 & E2 & _ & _ & Hok).
    rewrite to_radians_to_degrees in E1, E2.
    replace (PI / 2 - 1 - PI / 2) with (-1) in E1 by ring.
    replace (float_pi * 2 - PI / 2 - (float_pi * 2 - PI / 2 + 1)) with (-1)
      in E2 by ring.
    rewrite W in E1, E2 by lra.
    apply Hok; lra.
Defined.

(** * Further properties of the two modules *)

(** ** Equality and copies of points *)

Section Equality.
Context {U : utils.Utils}.
Import LatLonHeightBase.

Lemma equals_iff (p q : LatLon) :
  equals p q = true <-> _lat p = _lat q /\ _lon p = _lon q.
Proof.
  unfold equals. now rewrite andb_true_iff, !eqb_true.
Qed.

(** X1.  [equals] (and [==]) without a tolerance compares the latitudes
    and the longitudes only, not the heights nor the caches, and is an
    equivalence; [!=] is its negation. *)
Theorem equals_is_equivalence :
  forall p q r : LatLon,
    (equals p q = true <-> _lat p = _lat q /\ _lon p = _lon q) /\
    equals p p = true /\
    equals p q = equals q p /\
    (equals p q = true -> equals q r = true -> equals p r = true) /\
    __eq__ p q = equals p q /\
    __ne__ p q = negb (equals p q).
Proof.
  intros p q r. split; [apply equals_iff|]. split; [|split; [|split]].
  - apply equals_iff. now split.
  - destruct (equals q p) eqn:E.
    + apply equals_iff in E. apply equals_iff. destruct E. now split.
    + destruct (equals p q) eqn:E'; [|reflexivity].
      apply equals_iff in E'. destruct E' as [H1 H2].
      assert (E2 : equals q p = true) by (apply equals_iff; now split).
      congruence.
  - intros H1 H2. apply equals_iff in H1, H2. apply equals_iff.
    destruct H1, H2. split; congruence.
  - split; reflexivity.
Qed.

(** X2.  [equals] with a tolerance [eps]: a tolerance that is zero or
    negative is ignored; a positive one makes two points equal exactly
    when both differences of degrees are below it, which holds for points
    that are equal without tolerance, in either order of the points, and
    for every larger tolerance. *)
Theorem equals_with_tolerance :
  forall (p q : LatLon) (eps : R),
    (eps <= 0 -> equals_eps p q (Some eps) = equals p q) /\
    (0 < eps ->
       (equals_eps p q (Some eps) = true <->
          Rabs (_lat p - _lat q) < eps /\ Rabs (_lon p - _lon q) < eps) /\
       (equals p q = true -> equals_eps p q (Some eps) = true) /\
       equals_eps p q (Some eps) = equals_eps q p (Some eps) /\
       (forall eps', eps <= eps' ->
          equals_eps p q (Some eps) = true ->
          equals_eps p q (Some eps') = true)).
Proof.
  intros p q eps.
  assert (Tol : forall (a b : LatLon) (e : R), 0 < e ->
            (equals_eps a b (Some e) = true <->
               Rabs (_lat a - _lat b) < e /\ Rabs (_lon a - _lon b) < e)).
  { intros a b e He. unfold equals_eps.
    replace (eqb e 0) with false
      by (symmetry; apply eqb_false; lra).
    replace (gtb e 0) with true by (symmetry; apply ltb_true; lra).
    cbn [negb andb]. rewrite ltb_true.
    split.
    - intros H. split.
      + eapply Rle_lt_trans; [apply Rmax_l | exact H].
      + eapply Rle_lt_trans; [apply Rmax_r | exact H].
    - intros [H1 H2]. now apply Rmax_lub_lt. }
  split.
  - intros Hle. unfold equals_eps.
    destruct (Req_dec_T eps 0) as [-> | Hne].
    + now rewrite eqb_refl.
    + replace (gtb eps 0) with false
        by (symmetry; apply ltb_false; lra).
      now rewrite andb_false_r.
  - intros Hpos. split; [now apply Tol|]. split; [|split].
    + intros H. apply equals_iff in H. destruct H as [H1 H2].
      apply Tol; [exact Hpos|]. rewrite H1, H2.
      replace (_lat q - _lat q) with 0 by ring.
      replace (_lon q - _lon q) with 0 by ring.
      rewrite Rabs_R0. now split.
    + destruct (equals_eps q p (Some eps)) eqn:E.
      * apply Tol in E; [|exact Hpos]. apply Tol; [exact Hpos|].
        now rewrite (Rabs_minus_sym (_lat p)), (Rabs_minus_sym (_lon p)).
      * destruct (equals_eps p q (Some eps)) eqn:E'; [|reflexivity].
        apply Tol in E'; [|exact Hpos].
        assert (E2 : equals_eps q p (Some eps) = true).
        { apply Tol; [exact Hpos|].
          now rewrite (Rabs_minus_sym (_lat q)), (Rabs_minus_sym (_lon q)). }
        congruence.
    + intros eps' Hle H. apply Tol in H; [|exact Hpos].
      apply Tol; [lra|]. lra.
Qed.

(** X3.  [copy] gives a point that is equal to the original, with its
    height and with empty caches, and whose radians pair and unit vector
    read as those of an original whose caches are consistent. *)
Theorem copy_equals_original :
  forall p : LatLon,
    equals (copy p) p = true /\
    _height (copy p) = _height p /\
    _ab (copy p) = None /\ _v3d (copy p) = None /\
    (consistent p ->
       fst (to2ab (copy p)) = fst (to2ab p) /\
       fst (sphericalTrigonometry.toVector3d (copy p))
         = fst (sphericalTrigonometry.toVector3d p)).
Proof.
  intros p. split; [apply equals_iff; now split|].
  split; [reflexivity|]. split; [reflexivity|]. split; [reflexivity|].
  intros H. split.
  - apply to2ab_consistent in H. now destruct H as [-> _].
  - apply toVector3d_consistent in H. now destruct H as [-> _].
Qed.

(** X4.  What [points] returns: the count is the length of the list
    returned and is at least 3 (closed) or 1 (open); the list is the
    sequence given or the sequence without its last element, and it is the
    sequence given when [closed] is false. *)
Theorem points_result :
  forall (pts : list LatLon) (closed : bool) (n : nat) (ps : list LatLon),
    points pts closed = Ok (n, ps) ->
    n = List.length ps /\
    ((if closed then 3 else 1) <= n)%nat /\
    (ps = pts \/ ps = removelast pts /\ closed = true /\ pts <> []) /\
    ps = firstn n pts /\
    (closed = false -> ps = pts).
Proof.
  intros pts closed n ps H.
  pose proof (points_unfold pts closed) as E. cbv zeta in E.
  rewrite E in H.
  destruct (List.length (if closed then unclosed pts else pts)
              <? (if closed then 3 else 1))%nat eqn:L; [discriminate|].
  injection H as <- <-. apply Nat.ltb_ge in L.
  split; [reflexivity|]. split; [exact L|].
  destruct closed.
  - unfold unclosed in *.
    destruct ((1 <? List.length pts)%nat && first_equals_last pts) eqn:D.
    + split; [|split; [|discriminate]].
      * right. split; [reflexivity|]. split; [reflexivity|].
        intros ->. discriminate D.
      * rewrite length_removelast. symmetry. apply firstn_pred_removelast.
    + split; [now left|]. split; [|discriminate].
      symmetry. apply firstn_all.
  - split; [now left|]. split; [|reflexivity].
    symmetry. apply firstn_all.
Qed.
End Equality.

Lemma equals_with_tolerance_witness :
  LatLonHeightBase.equals_eps
    (LatLonHeightBase.__init__ 52.205 0.119 0)
    (LatLonHeightBase.__init__ 52.2051 0.119 10) (Some 0.001) = true /\
  LatLonHeightBase.equals_eps
    (LatLonHeightBase.__init__ 52.205 0.119 0)
    (LatLonHeightBase.__init__ 52.2051 0.119 10) (Some 0)
  = LatLonHeightBase.equals
      (LatLonHeightBase.__init__ 52.205 0.119 0)
      (LatLonHeightBase.__init__ 52.2051 0.119 10).
Proof.
  split.
  - destruct (equals_with_tolerance
                (LatLonHeightBase.__init__ 52.205 0.119 0)
                (LatLonHeightBase.__init__ 52.2051 0.119 10) 0.001)
      as [_ Hpos].
    destruct Hpos as [Hiff _]; [lra|].
    apply Hiff. cbn [LatLonHeightBase.__init__ _lat _lon].
    replace (0.119 - 0.119) with 0 by ring. rewrite Rabs_R0.
    split; [|lra]. apply Rabs_def1; lra.
  - destruct (equals_with_tolerance
                (LatLonHeightBase.__init__ 52.205 0.119 0)
                (LatLonHeightBase.__init__ 52.2051 0.119 10) 0)
      as [Hzero _].
    apply Hzero. lra.
Defined.

Lemma copy_equals_original_witness :
  fst (LatLonHeightBase.to2ab (U:=ideal)
         (LatLonHeightBase.copy (cached_origin (U:=ideal))))
  = fst (LatLonHeightBase.to2ab (U:=ideal) (cached_origin (U:=ideal))).
Proof.
  apply (copy_equals_original (U:=ideal)).
  apply (toVector3d_consistent (U:=ideal)), init_consistent.
Defined.

Lemma points_result_witness :
  3%nat = List.length
        [LatLonHeightBase.__init__ 45 1 0; LatLonHeightBase.__init__ 46 1 0;
         LatLonHeightBase.__init__ 46 2 0] /\
  (3 <= 3)%nat.
Proof.
  destruct (points_result
    [LatLonHeightBase.__init__ 45 1 0; LatLonHeightBase.__init__ 46 1 0;
     LatLonHeightBase.__init__ 46 2 0; LatLonHeightBase.__init__ 45 1 0] true
    3%nat
    [LatLonHeightBase.__init__ 45 1 0; LatLonHeightBase.__init__ 46 1 0;
     LatLonHeightBase.__init__ 46 2 0]) as (H1 & H2 & _).
  - unfold LatLonHeightBase.points, LatLonHeightBase.first_equals_last,
      LatLonHeightBase.equals. simpl. now rewrite !eqb_refl.
  - split; [exact H1 | exact H2].
Defined.

(** ** The winding of a polygon walked the other way *)

Lemma last_cons_default {A : Type} (c : A) (l : list A) (d : A) :
  last (c :: l) d = last l c.
Proof.
  revert c d. induction l as [|x l IH]; intros c d; [reflexivity|].
  change (last (c :: x :: l) d) with (last (x :: l) d).
  now rewrite (IH x d), (IH x c).
Qed.

Lemma last_rev_hd {A : Type} (l : list A) (d : A) :
  last (rev l) d = hd d l.
Proof.
  destruct l as [|x l]; [reflexivity|]. simpl. apply last_last.
Qed.

Lemma hd_rev_last {A : Type} (l : list A) (d : A) :
  hd d (rev l) = last l d.
Proof.
  rewrite <- (rev_involutive l) at 2. symmetry. apply last_rev_hd.
Qed.

Lemma last_map_comm {A B : Type} (f : A -> B) (l : list A) (d : A) :
  last (map f l) (f d) = f (last l d).
Proof.
  induction l as [|x l IH]; [reflexivity|].
  destruct l as [|y l]; [reflexivity|]. exact IH.
Qed.

Lemma step_area_antisym (c1 c2 : R * R) :
  step_area c1 c2 = - step_area c2 c1.
Proof. unfold step_area. ring. Qed.

Lemma step_area_same (c : R * R) : step_area c c = 0.
Proof. unfold step_area. ring. Qed.

Lemma path_area_app (prev : R * R) (l : list (R * R)) (q : R * R) :
  path_area prev (l ++ [q]) = path_area prev l + step_area (last l prev) q.
Proof.
  revert prev. induction l as [|c l IH]; intros prev.
  - simpl. ring.
  - change ((c :: l) ++ [q]) with (c :: (l ++ [q])).
    cbn [path_area]. rewrite IH, last_cons_default. ring.
Qed.

Lemma open_area_app (l : list (R * R)) (q : R * R) :
  open_area (l ++ [q]) = open_area l + step_area (last l q) q.
Proof.
  destruct l as [|c l].
  - simpl. rewrite step_area_same. ring.
  - change ((c :: l) ++ [q]) with (c :: (l ++ [q])).
    cbn [open_area]. now rewrite path_area_app, last_cons_default.
Qed.

Lemma open_area_cons (c : R * R) (l : list (R * R)) :
  open_area (c :: l) = step_area c (hd c l) + open_area l.
Proof.
  destruct l as [|x l]; simpl.
  - rewrite step_area_same. ring.
  - reflexivity.
Qed.

Lemma open_area_rev (l : list (R * R)) :
  open_area (rev l) = - open_area l.
Proof.
  induction l as [|a l IH].
  - simpl. ring.
  - cbn [rev]. rewrite open_area_app, IH, last_rev_hd, open_area_cons.
    rewrite (step_area_antisym a). ring.
Qed.

Lemma loop_area_open (l : list (R * R)) (d : R * R) :
  l <> [] ->
  loop_area l = step_area (last l d) (hd d l) + open_area l.
Proof.
  destruct l as [|c l]; [congruence|]. intros _.
  cbn [loop_area hd open_area path_area].
  now rewrite !last_cons_default.
Qed.

Lemma loop_area_rev (l : list (R * R)) :
  loop_area (rev l) = - loop_area l.
Proof.
  destruct l as [|c l].
  - simpl. ring.
  - assert (N : rev (c :: l) <> []).
    { intros E. apply (f_equal (@List.length _)) in E.
      rewrite length_rev in E. discriminate E. }
    rewrite (loop_area_open _ c N).
    rewrite (loop_area_open (c :: l) c) by discriminate.
    rewrite open_area_rev, last_rev_hd, hd_rev_last.
    rewrite (step_area_antisym (hd c (c :: l))). ring.
Qed.

Lemma loop_area_rotate (l : list (R * R)) (q : R * R) :
  loop_area (l ++ [q]) = loop_area (q :: l).
Proof.
  destruct l as [|c l]; [reflexivity|].
  change ((c :: l) ++ [q]) with (c :: (l ++ [q])).
  cbn [loop_area path_area].
  rewrite !last_cons_default, last_last, path_area_app. ring.
Qed.

Section Winding.
Context {U : utils.Utils}.
Import LatLonHeightBase.

Lemma segments_path (x y : R) (pts : list LatLon) :
  fold_right Rplus 0 (segments x y pts) = path_area (x, y) (flat pts).
Proof.
  revert x y. induction pts as [|p rest IH]; intros x y; [reflexivity|].
  cbn [segments flat map path_area].
  destruct (_2xy p) as [x2 y2] eqn:E. cbn [fold_right].
  rewrite IH. unfold step_area. cbn [fst snd]. reflexivity.
Qed.

Lemma pseudo_area_loop (pts : list LatLon) :
  pseudo_area pts = loop_area (flat pts).
Proof.
  destruct pts as [|p0 rest]; [reflexivity|].
  unfold pseudo_area, edges.
  destruct (rev (p0 :: rest)) as [|plast r] eqn:R.
  - apply (f_equal (@List.length _)) in R. rewrite length_rev in R.
    discriminate R.
  - rewrite <- segments_edges, segments_path.
    assert (L : plast = last (p0 :: rest) p0).
    { rewrite <- (rev_involutive (p0 :: rest)), R. cbn [rev].
      now rewrite last_last. }
    cbn [flat map loop_area].
    change (_2xy p0 :: map _2xy rest) with (map _2xy (p0 :: rest)).
    rewrite last_map_comm, <- L.
    now destruct (_2xy plast).
Qed.

Lemma equals_sym (p q : LatLon) : equals p q = equals q p.
Proof.
  unfold equals.
  assert (S : forall x y, eqb x y = eqb y x).
  { intros x y. unfold eqb.
    destruct (Req_dec_T x y), (Req_dec_T y x); congruence. }
  now rewrite (S (_lat p)), (S (_lon p)).
Qed.

Lemma first_equals_last_hd (l : list LatLon) (d : LatLon) :
  l <> [] -> first_equals_last l = equals (hd d l) (last l d).
Proof.
  destruct l as [|c l]; [congruence|]. intros _.
  cbn [first_equals_last hd]. now rewrite !last_cons_default.
Qed.

Lemma first_equals_last_rev (l : list LatLon) :
  first_equals_last (rev l) = first_equals_last l.
Proof.
  destruct l as [|c l]; [reflexivity|].
  assert (N : rev (c :: l) <> []).
  { intros E. apply (f_equal (@List.length _)) in E.
    rewrite length_rev in E. discriminate E. }
  rewrite (first_equals_last_hd _ c N).
  rewrite (first_equals_last_hd (c :: l) c) by discriminate.
  rewrite hd_rev_last, last_rev_hd. apply equals_sym.
Qed.

Lemma equals_2xy (p q : LatLon) : equals p q = true -> _2xy p = _2xy q.
Proof.
  unfold equals, _2xy. rewrite andb_true_iff, !eqb_true.
  now intros [-> ->].
Qed.

(** The polygon without its closing duplicate, walked the other way:
    as many corners, and the opposite pseudo-area. *)
Lemma unclosed_rev (pts : list LatLon) :
  List.length (unclosed (rev pts)) = List.length (unclosed pts) /\
  pseudo_area (unclosed (rev pts)) = - pseudo_area (unclosed pts).
Proof.
  unfold unclosed. rewrite length_rev, first_equals_last_rev.
  destruct ((1 <? List.length pts)%nat && first_equals_last pts) eqn:D.
  - apply andb_true_iff in D. destruct D as [Dn De].
    apply Nat.ltb_lt in Dn.
    destruct pts as [|p0 rest]; [simpl in Dn; lia|].
    destruct (exists_last (l:=rest)) as (mid & pl & ->).
    { intros ->. simpl in Dn. lia. }
    assert (E : _2xy p0 = _2xy pl).
    { apply equals_2xy. cbn [first_equals_last] in De.
      change (p0 :: mid ++ [pl]) with ((p0 :: mid) ++ [pl]) in De.
      now rewrite last_last in De. }
    change (p0 :: mid ++ [pl]) with ((p0 :: mid) ++ [pl]).
    rewrite removelast_last.
    rewrite rev_app_distr. cbn [rev app].
    change (pl :: (rev mid ++ [p0])) with ((pl :: rev mid) ++ [p0]).
    rewrite removelast_last.
    split.
    + cbn [List.length]. now rewrite length_rev.
    + rewrite !pseudo_area_loop. cbn [flat map]. rewrite <- E.
      rewrite map_rev. fold (flat mid).
      rewrite <- loop_area_rotate.
      change (rev (flat mid) ++ [_2xy p0]) with (rev (_2xy p0 :: flat mid)).
      apply loop_area_rev.
  - split; [apply length_rev|].
    rewrite !pseudo_area_loop. unfold flat. rewrite map_rev.
    apply loop_area_rev.
Qed.

Lemma isclockwise_few (pts : list LatLon) :
  (List.length (unclosed pts) < 3)%nat ->
  isclockwise pts
    = Raise (ValueError (TooFewPoints (List.length (unclosed pts)))).
Proof.
  intros Hn. unfold isclockwise.
  pose proof (points_unfold pts true) as E. cbv zeta in E. rewrite E.
  apply Nat.ltb_lt in Hn. now rewrite Hn.
Qed.

(** X5.  [isclockwise] of the points in reverse order gives the opposite
    answer: [True] for [False] and [False] for [True], and the same
    [ValueError] (too few points, zero area). *)
Theorem isclockwise_reversed :
  forall pts : list LatLon,
    isclockwise (rev pts) = flipped (isclockwise pts).
Proof.
  intros pts. destruct (unclosed_rev pts) as [Hlen Harea].
  destruct (Nat.lt_ge_cases (List.length (unclosed pts)) 3) as [Few | Many].
  - rewrite (isclockwise_few pts Few).
    rewrite (isclockwise_few (rev pts)) by (rewrite Hlen; exact Few).
    now rewrite Hlen.
  - rewrite (isclockwise_unfold pts Many).
    rewrite (isclockwise_unfold (rev pts)) by (rewrite Hlen; exact Many).
    rewrite Harea. unfold gtb.
    set (A := pseudo_area (unclosed pts)).
    destruct (Rtotal_order A 0) as [Neg | [Zero | Pos]].
    + replace (ltb 0 (- A)) with true by (symmetry; apply ltb_true; lra).
      replace (ltb 0 A) with false by (symmetry; apply ltb_false; lra).
      now replace (ltb A 0) with true by (symmetry; apply ltb_true; lra).
    + replace (ltb 0 (- A)) with false by (symmetry; apply ltb_false; lra).
      replace (ltb (- A) 0) with false by (symmetry; apply ltb_false; lra).
      replace (ltb 0 A) with false by (symmetry; apply ltb_false; lra).
      now replace (ltb A 0) with false by (symmetry; apply ltb_false; lra).
    + replace (ltb 0 (- A)) with false by (symmetry; apply ltb_false; lra).
      replace (ltb (- A) 0) with true by (symmetry; apply ltb_true; lra).
      now replace (ltb 0 A) with true by (symmetry; apply ltb_true; lra).
Qed.
End Winding.

(** ** Unit vectors *)

Lemma atan2_first_quadrant (y x : R) :
  0 <= y -> 0 <= x -> 0 <= atan2 y x <= PI / 2.
Proof.
  intros Hy Hx. unfold atan2. pose proof PI_RGT_0 as Hpi.
  destruct (Rlt_dec 0 x) as [Px | Zx].
  - replace (ltb 0 x) with true by (symmetry; now apply ltb_true).
    pose proof (atan_bound (y / x)) as [_ Hub].
    assert (Hq : 0 <= y / x).
    { unfold Rdiv. apply Rmult_le_pos; [exact Hy|].
      left. now apply Rinv_0_lt_compat. }
    destruct Hq as [Hq | Hq].
    + pose proof (atan_increasing 0 (y / x) Hq) as Hinc.
      rewrite atan_0 in Hinc. lra.
    + rewrite <- Hq, atan_0. lra.
  - replace (ltb 0 x) with false by (symmetry; apply ltb_false; lra).
    replace (ltb x 0) with false by (symmetry; apply ltb_false; lra).
    destruct (Rlt_dec 0 y) as [Py | Zy].
    + replace (ltb 0 y) with true by (symmetry; now apply ltb_true). lra.
    + replace (ltb 0 y) with false by (symmetry; apply ltb_false; lra).
      replace (ltb y 0) with false by (symmetry; apply ltb_false; lra).
      lra.
Qed.

Section Vectors.
Context {U : utils.Utils}.
Import sphericalTrigonometry.

Lemma unit_vector_norm (lat lon : R) :
  dot (unit_vector lat lon) (unit_vector lat lon) = 1.
Proof.
  unfold dot, unit_vector. cbn [vx vy vz].
  set (a := utils.radians lat). set (b := utils.radians lon).
  pose proof (sin_cos_1 a) as Ha. pose proof (sin_cos_1 b) as Hb.
  replace (cos a * cos b * (cos a * cos b) + cos a * sin b * (cos a * sin b)
           + sin a * sin a)
    with (cos a * cos a * (sin b * sin b + cos b * cos b) + sin a * sin a)
    by ring.
  rewrite Hb. lra.
Qed.

(** X6.  The n-vector of a point has length one: the three components
    that [to3xyz] returns always, and the vector that [toVector3d]
    returns for a point whose caches are consistent. *)
Theorem nvector_is_unit :
  forall p : LatLon,
    (let '(x, y, z) := fst (LatLonHeightBase.to3xyz p) in
     x * x + y * y + z * z = 1) /\
    (consistent p -> dot (fst (toVector3d p)) (fst (toVector3d p)) = 1).
Proof.
  intros p. split.
  - unfold LatLonHeightBase.to3xyz.
    destruct (LatLonHeightBase.to2ab p) as [[a b] p']. cbn [fst].
    pose proof (sin_cos_1 a) as Ha. pose proof (sin_cos_1 b) as Hb.
    replace (cos a * cos b * (cos a * cos b) + cos a * sin b * (cos a * sin b)
             + sin a * sin a)
      with (cos a * cos a * (sin b * sin b + cos b * cos b) + sin a * sin a)
      by ring.
    rewrite Hb. lra.
  - intros H. apply toVector3d_consistent in H. destruct H as [-> _].
    apply unit_vector_norm.
Qed.

(** X7.  The vector of [greatCircle] has length one and is at a right
    angle to the n-vector of the point, for every bearing. *)
Theorem greatCircle_is_unit_normal :
  forall (p : LatLon) (bearing : R),
    let g := greatCircle p bearing in
    let n := let '(x, y, z) := fst (LatLonHeightBase.to3xyz p) in
             mkVector3d x y z in
    dot g g = 1 /\ dot g n = 0.
Proof.
  intros p bearing. unfold greatCircle, ab, LatLonHeightBase.to3xyz.
  destruct (LatLonHeightBase.to2ab p) as [[a b] p']. cbn [fst].
  set (t := utils.radians bearing).
  pose proof (sin_cos_1 a) as Ha. pose proof (sin_cos_1 b) as Hb.
  pose proof (sin_cos_1 t) as Ht.
  unfold dot. cbn [vx vy vz]. split.
  - replace ((sin b * cos t - cos b * sin a * sin t)
               * (sin b * cos t - cos b * sin a * sin t)
             + (- cos b * cos t - sin b * sin a * sin t)
               * (- cos b * cos t - sin b * sin a * sin t)
             + cos a * sin t * (cos a * sin t))
      with ((sin b * sin b + cos b * cos b)
              * (cos t * cos t + sin a * sin a * (sin t * sin t))
            + cos a * cos a * (sin t * sin t)) by ring.
    rewrite Hb, Rmult_1_l.
    replace (cos t * cos t + sin a * sin a * (sin t * sin t)
             + cos a * cos a * (sin t * sin t))
      with (cos t * cos t + (sin a * sin a + cos a * cos a) * (sin t * sin t))
      by ring.
    rewrite Ha. lra.
  - replace ((sin b * cos t - cos b * sin a * sin t) * (cos a * cos b)
             + (- cos b * cos t - sin b * sin a * sin t) * (cos a * sin b)
             + cos a * sin t * sin a)
      with (cos a * sin a * sin t * (1 - (sin b * sin b + cos b * cos b)))
      by ring.
    rewrite Hb. ring.
Qed.
End Vectors.

Lemma nvector_is_unit_witness :
  dot (fst (sphericalTrigonometry.toVector3d (U:=ideal)
              (LatLonHeightBase.__init__ 52.205 0.119 0)))
      (fst (sphericalTrigonometry.toVector3d (U:=ideal)
              (LatLonHeightBase.__init__ 52.205 0.119 0))) = 1.
Proof.
  apply (nvector_is_unit (U:=ideal)). apply init_consistent.
Defined.

(** ** Distances and bearings *)

Section MoreDistances.
Context {U : utils.Utils}.
Import sphericalTrigonometry.

Lemma _haversine3_zero (a2 a1 b21 : R) :
  haversine a2 a1 b21 = 0 ->
  _haversine3 a2 a1 b21 = Ok (0, cos a2, cos a1).
Proof.
  intros Hh. rewrite _haversine3_inside by (rewrite Hh; lra).
  rewrite Hh. replace (1 - 0) with 1 by ring.
  rewrite sqrt_0, sqrt_1, atan2_0_1. now rewrite Rmult_0_l.
Qed.

Lemma haversine_same (a b : R) :
  utils.hsin 0 = 0 -> haversine a a (b - b) = 0.
Proof.
  intros H0. unfold haversine.
  replace (a - a) with 0 by ring. replace (b - b) with 0 by ring.
  rewrite H0. ring.
Qed.

(** X8.  [distanceTo] between two points with the same radians pair, and
    so from a point to itself, is zero for every radius (for a haversine
    helper that is zero at zero). *)
Theorem distanceTo_same_point :
  utils.hsin 0 = 0 ->
  forall (p q : LatLon) (radius : R),
    (ab p = ab q -> distanceTo p q radius = Ok 0) /\
    distanceTo p p radius = Ok 0.
Proof.
  intros H0 p q radius.
  assert (Same : forall a b : LatLon, ab a = ab b ->
            distanceTo a b radius = Ok 0).
  { intros a b E. unfold distanceTo. rewrite E.
    destruct (ab b) as [a2 b2].
    rewrite _haversine3_zero by now apply haversine_same.
    cbn [bind]. now rewrite Rmult_0_l. }
  split; [apply Same | now apply Same].
Qed.

(** X9.  With the exact haversine, [distanceTo] returns the radius times
    the central angle of the spherical law of cosines, so that for a
    radius that is not negative the distance lies between 0 and pi times
    the radius. *)
Theorem distanceTo_central_angle :
  (forall x, utils.hsin x = (sin (x / 2)) ^ 2) ->
  forall (p q : LatLon) (radius : R),
    distanceTo p q radius = Ok (acos (central_cos p q) * radius) /\
    (0 <= radius ->
       0 <= acos (central_cos p q) * radius <= PI * radius).
Proof.
  intros Hexact p q radius.
  unfold distanceTo, central_cos.
  destruct (ab p) as [a1 b1], (ab q) as [a2 b2].
  pose proof (haversine_range Hexact a2 a1 (b2 - b1)) as Hh.
  destruct (_haversine3_exact Hexact a2 a1 (b2 - b1)) as (r & Hr & Hc).
  pose proof Hr as Hr'. rewrite _haversine3_inside in Hr' by exact Hh.
  injection Hr' as Er.
  assert (Range : 0 <= r <= PI).
  { rewrite <- Er.
    pose proof (atan2_first_quadrant
                  (sqrt (haversine a2 a1 (b2 - b1)))
                  (sqrt (1 - haversine a2 a1 (b2 - b1)))
                  (sqrt_pos _) (sqrt_pos _)).
    lra. }
  assert (Ea : acos (sin a1 * sin a2 + cos a1 * cos a2 * cos (b2 - b1)) = r).
  { rewrite <- Hc. now apply acos_cos. }
  rewrite Hr. cbn [bind]. rewrite Ea. split; [reflexivity|].
  intros Hrad. split; nra.
Qed.
End MoreDistances.

Lemma ideal_hsin_0 : utils.hsin (Utils:=ideal) 0 = 0.
Proof.
  simpl. replace (0 / 2) with 0 by field. rewrite sin_0. ring.
Qed.

Lemma distanceTo_same_point_witness :
  sphericalTrigonometry.distanceTo (U:=ideal)
    (LatLonHeightBase.__init__ 52.205 0.119 0)
    (LatLonHeightBase.__init__ 52.205 0.119 0) 6371008.77141 = Ok 0.
Proof.
  apply (proj1 (distanceTo_same_point (U:=ideal) ideal_hsin_0
                  (LatLonHeightBase.__init__ 52.205 0.119 0)
                  (LatLonHeightBase.__init__ 52.205 0.119 0) 6371008.77141)).
  reflexivity.
Defined.

Lemma distanceTo_central_angle_witness :
  0 <= acos (central_cos (U:=ideal)
               (LatLonHeightBase.__init__ 52.205 0.119 0)
               (LatLonHeightBase.__init__ 48.857 2.351 0)) * 6371008.77141
    <= PI * 6371008.77141.
Proof.
  apply (proj2 (distanceTo_central_angle (U:=ideal) ideal_hsin_exact
                  (LatLonHeightBase.__init__ 52.205 0.119 0)
                  (LatLonHeightBase.__init__ 48.857 2.351 0) 6371008.77141)).
  lra.
Defined.

Lemma atan2_0_pos (x : R) : 0 < x -> atan2 0 x = 0.
Proof.
  intros Hx. unfold atan2.
  replace (ltb 0 x) with true by (symmetry; now apply ltb_true).
  replace (0 / x) with 0 by (field; lra). apply atan_0.
Qed.



Section Bearings.
Context {U : utils.Utils}.
Variable degrees360 : R -> R.
Import sphericalTrigonometry.


(** X11.  [crossTrackDistanceTo] raises [ZeroDivisionError] for the
    radius 0 and nothing else: for any other radius it returns a distance
    of at most a quarter circle of that radius, and 0 for the end point of
    the path itself. *)
Theorem crossTrackDistanceTo_outcomes :
  forall (p start end_ : LatLon) (radius : R),
    (radius = 0 ->
       crossTrackDistanceTo degrees360 p start end_ radius
         = Raise ZeroDivisionError) /\
    (radius <> 0 ->
       exists d,
         crossTrackDistanceTo degrees360 p start end_ radius = Ok d /\
         Rabs d <= PI / 2 * Rabs radius) /\
    (radius <> 0 ->
       crossTrackDistanceTo degrees360 end_ start end_ radius = Ok 0).
Proof.
  intros p start end_ radius.
  assert (In1 : forall r x, -1 <= sin r * sin x <= 1).
  { intros r x. pose proof (SIN_bound r). pose proof (SIN_bound x).
    split; nra. }
  split; [|split].
  - intros ->. unfold crossTrackDistanceTo.
    destruct (distanceTo_returns start p 0) as [d ->]. cbn [bind].
    unfold div. now rewrite eqb_refl.
  - intros Hr. unfold crossTrackDistanceTo.
    destruct (distanceTo_returns start p radius) as [d ->]. cbn [bind].
    rewrite div_nonzero by exact Hr. cbn [bind].
    rewrite py_asin_inside by apply In1. cbn [bind].
    eexists. split; [reflexivity|].
    rewrite Rabs_mult. apply Rmult_le_compat_r; [apply Rabs_pos|].
    apply Rabs_le. pose proof (asin_bound (sin (d / radius) *
      sin (utils.radians (bearingTo degrees360 start p)
           - utils.radians (bearingTo degrees360 start end_)))). lra.
  - intros Hr. unfold crossTrackDistanceTo.
    destruct (distanceTo_returns start end_ radius) as [d ->]. cbn [bind].
    rewrite div_nonzero by exact Hr. cbn [bind].
    replace (utils.radians (bearingTo degrees360 start end_)
             - utils.radians (bearingTo degrees360 start end_)) with 0
      by ring.
    rewrite sin_0, Rmult_0_r.
    rewrite py_asin_inside by lra. cbn [bind].
    now rewrite asin_0, Rmult_0_l.
Qed.
End Bearings.


Lemma crossTrackDistanceTo_outcomes_witness :
  sphericalTrigonometry.crossTrackDistanceTo (U:=ideal) to_degrees360
    (LatLonHeightBase.__init__ 53.2611 (-0.7972) 0)
    (LatLonHeightBase.__init__ 53.3206 (-1.7297) 0)
    (LatLonHeightBase.__init__ 53.1887 0.1334 0) 0
    = Raise ZeroDivisionError /\
  sphericalTrigonometry.crossTrackDistanceTo (U:=ideal) to_degrees360
    (LatLonHeightBase.__init__ 53.1887 0.1334 0)
    (LatLonHeightBase.__init__ 53.3206 (-1.7297) 0)
    (LatLonHeightBase.__init__ 53.1887 0.1334 0) 6371008.77141
    = Ok 0.
Proof.
  split.
  - apply (proj1 (crossTrackDistanceTo_outcomes (U:=ideal) to_degrees360
                    (LatLonHeightBase.__init__ 53.2611 (-0.7972) 0)
                    (LatLonHeightBase.__init__ 53.3206 (-1.7297) 0)
                    (LatLonHeightBase.__init__ 53.1887 0.1334 0) 0)).
    reflexivity.
  - apply (proj2 (proj2 (crossTrackDistanceTo_outcomes (U:=ideal) to_degrees360
                    (LatLonHeightBase.__init__ 53.2611 (-0.7972) 0)
                    (LatLonHeightBase.__init__ 53.3206 (-1.7297) 0)
                    (LatLonHeightBase.__init__ 53.1887 0.1334 0)
                    6371008.77141))).
    lra.
Defined.

(** ** Destinations and midpoints *)

Section Destinations.
Context {U : utils.Utils}.
Import sphericalTrigonometry.

Lemma _destination2_value (a b r t h : R) :
  _destination2 a b r t h =
    Ok (LatLonHeightBase.__init__
          (utils.degrees90 (asin (cos t * sin r * cos a + cos r * sin a)))
          (utils.degrees180
             (b + atan2 (sin t * sin r * cos a)
                        (cos r - sin a
                           * sin (asin (cos t * sin r * cos a
                                        + cos r * sin a)))))
          h).
Proof.
  unfold _destination2. rewrite py_asin_inside; [reflexivity|].
  apply (destination_arg_bound (cos t) (sin t) (sin r) (cos r)
           (sin a) (cos a)).
  - pose proof (sin_cos_1 t). lra.
  - apply sin_cos_1.
  - apply sin_cos_1.
Qed.


(** X14.  [midpointTo] gives the same latitude from [p] to [q] as from
    [q] to [p], and the same height when the average helper [favg] at one
    half does not depend on the order of the heights. *)
Theorem midpointTo_symmetric :
  forall p q : LatLon,
    _lat (midpointTo p q) = _lat (midpointTo q p) /\
    ((forall h1 h2, utils.favg h1 h2 (1 / 2) = utils.favg h2 h1 (1 / 2)) ->
       _height (midpointTo p q) = _height (midpointTo q p)).
Proof.
  intros p q. unfold midpointTo, LatLonHeightBase._alter.
  destruct (ab p) as [a1 b1], (ab q) as [a2 b2].
  cbn [LatLonHeightBase.__init__ _lat _height]. split.
  - f_equal. f_equal; [ring|]. unfold hypot. f_equal.
    replace (b1 - b2) with (- (b2 - b1)) by ring.
    rewrite cos_neg, sin_neg.
    pose proof (sin_cos_1 (b2 - b1)) as S.
    replace ((cos a2 * cos (b2 - b1) + cos a1)
               * (cos a2 * cos (b2 - b1) + cos a1)
             + cos a2 * sin (b2 - b1) * (cos a2 * sin (b2 - b1)))
      with (cos a2 * cos a2
              * (sin (b2 - b1) * sin (b2 - b1)
                 + cos (b2 - b1) * cos (b2 - b1))
            + 2 * cos a1 * cos a2 * cos (b2 - b1) + cos a1 * cos a1)
      by ring.
    replace ((cos a1 * cos (b2 - b1) + cos a2)
               * (cos a1 * cos (b2 - b1) + cos a2)
             + cos a1 * - sin (b2 - b1) * (cos a1 * - sin (b2 - b1)))
      with (cos a1 * cos a1
              * (sin (b2 - b1) * sin (b2 - b1)
                 + cos (b2 - b1) * cos (b2 - b1))
            + 2 * cos a1 * cos a2 * cos (b2 - b1) + cos a2 * cos a2)
      by ring.
    rewrite S. ring.
  - intros Hsym. apply Hsym.
Qed.

End Destinations.


Lemma midpointTo_symmetric_witness :
  _height (sphericalTrigonometry.midpointTo (U:=ideal)
             (LatLonHeightBase.__init__ 52.205 0.119 10)
             (LatLonHeightBase.__init__ 48.857 2.351 20))
  = _height (sphericalTrigonometry.midpointTo (U:=ideal)
               (LatLonHeightBase.__init__ 48.857 2.351 20)
               (LatLonHeightBase.__init__ 52.205 0.119 10)).
Proof.
  apply (proj2 (midpointTo_symmetric (U:=ideal)
                  (LatLonHeightBase.__init__ 52.205 0.119 10)
                  (LatLonHeightBase.__init__ 48.857 2.351 20))).
  intros h1 h2. simpl. lra.
Defined.


(** ** Outcomes of [crossingParallels], [intermediateTo] and
    [intersection] *)

Lemma hypot_0_iff (x y : R) : hypot x y = 0 <-> x = 0 /\ y = 0.
Proof.
  unfold hypot. split.
  - intros H. apply sqrt_eq_0 in H; [|nra]. split; nra.
  - intros [-> ->]. replace (0 * 0 + 0 * 0) with 0 by ring. apply sqrt_0.
Qed.

Lemma hypot_nonneg (x y : R) : 0 <= hypot x y.
Proof. unfold hypot. apply sqrt_pos. Qed.

Section Outcomes.
Context {U : utils.Utils}.
Import sphericalTrigonometry.

(** X16.  [crossingParallels] returns [None] exactly when [abs(z)]
    exceeds [hypot(x, y)]; it raises [ZeroDivisionError] exactly when [x],
    [y] and [z] are all zero and raises nothing else; a pair that it
    returns is [degrees180(m - d)], [degrees180(m + d)] for an angle [d]
    between 0 and pi. *)
Theorem crossingParallels_outcomes :
  forall (p q : LatLon) (lat : R),
    let '(x, y, z) := crossing_xyz p q lat in
    (crossingParallels p q lat = Ok None <-> hypot x y < Rabs z) /\
    (crossingParallels p q lat = Raise ZeroDivisionError
       <-> x = 0 /\ y = 0 /\ z = 0) /\
    (forall e, crossingParallels p q lat = Raise e -> e = ZeroDivisionError) /\
    (forall l1 l2,
       crossingParallels p q lat = Ok (Some (l1, l2)) ->
       exists m d, 0 <= d <= PI /\
         l1 = utils.degrees180 (m - d) /\ l2 = utils.degrees180 (m + d)).
Proof.
  intros p q lat. unfold crossing_xyz, crossingParallels.
  destruct (ab p) as [a1 b1], (ab q) as [a2 b2].
  set (x := sin a1 * cos a2 * cos (utils.radians lat) * sin (b2 - b1)).
  set (y := sin a1 * cos a2 * cos (utils.radians lat) * cos (b2 - b1)
            - cos a1 * sin a2 * cos (utils.radians lat)).
  set (z := cos a1 * cos a2 * sin (utils.radians lat) * sin (b2 - b1)).
  pose proof (hypot_nonneg x y) as Hh.
  pose proof (hypot_0_iff x y) as Hz.
  unfold gtb.
  destruct (Rlt_dec (hypot x y) (Rabs z)) as [Far | Near].
  - replace (ltb (hypot x y) (Rabs z)) with true
      by (symmetry; now apply ltb_true).
    split; [tauto|]. split; [|split].
    + split; [discriminate|]. intros (Hx & Hy & Hz0).
      subst z. rewrite Hz0, Rabs_R0 in Far. lra.
    + discriminate.
    + discriminate.
  - replace (ltb (hypot x y) (Rabs z)) with false
      by (symmetry; apply ltb_false; lra).
    destruct (Req_dec_T (hypot x y) 0) as [Zero | NonZero].
    + unfold div. rewrite Zero, eqb_refl. cbn [bind].
      split; [split; [discriminate | lra]|]. split; [|split].
      * split; [|reflexivity]. intros _.
        apply Hz in Zero. destruct Zero as [Hx Hy].
        split; [exact Hx|]. split; [exact Hy|].
        pose proof (Rabs_pos z) as Hp.
        destruct (Req_dec_T z 0) as [Ez | Nz]; [exact Ez|].
        apply Rabs_no_R0 in Nz. lra.
      * now intros e [= <-].
      * discriminate.
    + rewrite div_nonzero by exact NonZero. cbn [bind].
      assert (In1 : -1 <= z / hypot x y <= 1).
      { apply ratio_bound; [exact NonZero|].
        pose proof (Rabs_pos z) as Hp.
        assert (Hsq : Rabs z * Rabs z <= hypot x y * hypot x y) by nra.
        rewrite <- (Rabs_mult z z), (Rabs_pos_eq (z * z)) in Hsq by nra.
        exact Hsq. }
      rewrite py_acos_inside by exact In1. cbn [bind].
      split; [split; [discriminate | lra]|]. split; [|split].
      * split; [discriminate|]. intros (Hx & Hy & _).
        exfalso. apply NonZero, Hz. now split.
      * discriminate.
      * intros l1 l2 [= <- <-]. eexists. eexists.
        split; [apply acos_bound|]. split; reflexivity.
Qed.


End Outcomes.


(** ** Enclosure by a polygon *)

Lemma cyclic_pairs_last {A : Type} (l : list A) (d : A) :
  l <> [] -> cyclic_pairs l = combine (last l d :: removelast l) l.
Proof.
  intros N. unfold cyclic_pairs.
  destruct (rev l) as [|x r] eqn:R.
  - apply (f_equal (@rev A)) in R. rewrite rev_involutive in R.
    simpl in R. congruence.
  - assert (L : x = last l d).
    { rewrite <- (rev_involutive l), R. cbn [rev]. now rewrite last_last. }
    now rewrite L.
Qed.

Section Enclosed.
Context {U : utils.Utils}.
Variable cross : Vector3d -> Vector3d -> Vector3d.
Variable angleTo : Vector3d -> Vector3d -> option Vector3d -> R.
Import sphericalTrigonometry.

Lemma great_circles_edges (prev : LatLon) (pts : list LatLon) :
  great_circles cross (vector prev) pts
    = map (fun e => cross (vector (fst e)) (vector (snd e)))
          (combine (prev :: removelast pts) pts).
Proof.
  revert prev. induction pts as [|p rest IH]; intros prev; [reflexivity|].
  specialize (IH p). destruct rest as [|q rest'].
  - reflexivity.
  - change (removelast (p :: q :: rest'))
      with (p :: removelast (q :: rest')).
    change (combine (prev :: p :: removelast (q :: rest')) (p :: q :: rest'))
      with ((prev, p) :: combine (p :: removelast (q :: rest')) (q :: rest')).
    cbn [map]. rewrite <- IH. reflexivity.
Qed.

Lemma same_sides_forallb (t0 : bool) (v : Vector3d) (gc : list Vector3d) :
  same_sides angleTo t0 v gc
    = forallb (fun g => Bool.eqb (gtb (angleTo g v None) (utils.PI / 2)) t0)
              gc.
Proof.
  induction gc as [|g rest IH]; [reflexivity|].
  cbn [same_sides forallb]. rewrite IH.
  now destruct (Bool.eqb (gtb (angleTo g v None) (utils.PI / 2)) t0).
Qed.

Lemma convex_forallb (v gc1 : Vector3d) (gc : list Vector3d) :
  convex angleTo v gc1 gc
    = forallb (fun pr => negb (ltb (angleTo (fst pr) (snd pr) (Some v)) 0))
              (combine (gc1 :: removelast gc) gc).
Proof.
  revert gc1. induction gc as [|g2 rest IH]; intros gc1; [reflexivity|].
  specialize (IH g2). destruct rest as [|g3 rest'].
  - cbn. now destruct (ltb (angleTo gc1 g2 (Some v)) 0).
  - change (removelast (g2 :: g3 :: rest'))
      with (g2 :: removelast (g3 :: rest')).
    change (combine (gc1 :: g2 :: removelast (g3 :: rest')) (g2 :: g3 :: rest'))
      with ((gc1, g2)
              :: combine (g2 :: removelast (g3 :: rest')) (g3 :: rest')).
    cbn [forallb]. rewrite <- IH. cbn [fst snd].
    change (convex angleTo v gc1 (g2 :: g3 :: rest'))
      with (if ltb (angleTo gc1 g2 (Some v)) 0 then false
            else convex angleTo v g2 (g3 :: rest')).
    now destruct (ltb (angleTo gc1 g2 (Some v)) 0).
Qed.

Lemma isEnclosedBy_unfold (self : LatLon) (pts : list LatLon) :
  (3 <= List.length (unclosed pts))%nat ->
  exists g0 rest,
    edge_normals cross (unclosed pts) = g0 :: rest /\
    isEnclosedBy cross angleTo self pts =
      if negb (forallb
                 (fun g => Bool.eqb
                    (gtb (angleTo g (vector self) None) (utils.PI / 2))
                    (gtb (angleTo g0 (vector self) None) (utils.PI / 2)))
                 rest)
      then Returns false
      else if forallb
                (fun pr => negb (ltb (angleTo (fst pr) (snd pr)
                                        (Some (vector self))) 0))
                (cyclic_pairs (g0 :: rest))
      then Returns true
      else RaisesNonConvex.
Proof.
  intros Hn. unfold isEnclosedBy, edge_normals, edges.
  pose proof (points_unfold pts true) as E. cbv zeta in E. rewrite E.
  pose proof Hn as Hn'. apply Nat.ltb_ge in Hn'. rewrite Hn'.
  destruct (rev (unclosed pts)) as [|plast r] eqn:R.
  - apply (f_equal (@List.length _)) in R. rewrite length_rev in R.
    simpl in R. lia.
  - rewrite great_circles_edges.
    destruct (unclosed pts) as [|p0 ps] eqn:P; [simpl in Hn; lia|].
    cbn [combine map].
    eexists. eexists. split; [reflexivity|].
    rewrite same_sides_forallb, convex_forallb.
    rewrite (cyclic_pairs_last _ (cross (vector (fst (plast, p0)))
                                        (vector (snd (plast, p0)))))
      by discriminate.
    reflexivity.
Qed.

(** X19.  [isEnclosedBy]: with fewer than three points left once a
    closing duplicate is removed it raises the [ValueError] of [points].
    Otherwise, when the point is on different sides of two edges it
    returns [False], whatever the angles between the edges; when it is on
    the same side of all edges it returns [True] if no signed angle
    between consecutive edges is negative and raises [ValueError]
    'non-convex' if one is. *)
Theorem isEnclosedBy_outcomes :
  forall (self : LatLon) (pts : list LatLon),
    let polygon := unclosed pts in
    let normals := edge_normals cross polygon in
    let v := vector self in
    let right g := gtb (angleTo g v None) (utils.PI / 2) in
    let same_side := forall g1 g2, In g1 normals -> In g2 normals ->
                                   right g1 = right g2 in
    let convex_at := forall pr, In pr (cyclic_pairs normals) ->
                                0 <= angleTo (fst pr) (snd pr) (Some v) in
    ((List.length polygon < 3)%nat ->
       isEnclosedBy cross angleTo self pts
         = Raises (ValueError (TooFewPoints (List.length polygon)))) /\
    ((3 <= List.length polygon)%nat ->
       (~ same_side -> isEnclosedBy cross angleTo self pts = Returns false) /\
       (same_side -> convex_at ->
          isEnclosedBy cross angleTo self pts = Returns true) /\
       (same_side -> ~ convex_at ->
          isEnclosedBy cross angleTo self pts = RaisesNonConvex)).
Proof.
  intros self pts polygon normals v right same_side convex_at. split.
  - intros Hn. unfold isEnclosedBy.
    pose proof (points_unfold pts true) as E. cbv zeta in E. rewrite E.
    fold polygon. apply Nat.ltb_lt in Hn. now rewrite Hn.
  - intros Hn.
    destruct (isEnclosedBy_unfold self pts Hn) as (g0 & rest & En & ->).
    fold polygon in En. fold normals in En. fold v.
    set (sides := forallb (fun g => Bool.eqb (gtb (angleTo g v None)
                                                  (utils.PI / 2))
                                             (gtb (angleTo g0 v None)
                                                  (utils.PI / 2))) rest).
    set (angles := forallb (fun pr => negb (ltb (angleTo (fst pr) (snd pr)
                                                  (Some v)) 0))
                           (cyclic_pairs (g0 :: rest))).
    assert (Sides : sides = true <-> same_side).
    { unfold sides, same_side. rewrite forallb_forall, En. split.
      - intros H g1 g2 I1 I2.
        assert (A : forall g, In g (g0 :: rest) -> right g = right g0).
        { intros g [<- | I]; [reflexivity|].
          apply H in I. now apply eqb_prop in I. }
        now rewrite (A g1 I1), (A g2 I2).
      - intros H g I. apply eqb_true_iff.
        apply H; [now right | now left]. }
    assert (Angles : angles = true <-> convex_at).
    { unfold angles, convex_at. rewrite forallb_forall, En. split.
      - intros H pr I. apply H in I. apply negb_true_iff in I.
        now apply ltb_false in I.
      - intros H pr I. apply negb_true_iff, ltb_false. now apply H. }
    split; [|split].
    + intros NS. destruct sides; [|reflexivity].
      exfalso. apply NS. now apply Sides.
    + intros S A. apply Sides in S. apply Angles in A.
      now rewrite S, A.
    + intros S NA. apply Sides in S. rewrite S. cbn [negb].
      destruct angles; [|reflexivity].
      exfalso. apply NA. now apply Angles.
Qed.
End Enclosed.

Lemma equals_is_equivalence_witness :
  LatLonHeightBase.equals
    (LatLonHeightBase.__init__ 52.205 0.119 0)
    (LatLonHeightBase.__init__ 52.205 0.119 30) = true.
Proof.
  destruct (equals_is_equivalence
              (LatLonHeightBase.__init__ 52.205 0.119 0)
              (LatLonHeightBase.__init__ 52.205 0.119 10)
              (LatLonHeightBase.__init__ 52.205 0.119 30))
    as (Hiff & _ & _ & Htrans & _).
  apply Htrans.
  - apply Hiff. split; reflexivity.
  - unfold LatLonHeightBase.equals. simpl. now rewrite !eqb_refl.
Defined.

Lemma crossingParallels_outcomes_witness :
  sphericalTrigonometry.crossingParallels (U:=ideal)
    (LatLonHeightBase.__init__ 48.857 2.351 0)
    (LatLonHeightBase.__init__ 48.857 2.351 0) 10
    = Raise ZeroDivisionError.
Proof.
  pose proof (crossingParallels_outcomes (U:=ideal)
                (LatLonHeightBase.__init__ 48.857 2.351 0)
                (LatLonHeightBase.__init__ 48.857 2.351 0) 10) as H.
  unfold crossing_xyz in H.
  cbn [sphericalTrigonometry.ab LatLonHeightBase.to2ab
       LatLonHeightBase.__init__ _ab _lat _lon fst snd] in H.
  destruct H as (_ & Hzero & _).
  apply Hzero.
  replace (utils.radians 2.351 - utils.radians 2.351) with 0 by ring.
  rewrite sin_0, cos_0. repeat split; ring.
Defined.

(** ** There and back: the distance to a destination *)

Lemma hypot_cos_atan2 (x y : R) : hypot x y * cos (atan2 y x) = x.
Proof.
  unfold hypot, atan2.
  assert (Scale : x <> 0 ->
            sqrt (x * x + y * y) = Rabs x * sqrt (1 + (y / x)²)).
  { intros Hx. rewrite <- sqrt_Rsqr_abs, <- sqrt_mult.
    - f_equal. unfold Rsqr. field. exact Hx.
    - apply Rle_0_sqr.
    - pose proof (Rle_0_sqr (y / x)). lra. }
  assert (Pos : 0 < sqrt (1 + (y / x)²)).
  { apply sqrt_lt_R0. pose proof (Rle_0_sqr (y / x)). lra. }
  destruct (Rlt_dec 0 x) as [Px | Nx].
  - replace (ltb 0 x) with true by (symmetry; now apply ltb_true).
    rewrite Scale by lra. rewrite cos_atan, Rabs_pos_eq by lra.
    field. lra.
  - replace (ltb 0 x) with false by (symmetry; apply ltb_false; lra).
    destruct (Rlt_dec x 0) as [Lx | Zx].
    + replace (ltb x 0) with true by (symmetry; now apply ltb_true).
      rewrite Scale by lra. rewrite Rabs_left by lra.
      destruct (ltb y 0).
      * rewrite cos_minus, cos_PI, sin_PI, cos_atan. field. lra.
      * rewrite cos_plus, cos_PI, sin_PI, cos_atan. field. lra.
    + replace (ltb x 0) with false by (symmetry; apply ltb_false; lra).
      assert (x = 0) by lra. subst x.
      destruct (Rlt_dec 0 y) as [Py | Ny].
      * replace (ltb 0 y) with true by (symmetry; now apply ltb_true).
        rewrite cos_PI2. ring.
      * replace (ltb 0 y) with false by (symmetry; apply ltb_false; lra).
        destruct (Rlt_dec y 0) as [Ly | Zy].
        -- replace (ltb y 0) with true by (symmetry; now apply ltb_true).
           rewrite cos_neg, cos_PI2. ring.
        -- replace (ltb y 0) with false by (symmetry; apply ltb_false; lra).
           assert (y = 0) by lra. subst y.
           replace (0 * 0 + 0 * 0) with 0 by ring. rewrite sqrt_0. ring.
Qed.

Section RoundTrip.
Context {U : utils.Utils}.
Import sphericalTrigonometry.

Hypothesis hsin_exact : forall x, utils.hsin x = (sin (x / 2)) ^ 2.

Lemma _haversine3_acos (a2 a1 b21 : R) :
  _haversine3 a2 a1 b21
    = Ok (acos (sin a1 * sin a2 + cos a1 * cos a2 * cos b21),
          cos a2, cos a1).
Proof.
  pose proof (haversine_range hsin_exact a2 a1 b21) as Hh.
  destruct (_haversine3_exact hsin_exact a2 a1 b21) as (r & Hr & Hc).
  pose proof Hr as Hr'. rewrite _haversine3_inside in Hr' by exact Hh.
  injection Hr' as Er.
  assert (Range : 0 <= r <= PI).
  { rewrite <- Er.
    pose proof (atan2_first_quadrant
                  (sqrt (haversine a2 a1 b21))
                  (sqrt (1 - haversine a2 a1 b21))
                  (sqrt_pos _) (sqrt_pos _)).
    lra. }
  rewrite Hr, <- Hc. now rewrite acos_cos.
Qed.

(** The law of cosines between a start point at [a] and the point that
    [_destination2] computes at the angular distance [r]. *)
Lemma destination_central_cos (a r t : R) :
  0 <= cos a ->
  let S := cos t * sin r * cos a + cos r * sin a in
  sin a * sin (asin S)
    + cos a * cos (asin S)
      * cos (atan2 (sin t * sin r * cos a) (cos r - sin a * sin (asin S)))
  = cos r.
Proof.
  intros Hca S.
  assert (HS : -1 <= S <= 1).
  { apply (destination_arg_bound (cos t) (sin t) (sin r) (cos r)
             (sin a) (cos a)).
    - pose proof (sin_cos_1 t). lra.
    - apply sin_cos_1.
    - apply sin_cos_1. }
  rewrite sin_asin by exact HS. rewrite cos_asin by exact HS.
  set (X := cos r - sin a * S). set (Y := sin t * sin r * cos a).
  set (Z := cos r * cos a - sin a * cos t * sin r).
  pose proof (sin_cos_1 a) as Ha. pose proof (sin_cos_1 r) as Hr.
  pose proof (sin_cos_1 t) as Ht.
  assert (E1 : X = cos a * Z).
  { transitivity (cos r * (sin a * sin a + cos a * cos a) - sin a * S).
    - rewrite Ha. unfold X. ring.
    - unfold S, Z. ring. }
  assert (Q : S * S + Z * Z + sin t * sin t * (sin r * sin r) = 1).
  { replace (S * S + Z * Z + sin t * sin t * (sin r * sin r))
      with ((sin a * sin a + cos a * cos a)
            * (cos t * cos t * (sin r * sin r) + cos r * cos r)
            + sin t * sin t * (sin r * sin r)) by (unfold S, Z; ring).
    rewrite Ha, Rmult_1_l.
    replace (cos t * cos t * (sin r * sin r) + cos r * cos r
             + sin t * sin t * (sin r * sin r))
      with ((sin t * sin t + cos t * cos t) * (sin r * sin r)
            + cos r * cos r) by ring.
    rewrite Ht. lra. }
  assert (E2 : X * X + Y * Y = cos a * cos a * (1 - S²)).
  { replace (X * X + Y * Y)
      with (cos a * cos a * (Z * Z + sin t * sin t * (sin r * sin r)))
      by (rewrite E1; unfold Y; ring).
    f_equal. unfold Rsqr. lra. }
  assert (E3 : hypot X Y = cos a * sqrt (1 - S²)).
  { unfold hypot. rewrite E2, sqrt_mult.
    - now rewrite sqrt_square.
    - apply Rle_0_sqr.
    - unfold Rsqr. nra. }
  rewrite <- E3, hypot_cos_atan2. unfold X. ring.
Qed.

(** X20.  There and back: with the exact haversine, from a start point
    whose latitude has a cosine that is not negative, the point that
    [destination] returns at an angular distance between 0 and pi lies at
    that distance from the start point by [distanceTo], for every
    bearing, provided the degrees of the point returned convert back to
    the radians that [destination] computed. *)
Theorem distanceTo_destination :
  forall (p q : LatLon) (distance bearing radius : R),
    radius <> 0 ->
    0 <= distance / radius <= PI ->
    0 <= cos (fst (ab p)) ->
    destination p distance bearing radius = Ok q ->
    utils.radians (_lat q)
      = fst (destination_radians p distance bearing radius) ->
    utils.radians (_lon q)
      = snd (destination_radians p distance bearing radius) ->
    distanceTo p q radius = Ok distance.
Proof.
  intros p q distance bearing radius Hrad Hr Hca Hdest Hlat Hlon.
  unfold destination in Hdest. unfold destination_radians in Hlat, Hlon.
  unfold distanceTo.
  destruct (ab p) as [a b]. cbn [fst snd] in *.
  rewrite div_nonzero in Hdest by exact Hrad. cbn [bind] in Hdest.
  rewrite _destination2_value in Hdest. injection Hdest as <-.
  unfold ab at 1, LatLonHeightBase.to2ab.
  cbn [LatLonHeightBase.__init__ _ab _lat _lon fst snd] in *.
  rewrite Hlat, Hlon, _haversine3_acos. cbn [bind]. f_equal.
  replace (b + atan2 (sin (utils.radians bearing) * sin (distance / radius)
                      * cos a)
                 (cos (distance / radius)
                  - sin a * sin (asin (cos (utils.radians bearing)
                                       * sin (distance / radius) * cos a
                                       + cos (distance / radius) * sin a)))
           - b)
    with (atan2 (sin (utils.radians bearing) * sin (distance / radius)
                 * cos a)
            (cos (distance / radius)
             - sin a * sin (asin (cos (utils.radians bearing)
                                  * sin (distance / radius) * cos a
                                  + cos (distance / radius) * sin a))))
    by ring.
  rewrite (destination_central_cos a (distance / radius)
             (utils.radians bearing) Hca).
  rewrite acos_cos by exact Hr. field. exact Hrad.
Qed.
End RoundTrip.

Lemma distanceTo_destination_witness :
  exists q,
    sphericalTrigonometry.destination (U:=ideal)
      (LatLonHeightBase.__init__ 0 0 0) 6371 0 6371 = Ok q /\
    sphericalTrigonometry.distanceTo (U:=ideal)
      (LatLonHeightBase.__init__ 0 0 0) q 6371 = Ok 6371.
Proof.
  pose proof float_pi_lt_PI as HP. pose proof float_pi_pos as HP0.
  assert (HP3 : 3 < float_pi) by (unfold float_pi; lra).
  assert (Hdest :
    sphericalTrigonometry.destination (U:=ideal)
      (LatLonHeightBase.__init__ 0 0 0) 6371 0 6371
    = Ok (LatLonHeightBase.__init__
            (wrap 90 180 (to_degrees 1)) (wrap 180 360 (to_degrees 0)) 0)).
  { unfold sphericalTrigonometry.destination, sphericalTrigonometry.ab,
      LatLonHeightBase.to2ab.
    cbn [LatLonHeightBase.__init__ _ab _lat _lon _height utils.radians ideal
         fst snd].
    rewrite div_nonzero by lra. cbn [bind].
    rewrite _destination2_value.
    cbn [utils.degrees90 utils.degrees180 ideal].
    rewrite to_radians_0. replace (6371 / 6371) with 1 by field.
    rewrite sin_0, cos_0.
    replace (1 * sin 1 * 1 + cos 1 * 0) with (sin 1) by ring.
    rewrite asin_sin by lra.
    replace (0 * sin 1 * 1) with 0 by ring.
    replace (cos 1 - 0 * sin 1) with (cos 1) by ring.
    rewrite atan2_0_pos by (apply cos_gt_0; lra).
    now replace (0 + 0) with 0 by ring. }
  eexists. split; [exact Hdest|].
  apply (distanceTo_destination (U:=ideal) ideal_hsin_exact
           (LatLonHeightBase.__init__ 0 0 0) _ 6371 0 6371).
  - lra.
  - replace (6371 / 6371) with 1 by field. lra.
  - unfold sphericalTrigonometry.ab, LatLonHeightBase.to2ab.
    cbn [LatLonHeightBase.__init__ _ab _lat _lon fst snd utils.radians ideal].
    rewrite to_radians_0, cos_0. lra.
  - exact Hdest.
  - unfold destination_radians, sphericalTrigonometry.ab,
      LatLonHeightBase.to2ab.
    cbn [LatLonHeightBase.__init__ _ab _lat _lon fst snd utils.radians ideal].
    rewrite to_radians_0. replace (6371 / 6371) with 1 by field.
    rewrite sin_0, cos_0.
    replace (1 * sin 1 * 1 + cos 1 * 0) with (sin 1) by ring.
    rewrite asin_sin by lra.
    rewrite wrap_id; [apply to_radians_to_degrees | lra |].
    unfold to_degrees.
    assert (0 < 180 / float_pi < 60).
    { split; [apply Rdiv_lt_0_compat; lra|].
      apply Rmult_lt_reg_r with float_pi; [lra|].
      unfold Rdiv. rewrite Rmult_assoc, Rinv_l by lra. lra. }
    lra.
  - unfold destination_radians, sphericalTrigonometry.ab,
      LatLonHeightBase.to2ab.
    cbn [LatLonHeightBase.__init__ _ab _lat _lon fst snd utils.radians ideal].
    rewrite to_radians_0. replace (6371 / 6371) with 1 by field.
    rewrite sin_0, cos_0.
    replace (1 * sin 1 * 1 + cos 1 * 0) with (sin 1) by ring.
    replace (0 * sin 1 * 1) with 0 by ring.
    replace (cos 1 - 0 * sin (asin (sin 1)))
      with (cos 1) by ring.
    rewrite atan2_0_pos by (apply cos_gt_0; lra).
    replace (0 + 0) with 0 by ring.
    rewrite wrap_id; [apply to_radians_to_degrees | lra |].
    unfold to_degrees. lra.
Defined.

(** * Outcomes that rounding decides *)

Section Rounding.
Context {F : float.Float} {U : utils.Utils}.
Import sphericalTrigonometry.

Lemma rounded_py_acos_inside (x : R) :
  -1 <= x <= 1 -> rounded.py_acos x = Ok (float.acos x).
Proof.
  intros [H0 H1]. unfold rounded.py_acos.
  replace (ltb x (-1)) with false by (symmetry; apply ltb_false; lra).
  now replace (ltb 1 x) with false by (symmetry; apply ltb_false; lra).
Qed.

Lemma rounded_py_acos_outside (x : R) :
  ~ (-1 <= x <= 1) -> rounded.py_acos x = Raise (ValueError MathDomain).
Proof.
  intros H. unfold rounded.py_acos.
  destruct (Rlt_dec x (-1)) as [L | L].
  - now replace (ltb x (-1)) with true by (symmetry; now apply ltb_true).
  - replace (ltb 1 x) with true by (symmetry; apply ltb_true; lra).
    now rewrite orb_true_r.
Qed.

Lemma rounded_py_asin_inside (x : R) :
  -1 <= x <= 1 -> rounded.py_asin x = Ok (float.asin x).
Proof.
  intros [H0 H1]. unfold rounded.py_asin.
  replace (ltb x (-1)) with false by (symmetry; apply ltb_false; lra).
  now replace (ltb 1 x) with false by (symmetry; apply ltb_false; lra).
Qed.

Lemma rounded_py_asin_outside (x : R) :
  ~ (-1 <= x <= 1) -> rounded.py_asin x = Raise (ValueError MathDomain).
Proof.
  intros H. unfold rounded.py_asin.
  destruct (Rlt_dec x (-1)) as [L | L].
  - now replace (ltb x (-1)) with true by (symmetry; now apply ltb_true).
  - replace (ltb 1 x) with true by (symmetry; apply ltb_true; lra).
    now rewrite orb_true_r.
Qed.

Lemma rounded_div_nonzero (x y : R) :
  y <> 0 -> rounded.div x y = Ok (float.truediv x y).
Proof.
  intros H. unfold rounded.div.
  now replace (eqb y 0) with false by (symmetry; now apply eqb_false).
Qed.

(** The [try] and [except] of [_haversine3] leave no square root outside
    its domain: an angle is returned whatever the arithmetic. *)
Lemma rounded_haversine3_returns (a2 a1 b21 : R) :
  exists r,
    rounded._haversine3 a2 a1 b21 = Ok (r, float.cos a2, float.cos a1).
Proof.
  unfold rounded._haversine3, rounded.py_sqrt. cbv zeta.
  destruct (ltb _ 0); cbn [bind try_except_ValueError];
    [now eexists|].
  destruct (ltb _ 0); cbn [bind try_except_ValueError]; now eexists.
Qed.

Lemma rounded_destination2_outside (a b r t h : R) :
  ~ (-1 <= rounded.asin_argument a r t <= 1) ->
  rounded._destination2 a b r t h = Raise (ValueError MathDomain).
Proof.
  intros H. unfold rounded._destination2. cbv zeta.
  fold (rounded.asin_argument a r t).
  now rewrite rounded_py_asin_outside.
Qed.

Lemma rounded_destination2_inside (a b r t h : R) :
  -1 <= rounded.asin_argument a r t <= 1 ->
  exists q,
    rounded._destination2 a b r t h = Ok q /\
    _height q = h /\ _ab q = None /\ _v3d q = None.
Proof.
  intros H. unfold rounded._destination2. cbv zeta.
  fold (rounded.asin_argument a r t).
  rewrite rounded_py_asin_inside by exact H. cbn [bind].
  eexists. split; [reflexivity|]. now repeat split.
Qed.

Lemma rounded_destination2_cases (a b r t h : R) :
  rounded._destination2 a b r t h = Raise (ValueError MathDomain) \/
  exists q,
    rounded._destination2 a b r t h = Ok q /\
    _height q = h /\ _ab q = None /\ _v3d q = None.
Proof.
  destruct (Rle_dec (-1) (rounded.asin_argument a r t)) as [L | L];
    [destruct (Rle_dec (rounded.asin_argument a r t) 1) as [M | M]|].
  - right. apply rounded_destination2_inside. now split.
  - left. apply rounded_destination2_outside. lra.
  - left. apply rounded_destination2_outside. lra.
Qed.

(** ** The winding of a polygon *)



End Rounding.


(** ** Domain errors of [destination] and [intersection] *)

Section DomainErrors.
Context {F : float.Float} {U : utils.Utils}.
Import sphericalTrigonometry.

(** Past its two guards [intersection] divides by numbers that are not
    zero; it then raises 'math domain error' when one of its first two
    arguments of [acos] is outside [-1, 1], and has four outcomes in
    all. *)
Lemma rounded_intersection_past_guards
  (start1 : LatLon) (bearing1 : R) (start2 : LatLon) (bearing2 : R) (r12 : R) :
  0 < utils.EPS ->
  let a1 := fst (ab start1) in
  let b1 := snd (ab start1) in
  let a2 := fst (ab start2) in
  let b2 := snd (ab start2) in
  rounded._haversine3 a2 a1 (float.sub b2 b1)
    = Ok (r12, float.cos a2, float.cos a1) ->
  utils.EPS <= Rabs r12 ->
  utils.EPS <= Rabs (float.mul (float.sin r12) (float.cos a1)) ->
  utils.EPS <= Rabs (float.mul (float.sin r12) (float.cos a2)) ->
  (~ (-1 <= rounded.acos_argument a1 a2 r12 <= 1 /\
      -1 <= rounded.acos_argument a2 a1 r12 <= 1) ->
     rounded.intersection start1 bearing1 start2 bearing2
       = Raise (ValueError MathDomain)) /\
  (rounded.intersection start1 bearing1 start2 bearing2
     = Raise (ValueError MathDomain) \/
   rounded.intersection start1 bearing1 start2 bearing2
     = Raise (ValueError Infinite) \/
   rounded.intersection start1 bearing1 start2 bearing2
     = Raise (ValueError Ambiguous) \/
   exists p,
     rounded.intersection start1 bearing1 start2 bearing2 = Ok p /\
     _height p = utils.favg (_height start1) (_height start2) (1 / 2) /\
     _ab p = None /\ _v3d p = None).
Proof.
  intros Heps a1 b1 a2 b2 Hr G0 G1 G2.
  unfold rounded.intersection, rounded.acos_argument.
  subst a1 b1 a2 b2.
  destruct (ab start1) as [a1 b1], (ab start2) as [a2 b2].
  cbn [fst snd] in *. rewrite Hr. cbn [bind].
  replace (ltb (Rabs r12) utils.EPS) with false
    by (symmetry; now apply ltb_false).
  replace (ltb (Rmin (Rabs (float.mul (float.sin r12) (float.cos a1)))
                     (Rabs (float.mul (float.sin r12) (float.cos a2))))
               utils.EPS) with false.
  2:{ symmetry. apply ltb_false. unfold Rmin.
      now destruct (Rle_dec _ _). }
  assert (N1 : float.mul (float.sin r12) (float.cos a1) <> 0).
  { intros E. rewrite E, Rabs_R0 in G1. lra. }
  assert (N2 : float.mul (float.sin r12) (float.cos a2) <> 0).
  { intros E. rewrite E, Rabs_R0 in G2. lra. }
  rewrite !rounded_div_nonzero by assumption. cbn [bind].
  set (q1 := float.truediv _ (float.mul (float.sin r12) (float.cos a1))).
  set (q2 := float.truediv _ (float.mul (float.sin r12) (float.cos a2))).
  destruct (Rle_dec (-1) q1) as [L1 | L1];
    [destruct (Rle_dec q1 1) as [M1 | M1]|].
  2:{ rewrite rounded_py_acos_outside by lra.
      split; [reflexivity | now left]. }
  2:{ rewrite rounded_py_acos_outside by lra.
      split; [reflexivity | now left]. }
  rewrite rounded_py_acos_inside by lra. cbn [bind].
  destruct (Rle_dec (-1) q2) as [L2 | L2];
    [destruct (Rle_dec q2 1) as [M2 | M2]|].
  2:{ rewrite rounded_py_acos_outside by lra.
      split; [reflexivity | now left]. }
  2:{ rewrite rounded_py_acos_outside by lra.
      split; [reflexivity | now left]. }
  rewrite rounded_py_acos_inside by lra. cbn [bind].
  split; [intros H; exfalso; apply H; lra|].
  destruct (gtb (float.sin (float.sub b2 b1)) 0).
  all: destruct (eqb _ 0 && eqb _ 0); [right; now left|].
  all: destruct (ltb _ 0); [right; right; now left|].
  all: match goal with
       | |- context [rounded.py_acos ?x] =>
           destruct (Rle_dec (-1) x) as [L3 | L3];
             [destruct (Rle_dec x 1) as [M3 | M3]|]
       end.
  all: try (rewrite rounded_py_acos_outside by lra; now left).
  all: rewrite rounded_py_acos_inside by lra; cbn [bind].
  all: match goal with
       | |- context [rounded._destination2 ?a ?b ?r ?t ?h] =>
           destruct (rounded_destination2_cases a b r t h)
             as [E | (p & E & Hh & Hab & Hv)]; rewrite E
       end.
  all: try (now left).
  all: right; right; right; exists p; split; [reflexivity|];
       split; [exact Hh | now split].
Qed.

(** C3.  [intersection] raises [ValueError] 'parallel' exactly when the
    angular separation [r12] of the start points is within machine
    epsilon of 0 or one of [sin(r12) * cos(lat)] is.  Start points that
    pass these guards do not always lead to 'infinite', 'ambiguous' or a
    point: when a quotient that [intersection] hands to [acos], as the
    floating-point arithmetic returns it, is outside [-1, 1], the
    untagged [ValueError] 'math domain error' is raised instead, for
    every pair of bearings. *)
Theorem intersection_domain_error :
  0 < utils.EPS ->
  forall (start1 : LatLon) (bearing1 : R) (start2 : LatLon) (bearing2 : R),
    let a1 := fst (ab start1) in
    let b1 := snd (ab start1) in
    let a2 := fst (ab start2) in
    let b2 := snd (ab start2) in
    exists r12,
      rounded._haversine3 a2 a1 (float.sub b2 b1)
        = Ok (r12, float.cos a2, float.cos a1) /\
      let parallel :=
        Rabs r12 < utils.EPS \/
        Rabs (float.mul (float.sin r12) (float.cos a1)) < utils.EPS \/
        Rabs (float.mul (float.sin r12) (float.cos a2)) < utils.EPS in
      (rounded.intersection start1 bearing1 start2 bearing2
         = Raise (ValueError Parallel) <-> parallel) /\
      (~ parallel ->
       ~ (-1 <= rounded.acos_argument a1 a2 r12 <= 1 /\
          -1 <= rounded.acos_argument a2 a1 r12 <= 1) ->
       rounded.intersection start1 bearing1 start2 bearing2
         = Raise (ValueError MathDomain)).
Proof.
  intros Heps start1 bearing1 start2 bearing2 a1 b1 a2 b2.
  destruct (rounded_haversine3_returns a2 a1 (float.sub b2 b1))
    as (r12 & Hr).
  exists r12. split; [exact Hr|]. intros parallel.
  assert (Guarded : parallel ->
            rounded.intersection start1 bearing1 start2 bearing2
              = Raise (ValueError Parallel)).
  { intros P. unfold rounded.intersection. subst a1 b1 a2 b2.
    destruct (ab start1) as [a1 b1], (ab start2) as [a2 b2].
    cbn [fst snd] in *. rewrite Hr. cbn [bind].
    destruct (Rlt_dec (Rabs r12) utils.EPS) as [P0 | P0].
    - now replace (ltb (Rabs r12) utils.EPS) with true
        by (symmetry; now apply ltb_true).
    - replace (ltb (Rabs r12) utils.EPS) with false
        by (symmetry; apply ltb_false; lra).
      replace (ltb (Rmin (Rabs (float.mul (float.sin r12) (float.cos a1)))
                         (Rabs (float.mul (float.sin r12) (float.cos a2))))
                   utils.EPS) with true; [reflexivity|].
      symmetry. apply ltb_true. apply Rmin_lt_iff.
      destruct P as [P | P]; [contradiction | exact P]. }
  destruct (Rlt_dec (Rabs r12) utils.EPS) as [P0 | P0].
  { split; [split; [intros _; now left | intros _; apply Guarded; now left]|].
    intros N. exfalso. apply N. now left. }
  destruct (Rlt_dec (Rabs (float.mul (float.sin r12) (float.cos a1)))
                    utils.EPS) as [P1 | P1].
  { split; [split; [intros _; right; now left
                   | intros _; apply Guarded; right; now left]|].
    intros N. exfalso. apply N. right. now left. }
  destruct (Rlt_dec (Rabs (float.mul (float.sin r12) (float.cos a2)))
                    utils.EPS) as [P2 | P2].
  { split; [split; [intros _; right; now right
                   | intros _; apply Guarded; right; now right]|].
    intros N. exfalso. apply N. right. now right. }
  subst a1 b1 a2 b2.
  destruct (rounded_intersection_past_guards start1 bearing1 start2 bearing2
              r12 Heps Hr) as [Hdom Hall]; [lra | lra | lra |].
  split.
  - split; [|exact Guarded].
    intros E. exfalso.
    destruct Hall as [H | [H | [H | (p & H & _)]]];
      rewrite H in E; discriminate E.
  - intros _ Hout. apply Hdom. exact Hout.
Qed.

(** X18.  For every floating-point arithmetic and a positive machine
    epsilon, [intersection] raises nothing but the three tagged
    [ValueError]s 'parallel', 'infinite' and 'ambiguous' and the untagged
    [ValueError] 'math domain error' of [acos] and [asin]: it never
    divides by zero.  A point that it returns is new, with empty caches
    and with the average of the heights of the two start points as its
    height. *)
Theorem intersection_exhaustive :
  0 < utils.EPS ->
  forall (start1 : LatLon) (bearing1 : R) (start2 : LatLon) (bearing2 : R),
    (forall e,
       rounded.intersection start1 bearing1 start2 bearing2 = Raise e ->
       e = ValueError Parallel \/ e = ValueError Infinite \/
       e = ValueError Ambiguous \/ e = ValueError MathDomain) /\
    (forall p,
       rounded.intersection start1 bearing1 start2 bearing2 = Ok p ->
       _height p = utils.favg (_height start1) (_height start2) (1 / 2) /\
       _ab p = None /\ _v3d p = None).
Proof.
  intros Heps start1 bearing1 start2 bearing2.
  destruct (rounded_haversine3_returns (fst (ab start2)) (fst (ab start1))
              (float.sub (snd (ab start2)) (snd (ab start1))))
    as (r12 & Hr).
  assert (Cases :
    rounded.intersection start1 bearing1 start2 bearing2
      = Raise (ValueError Parallel) \/
    rounded.intersection start1 bearing1 start2 bearing2
      = Raise (ValueError MathDomain) \/
    rounded.intersection start1 bearing1 start2 bearing2
      = Raise (ValueError Infinite) \/
    rounded.intersection start1 bearing1 start2 bearing2
      = Raise (ValueError Ambiguous) \/
    exists p,
      rounded.intersection start1 bearing1 start2 bearing2 = Ok p /\
      _height p = utils.favg (_height start1) (_height start2) (1 / 2) /\
      _ab p = None /\ _v3d p = None).
  { destruct (Rlt_dec (Rabs r12) utils.EPS) as [P0 | P0].
    { left. unfold rounded.intersection.
      destruct (ab start1) as [a1 b1], (ab start2) as [a2 b2].
      cbn [fst snd] in *. rewrite Hr. cbn [bind].
      now replace (ltb (Rabs r12) utils.EPS) with true
        by (symmetry; now apply ltb_true). }
    destruct (Rlt_dec
                (Rmin (Rabs (float.mul (float.sin r12)
                                       (float.cos (fst (ab start1)))))
                      (Rabs (float.mul (float.sin r12)
                                       (float.cos (fst (ab start2))))))
                utils.EPS) as [P1 | P1].
    { left. unfold rounded.intersection.
      destruct (ab start1) as [a1 b1], (ab start2) as [a2 b2].
      cbn [fst snd] in *. rewrite Hr. cbn [bind].
      replace (ltb (Rabs r12) utils.EPS) with false
        by (symmetry; apply ltb_false; lra).
      now replace (ltb _ utils.EPS) with true
        by (symmetry; now apply ltb_true). }
    right.
    apply (rounded_intersection_past_guards start1 bearing1 start2 bearing2
             r12 Heps Hr).
    - lra.
    - apply Rnot_lt_le. intros H. apply P1.
      eapply Rle_lt_trans; [apply Rmin_l | exact H].
    - apply Rnot_lt_le. intros H. apply P1.
      eapply Rle_lt_trans; [apply Rmin_r | exact H]. }
  split.
  - intros e E.
    destruct Cases as [H | [H | [H | [H | (p & H & _)]]]];
      rewrite H in E; try discriminate E; injection E as <-; tauto.
  - intros p E.
    destruct Cases as [H | [H | [H | [H | (q & H & Hq)]]]];
      rewrite H in E; try discriminate E. injection E as <-. exact Hq.
Qed.

(** X12.  [destination] raises [ZeroDivisionError] for the radius 0.
    For any other radius it raises the [ValueError] 'math domain error'
    exactly when the argument of [asin], as the floating-point arithmetic
    returns it, is outside [-1, 1], and nothing else; with the argument
    inside it returns a new point, with the height of the start point and
    empty caches. *)
Theorem destination_outcomes :
  forall (p : LatLon) (distance bearing radius : R),
    (radius = 0 ->
       rounded.destination p distance bearing radius
         = Raise ZeroDivisionError) /\
    (radius <> 0 ->
       let s := rounded.asin_argument (fst (ab p))
                  (float.truediv distance radius) (utils.radians bearing) in
       (rounded.destination p distance bearing radius
          = Raise (ValueError MathDomain) <-> s < -1 \/ 1 < s) /\
       (forall e,
          rounded.destination p distance bearing radius = Raise e ->
          e = ValueError MathDomain) /\
       (-1 <= s <= 1 ->
          exists q,
            rounded.destination p distance bearing radius = Ok q /\
            _height q = _height p /\ _ab q = None /\ _v3d q = None)).
Proof.
  intros p distance bearing radius. unfold rounded.destination.
  destruct (ab p) as [a b]. cbn [fst]. split.
  - intros ->. unfold rounded.div. now rewrite eqb_refl.
  - intros Hr.
    set (s := rounded.asin_argument a (float.truediv distance radius)
                (utils.radians bearing)).
    rewrite rounded_div_nonzero by exact Hr. cbn [bind].
    destruct (Rle_dec (-1) s) as [L | L];
      [destruct (Rle_dec s 1) as [M | M]|].
    + destruct (rounded_destination2_inside a b
                  (float.truediv distance radius) (utils.radians bearing)
                  (_height p)) as (q & E & Hq); [now split|].
      fold s in E. rewrite E. split; [|split].
      * split; [discriminate | lra].
      * discriminate.
      * intros _. now exists q.
    + rewrite rounded_destination2_outside by (fold s; lra).
      split; [|split].
      * split; [intros _; right; lra | reflexivity].
      * now intros e [= <-].
      * lra.
    + rewrite rounded_destination2_outside by (fold s; lra).
      split; [|split].
      * split; [intros _; left; lra | reflexivity].
      * now intros e [= <-].
      * lra.
Qed.
End DomainErrors.

(** ** The arithmetic without rounding errors, and one with them *)

(** Over the exact arithmetic the functions are those of the first part. *)
Lemma rounded_exact_isclockwise {U : utils.Utils} (pts : list LatLon) :
  rounded.isclockwise (F:=real_arithmetic) pts
    = LatLonHeightBase.isclockwise pts.
Proof.
  unfold rounded.isclockwise, LatLonHeightBase.isclockwise.
  destruct (LatLonHeightBase.points pts true) as [[n ps] | e];
    [|reflexivity].
  cbn [bind]. destruct (rev ps) as [|plast rest]; [reflexivity|].
  destruct (LatLonHeightBase._2xy plast) as [x1 y1].
  assert (E : forall l x y,
            rounded.segments (F:=real_arithmetic) x y l
              = LatLonHeightBase.segments x y l).
  { induction l as [|p l IH]; intros x y; [reflexivity|].
    cbn [rounded.segments LatLonHeightBase.segments].
    destruct (LatLonHeightBase._2xy p) as [x2 y2]. now rewrite IH. }
  now rewrite E.
Qed.

Lemma rounded_exact_haversine3 {U : utils.Utils} (a2 a1 b21 : R) :
  rounded._haversine3 (F:=real_arithmetic) a2 a1 b21
    = sphericalTrigonometry._haversine3 a2 a1 b21.
Proof. reflexivity. Qed.

Lemma rounded_exact_destination {U : utils.Utils}
  (p : LatLon) (distance bearing radius : R) :
  rounded.destination (F:=real_arithmetic) p distance bearing radius
    = sphericalTrigonometry.destination p distance bearing radius.
Proof. reflexivity. Qed.

Lemma rounded_exact_intersection {U : utils.Utils}
  (start1 : LatLon) (bearing1 : R) (start2 : LatLon) (bearing2 : R) :
  rounded.intersection (F:=real_arithmetic) start1 bearing1 start2 bearing2
    = sphericalTrigonometry.intersection start1 bearing1 start2 bearing2.
Proof. reflexivity. Qed.

(** With exact sums the angle between two points is the exact one. *)
Lemma erring_haversine3 {U : utils.Utils} (ed a2 a1 b21 : R) :
  rounded._haversine3 (F:=erring 0 ed) a2 a1 b21
    = sphericalTrigonometry._haversine3 a2 a1 b21.
Proof.
  unfold rounded._haversine3, sphericalTrigonometry._haversine3,
    rounded.py_sqrt, py_sqrt.
  cbn [float.add float.sub float.mul float.cos float.sqrt float.atan2
       erring].
  replace (1 + 0) with 1 by ring. now rewrite Rmult_1_r.
Qed.

(** Bounds on pi, sine and cosine. *)
Lemma PI_lt_float_pi : PI < float_pi + / 2 ^ 40.
Proof.
  pose proof (PI_2_3_7_ineq 6) as [_ H].
  unfold float_pi.
  cbn [sum_f_R0 Nat.mul Nat.add] in H.
  unfold tg_alt, PI_2_3_7_tg, Ratan_seq in H.
  cbn [Nat.mul Nat.add pow] in H.
  rewrite ?S_INR in H. cbn [INR] in H.
  cbn [pow].
  lra.
Qed.

Lemma sin_lower (x : R) : 0 <= x <= 4 -> x - x ^ 3 / 6 <= sin x.
Proof.
  intros [H0 H4]. pose proof (pre_sin_bound x 0 H0 H4) as [H _].
  unfold sin_approx, sin_term in H. cbn in H. lra.
Qed.

Lemma cos_lower (x : R) : -2 <= x <= 2 -> 1 - x ^ 2 / 2 <= cos x.
Proof.
  intros [H0 H4]. pose proof (pre_cos_bound x 0 H0 H4) as [H _].
  unfold cos_approx, cos_term in H. cbn in H. lra.
Qed.

(** Two start points on one meridian, at the latitudes 10 and 20: the
    angle between them is the difference of the latitudes, and the first
    quotient that [intersection] hands to [acos] is 1 before rounding. *)
Lemma float_pi_bounds : 3.14 < float_pi < 3.15.
Proof. unfold float_pi. lra. Qed.

Lemma float_eps_small : float_eps < / 1000.
Proof.
  unfold float_eps. apply Rinv_lt_contravar.
  - apply Rmult_lt_0_compat; [lra | apply pow_lt; lra].
  - cbn [pow]. lra.
Qed.

Lemma meridian_haversine3 (ed : R) :
  rounded._haversine3 (F:=erring 0 ed) (U:=ideal)
    (to_radians 20) (to_radians 10) (to_radians 0 - to_radians 0)
  = Ok (to_radians 10, cos (to_radians 20), cos (to_radians 10)).
Proof.
  pose proof float_pi_bounds as Hf. pose proof float_pi_lt_PI as HP.
  rewrite erring_haversine3.
  rewrite (_haversine3_acos (U:=ideal) ideal_hsin_exact).
  replace (to_radians 0 - to_radians 0) with 0 by ring. rewrite cos_0.
  replace (sin (to_radians 10) * sin (to_radians 20)
           + cos (to_radians 10) * cos (to_radians 20) * 1)
    with (cos (to_radians 20 - to_radians 10)) by (rewrite cos_minus; ring).
  replace (to_radians 20 - to_radians 10) with (to_radians 10)
    by (unfold to_radians; field).
  rewrite acos_cos; [reflexivity|].
  unfold to_radians. lra.
Qed.

Lemma meridian_guards :
  / 10 <= sin (to_radians 10) * cos (to_radians 10) /\
  / 10 <= sin (to_radians 10) * cos (to_radians 20).
Proof.
  pose proof float_pi_bounds as Hf.
  assert (R10 : 0.174 < to_radians 10 < 0.175)
    by (unfold to_radians; lra).
  assert (R20 : 0.348 < to_radians 20 < 0.35)
    by (unfold to_radians; lra).
  pose proof (sin_lower (to_radians 10)) as S.
  pose proof (cos_lower (to_radians 10)) as C1.
  pose proof (cos_lower (to_radians 20)) as C2.
  assert (S' : 0.17 <= sin (to_radians 10)) by nra.
  assert (C1' : 0.9 <= cos (to_radians 10)) by nra.
  assert (C2' : 0.9 <= cos (to_radians 20)) by nra.
  split; nra.
Qed.

Lemma meridian_acos_argument (ed : R) :
  rounded.acos_argument (F:=erring 0 ed)
    (to_radians 10) (to_radians 20) (to_radians 10) = 1 + ed.
Proof.
  pose proof meridian_guards as [G _].
  unfold rounded.acos_argument.
  cbn [float.truediv float.sub float.mul float.sin float.cos erring].
  replace (to_radians 20) with (to_radians 10 + to_radians 10)
    by (unfold to_radians; field).
  rewrite sin_plus. field. nra.
Qed.

Lemma intersection_domain_error_witness :
  rounded.intersection (F:=erring 0 (/ 2 ^ 52)) (U:=ideal)
    (LatLonHeightBase.__init__ 10 0 0) 45
    (LatLonHeightBase.__init__ 20 0 0) 135
    = Raise (ValueError MathDomain) /\
  rounded.intersection (F:=erring 0 (/ 2 ^ 52)) (U:=ideal)
    (LatLonHeightBase.__init__ 51.8853 0.2545 0) 108.547
    (LatLonHeightBase.__init__ 51.8853 0.2545 0) 32.435
    = Raise (ValueError Parallel).
Proof.
  pose proof float_eps_bounds as [Heps _].
  pose proof float_eps_small as Hsmall.
  split.
  - destruct (intersection_domain_error (F:=erring 0 (/ 2 ^ 52)) (U:=ideal)
                Heps (LatLonHeightBase.__init__ 10 0 0) 45
                (LatLonHeightBase.__init__ 20 0 0) 135)
      as (r12 & Hr & _ & Hdom).
    unfold sphericalTrigonometry.ab, LatLonHeightBase.to2ab in *.
    cbn [LatLonHeightBase.__init__ _ab _lat _lon fst snd utils.radians
         utils.EPS ideal float.sub float.mul float.sin float.cos erring]
      in *.
    rewrite meridian_haversine3 in Hr. injection Hr as <-.
    pose proof meridian_guards as [G1 G2].
    apply Hdom.
    + intros [P | [P | P]].
      * pose proof float_pi_bounds. unfold to_radians in P.
        rewrite Rabs_pos_eq in P by lra. lra.
      * rewrite Rabs_pos_eq in P by lra. lra.
      * rewrite Rabs_pos_eq in P by lra. lra.
    + rewrite meridian_acos_argument. fold float_eps. lra.
  - destruct (intersection_domain_error (F:=erring 0 (/ 2 ^ 52)) (U:=ideal)
                Heps (LatLonHeightBase.__init__ 51.8853 0.2545 0) 108.547
                (LatLonHeightBase.__init__ 51.8853 0.2545 0) 32.435)
      as (r12 & Hr & Hpar & _).
    apply Hpar. left.
    unfold sphericalTrigonometry.ab, LatLonHeightBase.to2ab in Hr.
    cbn [LatLonHeightBase.__init__ _ab _lat _lon fst snd utils.radians
         ideal float.sub erring] in Hr.
    rewrite erring_haversine3 in Hr.
    rewrite _haversine3_zero in Hr
      by (apply haversine_same, ideal_hsin_0).
    injection Hr as <-. rewrite Rabs_R0. exact Heps.
Defined.

(** From the latitude 8 due south by 1.710422666954443 radians, 98
    degrees as a float, to the south pole: the sine that [asin] receives
    is within 2^-60 of -1 before the sum is rounded. *)
Lemma pole_landing_sine :
  cos float_pi * sin 1.710422666954443 * cos (to_radians 8)
    + cos 1.710422666954443 * sin (to_radians 8) <= -1 + / 2 ^ 60.
Proof.
  pose proof float_pi_lt_PI as HP. pose proof PI_lt_float_pi as HP'.
  set (r := 1.710422666954443). set (a := to_radians 8).
  set (e := PI - float_pi).
  assert (He : 0 < e < / 2 ^ 40) by (unfold e; lra).
  assert (Ce : 1 - e * e / 2 <= cos e <= 1).
  { pose proof (cos_lower e) as C. pose proof (COS_bound e) as B.
    cbn [pow] in C, He. lra. }
  assert (Cf : cos float_pi = - cos e).
  { replace float_pi with (- e + PI) by (unfold e; ring).
    now rewrite neg_cos, cos_neg. }
  set (n := e / 2 - (r - a - float_pi / 2)).
  assert (Hn : - / 2 ^ 41 < n < / 2 ^ 41).
  { unfold n, r, a, to_radians, float_pi. cbn [pow] in *. lra. }
  assert (Cn : 1 - n * n / 2 <= cos n).
  { pose proof (cos_lower n) as C. cbn [pow] in C, Hn. lra. }
  assert (Sd : sin r * cos a - cos r * sin a = cos n).
  { rewrite <- sin_minus.
    replace (r - a) with (PI / 2 - n) by (unfold n, e; field).
    apply sin_shift. }
  assert (Pb : sin r * cos a <= 1).
  { pose proof (SIN_bound r). pose proof (COS_bound a). nra. }
  assert (E2 : e * e <= / 2 ^ 80).
  { replace (/ 2 ^ 80) with (/ 2 ^ 40 * / 2 ^ 40) by (cbn [pow]; lra).
    nra. }
  assert (N2 : n * n <= / 2 ^ 82).
  { replace (/ 2 ^ 82) with (/ 2 ^ 41 * / 2 ^ 41) by (cbn [pow]; lra).
    nra. }
  rewrite Cf.
  replace (- cos e * sin r * cos a + cos r * sin a)
    with (- (sin r * cos a - cos r * sin a)
          + (1 - cos e) * (sin r * cos a)) by ring.
  rewrite Sd.
  assert ((1 - cos e) * (sin r * cos a) <= 1 - cos e) by nra.
  cbn [pow] in *. lra.
Qed.

Lemma destination_outcomes_witness :
  rounded.destination (F:=erring (/ 2 ^ 52) 0) (U:=ideal)
    (LatLonHeightBase.__init__ 51.4778 (-0.0015) 0) 7794 300.7 0
    = Raise ZeroDivisionError /\
  rounded.destination (F:=erring (/ 2 ^ 52) 0) (U:=ideal)
    (LatLonHeightBase.__init__ 8 0 0) 1.710422666954443 180 1
    = Raise (ValueError MathDomain) /\
  exists q,
    rounded.destination (F:=real_arithmetic) (U:=ideal)
      (LatLonHeightBase.__init__ 51.4778 (-0.0015) 12) 7794 300.7
      6371008.77141 = Ok q /\
    _height q = 12.
Proof.
  split; [|split].
  - apply (proj1 (destination_outcomes (F:=erring (/ 2 ^ 52) 0) (U:=ideal)
                    (LatLonHeightBase.__init__ 51.4778 (-0.0015) 0)
                    7794 300.7 0)).
    reflexivity.
  - destruct (proj2 (destination_outcomes (F:=erring (/ 2 ^ 52) 0)
                       (U:=ideal) (LatLonHeightBase.__init__ 8 0 0)
                       1.710422666954443 180 1)) as ([_ Hdom] & _); [lra|].
    apply Hdom. left.
    unfold rounded.asin_argument, sphericalTrigonometry.ab,
      LatLonHeightBase.to2ab.
    cbn [LatLonHeightBase.__init__ _ab _lat _lon fst snd utils.radians
         ideal float.add float.mul float.truediv float.sin float.cos
         erring].
    replace (1.710422666954443 / 1 * (1 + 0)) with 1.710422666954443
      by field.
    replace (to_radians 180) with float_pi
      by (unfold to_radians; field).
    pose proof pole_landing_sine as Q.
    set (s0 := cos float_pi * sin 1.710422666954443 * cos (to_radians 8)
               + cos 1.710422666954443 * sin (to_radians 8)) in *.
    assert (M : s0 * (1 + / 2 ^ 52) <= (-1 + / 2 ^ 60) * (1 + / 2 ^ 52)).
    { apply Rmult_le_compat_r; [|exact Q].
      pose proof float_eps_bounds as [Heps _]. unfold float_eps in Heps.
      lra. }
    eapply Rle_lt_trans; [exact M|]. cbn [pow]. lra.
  - destruct (proj2 (destination_outcomes (F:=real_arithmetic) (U:=ideal)
                       (LatLonHeightBase.__init__ 51.4778 (-0.0015) 12)
                       7794 300.7 6371008.77141))
      as (_ & _ & Hok); [lra|].
    destruct Hok as (q & Hq & Hh & _).
    + unfold rounded.asin_argument.
      cbn [float.add float.mul float.truediv float.sin float.cos
           real_arithmetic].
      match goal with
      | |- -1 <= cos ?t * sin ?r * cos ?a + _ <= 1 =>
          apply (destination_arg_bound (cos t) (sin t) (sin r) (cos r)
                   (sin a) (cos a));
            [pose proof (sin_cos_1 t); lra | apply sin_cos_1
            | apply sin_cos_1]
      end.
    + exists q. split; [exact Hq | exact Hh].
Defined.

Lemma coincident_parallel :
  rounded.intersection (F:=erring 0 (/ 2 ^ 52)) (U:=ideal)
    (LatLonHeightBase.__init__ 51.8853 0.2545 0) 108.547
    (LatLonHeightBase.__init__ 51.8853 0.2545 0) 32.435
    = Raise (ValueError Parallel).
Proof.
  pose proof float_eps_bounds as [Heps _].
  unfold rounded.intersection, sphericalTrigonometry.ab,
    LatLonHeightBase.to2ab.
  cbn [LatLonHeightBase.__init__ _ab _lat _lon fst snd utils.radians
       utils.EPS ideal float.sub erring].
  rewrite erring_haversine3.
  rewrite _haversine3_zero by (apply haversine_same, ideal_hsin_0).
  cbn [bind]. rewrite Rabs_R0.
  now replace (ltb 0 float_eps) with true
    by (symmetry; now apply ltb_true).
Qed.

Lemma intersection_exhaustive_witness :
  (exists p,
     rounded.intersection (F:=real_arithmetic) (U:=ideal)
       (LatLonHeightBase.__init__ 0 0 0) (to_degrees (PI / 2 - 1))
       (LatLonHeightBase.__init__ 0 (to_degrees (PI / 2)) 0)
       (to_degrees (float_pi * 2 - PI / 2 + 1)) = Ok p /\
     _height p = 0 /\ _ab p = None /\ _v3d p = None) /\
  (exists e,
     rounded.intersection (F:=erring 0 (/ 2 ^ 52)) (U:=ideal)
       (LatLonHeightBase.__init__ 51.8853 0.2545 0) 108.547
       (LatLonHeightBase.__init__ 51.8853 0.2545 0) 32.435 = Raise e /\
     (e = ValueError Parallel \/ e = ValueError Infinite \/
      e = ValueError Ambiguous \/ e = ValueError MathDomain)).
Proof.
  pose proof float_eps_bounds as [Heps _].
  split.
  - destruct intersection_outcomes_exact_examples as (_ & _ & _ & p & Hp).
    rewrite <- (rounded_exact_intersection (U:=ideal)) in Hp.
    exists p. split; [exact Hp|].
    destruct (proj2 (intersection_exhaustive (F:=real_arithmetic) (U:=ideal)
                       Heps _ _ _ _) p Hp) as (Hh & Hab & Hv).
    split; [|now split].
    rewrite Hh. cbn [LatLonHeightBase.__init__ _height utils.favg ideal].
    ring.
  - exists (ValueError Parallel). split; [exact coincident_parallel|].
    apply (proj1 (intersection_exhaustive (F:=erring 0 (/ 2 ^ 52))
                    (U:=ideal) Heps
                    (LatLonHeightBase.__init__ 51.8853 0.2545 0) 108.547
                    (LatLonHeightBase.__init__ 51.8853 0.2545 0) 32.435)).
    exact coincident_parallel.
Defined.

(** ** A point and the octant of the sphere between the equator, the
    meridians 0 and 90 and the north pole *)

Lemma atan2_nonneg (y x : R) : 0 <= y -> 0 <= atan2 y x.
Proof.
  intros Hy. unfold atan2. pose proof PI_RGT_0 as HP.
  destruct (Rlt_dec 0 x) as [Px | Nx].
  - replace (ltb 0 x) with true by (symmetry; now apply ltb_true).
    rewrite <- atan_0. destruct Hy as [Hy | <-].
    + left. apply atan_increasing. now apply Rdiv_lt_0_compat.
    + right. f_equal. unfold Rdiv. ring.
  - replace (ltb 0 x) with false by (symmetry; apply ltb_false; lra).
    destruct (Rlt_dec x 0) as [Lx | Zx].
    + replace (ltb x 0) with true by (symmetry; now apply ltb_true).
      replace (ltb y 0) with false by (symmetry; apply ltb_false; lra).
      pose proof (atan_bound (y / x)). lra.
    + replace (ltb x 0) with false by (symmetry; apply ltb_false; lra).
      destruct (ltb 0 y); [lra|].
      replace (ltb y 0) with false by (symmetry; apply ltb_false; lra).
      lra.
Qed.

Lemma atan2_negative (y x : R) : y < 0 -> atan2 y x < 0.
Proof.
  intros Hy. unfold atan2. pose proof PI_RGT_0 as HP.
  destruct (Rlt_dec 0 x) as [Px | Nx].
  - replace (ltb 0 x) with true by (symmetry; now apply ltb_true).
    rewrite <- atan_0. apply atan_increasing.
    assert (0 < / x) by now apply Rinv_0_lt_compat.
    unfold Rdiv. nra.
  - replace (ltb 0 x) with false by (symmetry; apply ltb_false; lra).
    destruct (Rlt_dec x 0) as [Lx | Zx].
    + replace (ltb x 0) with true by (symmetry; now apply ltb_true).
      replace (ltb y 0) with true by (symmetry; now apply ltb_true).
      pose proof (atan_bound (y / x)). lra.
    + replace (ltb x 0) with false by (symmetry; apply ltb_false; lra).
      replace (ltb 0 y) with false by (symmetry; apply ltb_false; lra).
      replace (ltb y 0) with true by (symmetry; now apply ltb_true).
      lra.
Qed.

Lemma atan2_le_PI2 (y x : R) : 0 <= x -> atan2 y x <= PI / 2.
Proof.
  intros Hx. unfold atan2. pose proof PI_RGT_0 as HP.
  destruct (Rlt_dec 0 x) as [Px | Nx].
  - replace (ltb 0 x) with true by (symmetry; now apply ltb_true).
    pose proof (atan_bound (y / x)). lra.
  - replace (ltb 0 x) with false by (symmetry; apply ltb_false; lra).
    replace (ltb x 0) with false by (symmetry; apply ltb_false; lra).
    destruct (ltb 0 y); [lra|]. destruct (ltb y 0); lra.
Qed.

Lemma atan2_gt_PI2 (y x : R) : 0 <= y -> x < 0 -> PI / 2 < atan2 y x.
Proof.
  intros Hy Hx. unfold atan2.
  replace (ltb 0 x) with false by (symmetry; apply ltb_false; lra).
  replace (ltb x 0) with true by (symmetry; now apply ltb_true).
  replace (ltb y 0) with false by (symmetry; apply ltb_false; lra).
  pose proof (atan_bound (y / x)). lra.
Qed.

(** The test [gc.angleTo(v) > PI_2] is the sign of a dot product, and the
    sign of [gc1.angleTo(gc2, vSign=v)] that of a triple product. *)
Lemma angleTo_side_false (g v : Vector3d) :
  0 <= dot g v -> gtb (vector_angleTo g v None) (PI / 2) = false.
Proof.
  intros H. apply ltb_false. unfold vector_angleTo.
  apply atan2_le_PI2. exact H.
Qed.

Lemma angleTo_side_true (g v : Vector3d) :
  dot g v < 0 -> gtb (vector_angleTo g v None) (PI / 2) = true.
Proof.
  intros H. apply ltb_true. unfold vector_angleTo.
  apply atan2_gt_PI2; [apply sqrt_pos | exact H].
Qed.

Lemma angleTo_signed_nonneg (g1 g2 v : Vector3d) :
  0 <= dot (vector_cross g1 g2) v ->
  0 <= vector_angleTo g1 g2 (Some v).
Proof.
  intros H. unfold vector_angleTo. apply atan2_nonneg.
  replace (ltb _ 0) with false by (symmetry; apply ltb_false; exact H).
  apply sqrt_pos.
Qed.

Lemma angleTo_signed_negative (g1 g2 v : Vector3d) :
  dot (vector_cross g1 g2) v < 0 ->
  vector_angleTo g1 g2 (Some v) < 0.
Proof.
  intros H. unfold vector_angleTo. apply atan2_negative.
  replace (ltb _ 0) with true by (symmetry; apply ltb_true; exact H).
  set (c := vector_cross g1 g2) in *.
  assert (P : 0 < vx c * vx c + vy c * vy c + vz c * vz c).
  { unfold dot in H.
    destruct (Req_dec_T (vx c) 0) as [X | X];
      [destruct (Req_dec_T (vy c) 0) as [Y | Y];
       [destruct (Req_dec_T (vz c) 0) as [Z | Z]|]|].
    - rewrite X, Y, Z in H. lra.
    - pose proof (Rle_0_sqr (vx c)). pose proof (Rle_0_sqr (vy c)).
      assert (0 < vz c * vz c) by nra. unfold Rsqr in *. lra.
    - pose proof (Rle_0_sqr (vx c)). pose proof (Rle_0_sqr (vz c)).
      assert (0 < vy c * vy c) by nra. unfold Rsqr in *. lra.
    - pose proof (Rle_0_sqr (vy c)). pose proof (Rle_0_sqr (vz c)).
      assert (0 < vx c * vx c) by nra. unfold Rsqr in *. lra. }
  apply sqrt_lt_R0 in P. lra.
Qed.

Lemma octant_vectors :
  sphericalTrigonometry.vector (U:=exact_angles)
    (LatLonHeightBase.__init__ 0 0 0) = mkVector3d 1 0 0 /\
  sphericalTrigonometry.vector (U:=exact_angles)
    (LatLonHeightBase.__init__ 0 90 0) = mkVector3d 0 1 0 /\
  sphericalTrigonometry.vector (U:=exact_angles)
    (LatLonHeightBase.__init__ 90 0 0) = mkVector3d 0 0 1 /\
  sphericalTrigonometry.vector (U:=exact_angles)
    (LatLonHeightBase.__init__ (-45) 45 0)
    = mkVector3d (1 / 2) (1 / 2) (- (1 / sqrt 2)) /\
  sphericalTrigonometry.vector (U:=exact_angles)
    (LatLonHeightBase.__init__ 45 45 0)
    = mkVector3d (1 / 2) (1 / 2) (1 / sqrt 2).
Proof.
  unfold sphericalTrigonometry.vector, sphericalTrigonometry.toVector3d,
    LatLonHeightBase.to3xyz, LatLonHeightBase.to2ab.
  cbn [LatLonHeightBase.__init__ _ab _v3d _lat _lon fst snd utils.radians
       exact_angles with_ab].
  replace (0 * (PI / 180)) with 0 by ring.
  replace (90 * (PI / 180)) with (PI / 2) by field.
  replace (-45 * (PI / 180)) with (- (PI / 4)) by field.
  replace (45 * (PI / 180)) with (PI / 4) by field.
  rewrite sin_neg, cos_neg.
  rewrite sin_0, cos_0, sin_PI2, cos_PI2, sin_PI4, cos_PI4.
  assert (S2 : sqrt 2 * sqrt 2 = 2) by (apply sqrt_sqrt; lra).
  assert (P2 : 0 < sqrt 2) by (apply sqrt_lt_R0; lra).
  assert (H2 : 1 / sqrt 2 * (1 / sqrt 2) = 1 / 2).
  { replace (1 / sqrt 2 * (1 / sqrt 2)) with (1 / (sqrt 2 * sqrt 2))
      by (field; lra).
    now rewrite S2. }
  repeat split; f_equal; try ring; exact H2.
Qed.

Lemma octant_unclosed :
  unclosed [LatLonHeightBase.__init__ 0 0 0; LatLonHeightBase.__init__ 0 90 0;
            LatLonHeightBase.__init__ 90 0 0]
  = [LatLonHeightBase.__init__ 0 0 0; LatLonHeightBase.__init__ 0 90 0;
     LatLonHeightBase.__init__ 90 0 0] /\
  unclosed [LatLonHeightBase.__init__ 90 0 0; LatLonHeightBase.__init__ 0 90 0;
            LatLonHeightBase.__init__ 0 0 0]
  = [LatLonHeightBase.__init__ 90 0 0; LatLonHeightBase.__init__ 0 90 0;
     LatLonHeightBase.__init__ 0 0 0].
Proof.
  unfold unclosed, LatLonHeightBase.first_equals_last,
    LatLonHeightBase.equals.
  cbn [List.length Nat.ltb Nat.leb andb last LatLonHeightBase.__init__
       _lat _lon].
  rewrite (eqb_neq 0 90) by lra. rewrite (eqb_neq 90 0) by lra.
  split; reflexivity.
Qed.

Lemma octant_normals :
  edge_normals (U:=exact_angles) vector_cross
    [LatLonHeightBase.__init__ 0 0 0; LatLonHeightBase.__init__ 0 90 0;
     LatLonHeightBase.__init__ 90 0 0]
  = [mkVector3d 0 1 0; mkVector3d 0 0 1; mkVector3d 1 0 0] /\
  edge_normals (U:=exact_angles) vector_cross
    [LatLonHeightBase.__init__ 90 0 0; LatLonHeightBase.__init__ 0 90 0;
     LatLonHeightBase.__init__ 0 0 0]
  = [mkVector3d 0 (-1) 0; mkVector3d (-1) 0 0; mkVector3d 0 0 (-1)].
Proof.
  destruct octant_vectors as (VO & VE & VN & _).
  unfold edge_normals, edges.
  cbn [rev app removelast combine map fst snd].
  rewrite VO, VE, VN. unfold vector_cross. cbn [vx vy vz].
  split; repeat (f_equal; try ring).
Qed.

Lemma isEnclosedBy_outcomes_witness :
  sphericalTrigonometry.isEnclosedBy (U:=exact_angles)
    vector_cross vector_angleTo
    (LatLonHeightBase.__init__ 45 45 0)
    [LatLonHeightBase.__init__ 0 0 0; LatLonHeightBase.__init__ 0 90 0;
     LatLonHeightBase.__init__ 90 0 0]
  = sphericalTrigonometry.Returns true /\
  sphericalTrigonometry.isEnclosedBy (U:=exact_angles)
    vector_cross vector_angleTo
    (LatLonHeightBase.__init__ (-45) 45 0)
    [LatLonHeightBase.__init__ 0 0 0; LatLonHeightBase.__init__ 0 90 0;
     LatLonHeightBase.__init__ 90 0 0]
  = sphericalTrigonometry.Returns false /\
  sphericalTrigonometry.isEnclosedBy (U:=exact_angles)
    vector_cross vector_angleTo
    (LatLonHeightBase.__init__ 45 45 0)
    [LatLonHeightBase.__init__ 90 0 0; LatLonHeightBase.__init__ 0 90 0;
     LatLonHeightBase.__init__ 0 0 0]
  = sphericalTrigonometry.RaisesNonConvex /\
  sphericalTrigonometry.isEnclosedBy (U:=exact_angles)
    vector_cross vector_angleTo
    (LatLonHeightBase.__init__ 45.1 1.1 0)
    [LatLonHeightBase.__init__ 45 1 0; LatLonHeightBase.__init__ 46 1 0;
     LatLonHeightBase.__init__ 45 1 0]
  = sphericalTrigonometry.Raises (ValueError (TooFewPoints 2)).
Proof.
  destruct octant_vectors as (_ & _ & _ & VW & VM).
  destruct octant_unclosed as [UO UR].
  destruct octant_normals as [NO NR].
  assert (P2 : 0 < 1 / sqrt 2).
  { apply Rdiv_lt_0_compat; [lra | apply sqrt_lt_R0; lra]. }
  split; [|split; [|split]].
  - pose proof (isEnclosedBy_outcomes (U:=exact_angles) vector_cross
                  vector_angleTo (LatLonHeightBase.__init__ 45 45 0)
                  [LatLonHeightBase.__init__ 0 0 0;
                   LatLonHeightBase.__init__ 0 90 0;
                   LatLonHeightBase.__init__ 90 0 0]) as H.
    cbv zeta in H. rewrite UO, NO, VM in H.
    cbn [utils.PI exact_angles] in H.
    destruct H as [_ H]. destruct H as (_ & Hin & _); [simpl; lia|].
    apply Hin.
    + intros g1 g2 [<- | [<- | [<- | []]]] [<- | [<- | [<- | []]]];
        rewrite !angleTo_side_false; try reflexivity;
        unfold dot; cbn [vx vy vz]; lra.
    + unfold cyclic_pairs. cbn [rev app removelast combine].
      intros pr [<- | [<- | [<- | []]]]; cbn [fst snd];
        apply angleTo_signed_nonneg;
        unfold dot, vector_cross; cbn [vx vy vz]; lra.
  - pose proof (isEnclosedBy_outcomes (U:=exact_angles) vector_cross
                  vector_angleTo (LatLonHeightBase.__init__ (-45) 45 0)
                  [LatLonHeightBase.__init__ 0 0 0;
                   LatLonHeightBase.__init__ 0 90 0;
                   LatLonHeightBase.__init__ 90 0 0]) as H.
    cbv zeta in H. rewrite UO, NO, VW in H.
    cbn [utils.PI exact_angles] in H.
    destruct H as [_ H]. destruct H as (Hout & _ & _); [simpl; lia|].
    apply Hout. intros Hsame.
    specialize (Hsame (mkVector3d 0 1 0) (mkVector3d 0 0 1)).
    rewrite angleTo_side_false, angleTo_side_true in Hsame.
    + discriminate Hsame; [now left | right; now left].
    + unfold dot; cbn [vx vy vz]; lra.
    + unfold dot; cbn [vx vy vz]; lra.
  - pose proof (isEnclosedBy_outcomes (U:=exact_angles) vector_cross
                  vector_angleTo (LatLonHeightBase.__init__ 45 45 0)
                  [LatLonHeightBase.__init__ 90 0 0;
                   LatLonHeightBase.__init__ 0 90 0;
                   LatLonHeightBase.__init__ 0 0 0]) as H.
    cbv zeta in H. rewrite UR, NR, VM in H.
    cbn [utils.PI exact_angles] in H.
    destruct H as [_ H]. destruct H as (_ & _ & Hnc); [simpl; lia|].
    apply Hnc.
    + intros g1 g2 [<- | [<- | [<- | []]]] [<- | [<- | [<- | []]]];
        rewrite !angleTo_side_true; try reflexivity;
        unfold dot; cbn [vx vy vz]; lra.
    + intros Hconv.
      specialize (Hconv (mkVector3d 0 0 (-1), mkVector3d 0 (-1) 0)).
      cbn [fst snd] in Hconv.
      pose proof (angleTo_signed_negative (mkVector3d 0 0 (-1))
                    (mkVector3d 0 (-1) 0) (mkVector3d (1 / 2) (1 / 2)
                                                      (1 / sqrt 2))) as N.
      unfold dot, vector_cross in N. cbn [vx vy vz] in N.
      assert (Hneg : vector_angleTo (mkVector3d 0 0 (-1))
                       (mkVector3d 0 (-1) 0)
                       (Some (mkVector3d (1 / 2) (1 / 2) (1 / sqrt 2))) < 0)
        by (apply N; lra).
      assert (Hin : In (mkVector3d 0 0 (-1), mkVector3d 0 (-1) 0)
                      (cyclic_pairs [mkVector3d 0 (-1) 0;
                                     mkVector3d (-1) 0 0;
                                     mkVector3d 0 0 (-1)]))
        by (unfold cyclic_pairs; cbn [rev app removelast combine];
            now left).
      specialize (Hconv Hin). lra.
  - pose proof (proj1 (isEnclosedBy_outcomes (U:=exact_angles) vector_cross
                         vector_angleTo
                         (LatLonHeightBase.__init__ 45.1 1.1 0)
                         [LatLonHeightBase.__init__ 45 1 0;
                          LatLonHeightBase.__init__ 46 1 0;
                          LatLonHeightBase.__init__ 45 1 0])) as Hfew.
    cbv zeta in Hfew.
    assert (E : unclosed
              [LatLonHeightBase.__init__ 45 1 0; LatLonHeightBase.__init__ 46 1 0;
               LatLonHeightBase.__init__ 45 1 0]
            = [LatLonHeightBase.__init__ 45 1 0;
               LatLonHeightBase.__init__ 46 1 0]).
    { unfold unclosed, LatLonHeightBase.first_equals_last,
        LatLonHeightBase.equals. simpl. now rewrite !eqb_refl. }
    rewrite E in Hfew. apply Hfew. simpl. lia.
Defined.
